(** * city-school-backend: the authentication layer

    A shallow embedding of the Express controllers (controllers/v1/auth.ts),
    the access guard (middleware/auth.ts), the Mongoose user model
    (models/User.ts), the router (routes/v1/auth.ts) and the seeding script
    (scripts/seed-admin.ts), with the properties of the specification
    stated and proved over it.

    The third-party collaborators are not code of the repository: bcryptjs
    and jsonwebtoken are taken as parameters of a section; Mongoose and the
    MongoDB collection are modelled as a finite map of user records with the
    document operations the code calls. *)

From Stdlib Require Import ZArith Ascii String List Bool Lia.
From stdpp Require Import base option list gmap strings fin_maps.

Local Open Scope string_scope.
Local Open Scope Z_scope.
Local Open Scope list_scope.

(** ** JavaScript string helpers *)

Module Js.

(** [s.startsWith(p)] *)
Definition startsWith (s p : string) : bool := String.prefix p s.

(** [s.split(sep)] for a one-character separator: n separators give
    n+1 segments, empty ones included. *)
Fixpoint split (sep : ascii) (s : string) : list string :=
  match s with
  | EmptyString => [EmptyString]
  | String c s' =>
      if Ascii.eqb c sep then EmptyString :: split sep s'
      else match split sep s' with
           | [] => [String c EmptyString]
           | seg :: rest => String c seg :: rest
           end
  end.

(** Truthiness of a value that is a string or [undefined]: [!v] holds for
    [undefined] and for the empty string. *)
Definition truthy (v : option string) : bool :=
  match v with
  | Some EmptyString => false
  | Some _ => true
  | None => false
  end.

(** [new Date(t)] is a date when [t] is no further than 8.64e15
    milliseconds from the epoch; any other [t] gives an invalid date. *)
Definition valid_date (t : Z) : bool := Z.abs t <=? 8640000000000000.

(** [s.includes(c)] for a one-character [c]. *)
Fixpoint contains (c : ascii) (s : string) : bool :=
  match s with
  | EmptyString => false
  | String a s' => Ascii.eqb a c || contains c s'
  end.

End Js.

(** ** Regular expressions, for the schema's [match] validator *)

Module Regex.

Inductive regex : Type :=
| Void
| Eps
| Class (p : ascii → bool)
| Cat (r s : regex)
| Alt (r s : regex)
| Star (r : regex).

Fixpoint nullable (r : regex) : bool :=
  match r with
  | Void => false
  | Eps => true
  | Class _ => false
  | Cat r s => nullable r && nullable s
  | Alt r s => nullable r || nullable s
  | Star _ => true
  end.

Definition cat (r s : regex) : regex :=
  match r, s with
  | Void, _ => Void
  | _, Void => Void
  | Eps, _ => s
  | _, _ => Cat r s
  end.

Definition alt (r s : regex) : regex :=
  match r, s with
  | Void, _ => s
  | _, Void => r
  | _, _ => Alt r s
  end.

Fixpoint deriv (c : ascii) (r : regex) : regex :=
  match r with
  | Void => Void
  | Eps => Void
  | Class p => if p c then Eps else Void
  | Cat r s =>
      if nullable r then alt (cat (deriv c r) s) (deriv c s)
      else cat (deriv c r) s
  | Alt r s => alt (deriv c r) (deriv c s)
  | Star r => cat (deriv c r) (Star r)
  end.

(** [/^r$/.test(s)] *)
Fixpoint test (r : regex) (s : string) : bool :=
  match s with
  | EmptyString => nullable r
  | String c s' => test (deriv c r) s'
  end.

Definition plus (r : regex) : regex := Cat r (Star r).
Definition opt (r : regex) : regex := Alt Eps r.
Definition chr (a : ascii) : regex := Class (Ascii.eqb a).

(** [\w] is [[A-Za-z0-9_]] *)
Definition is_word (c : ascii) : bool :=
  let n := N_of_ascii c in
  ((48 <=? n) && (n <=? 57) || (65 <=? n) && (n <=? 90)
   || (97 <=? n) && (n <=? 122) || (n =? 95))%N.

Definition word : regex := Class is_word.

End Regex.

(** ** The user schema (models/User.ts) *)

(** Document ids; a new document gets an id no stored record has. *)
Definition ObjectId := N.

Inductive Path := PName | PEmail | PRole | PPassword | PTenantId.

Global Instance Path_eq_dec : EqDecision Path.
Proof. solve_decision. Defined.

(** A record of the [users] collection. *)
Record User := mkUser {
  name : string;
  email : string;
  role : string;
  password : string;
  tenantId : string;
  createdAt : Z
}.

(** A Mongoose document held in memory by a handler. A path that is
    [undefined] (never given, or not selected by the query) is [None]. *)
Record Document := mkDocument {
  _id : ObjectId;
  doc_name : option string;
  doc_email : option string;
  doc_role : option string;
  doc_password : option string;
  doc_tenantId : option string;
  doc_createdAt : Z;
  isNew : bool;
  password_selected : bool;
  modifiedPaths : list Path
}.

Module UserSchema.

Import Regex.

(** [/^\w+([\.-]?\w+)*@\w+([\.-]?\w+)*(\.\w{2,3})+$/] *)
Definition email_pattern : regex :=
  let dotdash := Class (λ c, Ascii.eqb c "." || Ascii.eqb c "-") in
  let part := Cat (plus word) (Star (Cat (opt dotdash) (plus word))) in
  let tld := Cat (chr ".") (Cat word (Cat word (opt word))) in
  Cat part (Cat (chr "@") (Cat part (plus tld))).

Definition role_enum : list string :=
  ["super-admin"; "admin"; "school_admin"; "teacher"; "student"; "parent"].

Definition role_default : string := "student".

Definition password_minlength : nat := 6.

Inductive ValidatorError :=
| Required (p : Path) (message : string)
| Match (p : Path) (message : string)
| Enum (p : Path)
| MinLength (p : Path).

(** [required]: fails on [undefined] and on the empty string. *)
Definition required (p : Path) (message : string) (v : option string)
  : list ValidatorError :=
  if Js.truthy v then [] else [Required p message].

(** [match]: skipped for [undefined] and for the empty string. *)
Definition match_ (p : Path) (r : regex) (message : string)
    (v : option string) : list ValidatorError :=
  match v with
  | Some s =>
      if Js.truthy v && negb (Regex.test r s) then [Match p message] else []
  | None => []
  end.

(** [enum]: skipped for [undefined]. *)
Definition enum (p : Path) (values : list string) (v : option string)
  : list ValidatorError :=
  match v with
  | Some s => if bool_decide (s ∈ values) then [] else [Enum p]
  | None => []
  end.

(** [minlength]: skipped for [undefined]. *)
Definition minlength (p : Path) (n : nat) (v : option string)
  : list ValidatorError :=
  match v with
  | Some s => if (n <=? String.length s)%nat then [] else [MinLength p]
  | None => []
  end.

Definition validate_name (v : option string) :=
  required PName "Please add a name" v.

Definition validate_email (v : option string) :=
  required PEmail "Please add an email" v
  ++ match_ PEmail email_pattern "Please add a valid email" v.

Definition validate_role (v : option string) :=
  enum PRole role_enum v.

Definition validate_password (v : option string) :=
  required PPassword "Please add a password" v
  ++ minlength PPassword password_minlength v.

Definition validate_tenantId (v : option string) :=
  required PTenantId "Please add a tenant ID" v.

(** Validation of a document before it is saved. The password path of a
    stored document is validated only when it was selected by the query or
    has been modified since. *)
Definition validate (d : Document) : list ValidatorError :=
  validate_name (doc_name d)
  ++ validate_email (doc_email d)
  ++ validate_role (doc_role d)
  ++ (if isNew d || password_selected d
         || bool_decide (PPassword ∈ modifiedPaths d)
      then validate_password (doc_password d) else [])
  ++ validate_tenantId (doc_tenantId d).

End UserSchema.

(** ** Requests, responses and errors *)

(** [process.env] as the code reads it. The code reads [COOKIE_EXPIRE]
    through [Number(process.env.COOKIE_EXPIRE)] only, and that number is
    what the record holds: [None] is NaN, the number of a variable that is
    unset or holds no number. Whole numbers of days are modelled. *)
Record Env := mkEnv {
  JWT_SECRET : string;
  JWT_EXPIRE : string;
  Number_COOKIE_EXPIRE : option Z;
  NODE_ENV : option string
}.

(** The configured number of days, when it is a number. *)
Definition COOKIE_EXPIRE (env : Env) : Z :=
  default 0 (Number_COOKIE_EXPIRE env).

(** The payload [getSignedJwtToken] signs. *)
Record Claims := mkClaims {
  claim_id : ObjectId;
  claim_name : option string;
  claim_role : option string;
  claim_tenantId : option string
}.

Record Body := mkBody {
  body_name : option string;
  body_email : option string;
  body_password : option string;
  body_role : option string;
  body_tenantId : option string;
  body_currentPassword : option string;
  body_newPassword : option string
}.

(** [req.headers.authorization], [req.cookies.token], [req.body] and the
    [req.user] the guard attaches ([None] for [undefined] and [null]). *)
Record Request := mkRequest {
  authorization : option string;
  cookies_token : option string;
  body : Body;
  user : option Document
}.

Inductive Error :=
| ErrorResponse (message : string) (statusCode : Z)
| ValidationError (errors : list UserSchema.ValidatorError)
| DuplicateKeyError
| TypeError
| BcryptError
| JsonWebTokenError
| DocumentNotFoundError
| StoreError.

Inductive SameSite := Lax | Strict | SameSiteNone.

(** The options object given to [res.cookie]; an attribute the object does
    not mention is [None]. *)
Record CookieOptions := mkCookieOptions {
  expires : Z;
  httpOnly : option bool;
  secure : option bool;
  path : option string;
  sameSite : option SameSite
}.

Record Cookie := mkCookie {
  cookie_name : string;
  cookie_value : string;
  cookie_options : CookieOptions
}.

Inductive Json :=
| JsonToken (token : string)            (* { success: true, token } *)
| JsonData (data : option Document)     (* { success: true, data: user } *)
| JsonEmpty.                            (* { success: true, data: {} } *)

Record Response := mkResponse {
  res_status : Z;
  res_cookies : list Cookie;
  res_json : Json
}.

(** What a middleware does with a request: it sends a response, calls
    [next(err)], or calls [next()] after setting [req.user]. *)
Inductive Outcome :=
| Sent (r : Response)
| NextError (e : Error)
| NextHandler (req_user : option Document).

(** ** The world: the collection, the clock and the source of randomness *)

Record World := mkWorld {
  users : gmap ObjectId User;
  now : Z;
  entropy : nat
}.

(** What a handler sends to the store and to its collaborators.
    [EvFindById id] is a lookup by [_id]. *)
Inductive Event :=
| EvFindOne (email : string)
| EvFindById (id : ObjectId)
| EvInsertOne (id : ObjectId)
| EvUpdateOne (id : ObjectId) (paths : list Path)
| EvFindOneAndUpdate (id : ObjectId)
| EvBcryptHash (plaintext salt : string)
| EvBcryptCompare (plaintext digest : string)
| EvJwtVerify (token : string)
| EvJwtSign (payload : Claims).

Definition is_store_access (e : Event) : bool :=
  match e with
  | EvFindOne _ | EvFindById _ | EvInsertOne _ | EvUpdateOne _ _
  | EvFindOneAndUpdate _ => true
  | _ => false
  end.

(** The calls of [bcrypt.hash] in a trace, as (plaintext, salt). *)
Definition hashes (t : list Event) : list (string * string) :=
  omap (λ e, match e with EvBcryptHash p s => Some (p, s) | _ => None end) t.

Global Arguments hashes : simpl never.

(** The unique index on [email]. *)
Definition unique_email (m : gmap ObjectId User) : Prop :=
  ∀ i j ui uj, m !! i = Some ui → m !! j = Some uj → email ui = email uj → i = j.

(** ** A state, exception and trace monad for asynchronous handlers *)

Definition Result (A : Type) : Type := (Error + A) * World * list Event.

Definition M (A : Type) : Type := World → Result A.

Definition ret {A} (a : A) : M A := λ w, (inr a, w, []).

Definition throw {A} (e : Error) : M A := λ w, (inl e, w, []).

Definition bind {A B} (m : M A) (k : A → M B) : M B :=
  λ w, match m w with
       | (inl e, w', t) => (inl e, w', t)
       | (inr a, w', t) =>
           match k a w' with
           | (r, w'', t') => (r, w'', t ++ t')
           end
       end.

(** [try { m } catch (err) { h err }] *)
Definition try_catch {A} (m : M A) (h : Error → M A) : M A :=
  λ w, match m w with
       | (inl e, w', t) =>
           match h e w' with
           | (r, w'', t') => (r, w'', t ++ t')
           end
       | r => r
       end.

Definition emit (e : Event) : M unit := λ w, (inr tt, w, [e]).
Definition get : M World := λ w, (inr w, w, []).
Definition put (w : World) : M unit := λ _, (inr tt, w, []).

Global Instance M_ret : MRet M := @ret.
Global Instance M_bind : MBind M := λ A B k m, bind m k.

(** [asyncHandler(fn)]: a rejection of the handler's promise is passed to
    [next]. *)
Definition asyncHandler (h : M Outcome) : World → Outcome * World * list Event :=
  λ w, match h w with
       | (inl e, w', t) => (NextError e, w', t)
       | (inr o, w', t) => (o, w', t)
       end.

(** ** Mongoose documents over the collection *)

Module Mongoose.

(** A stored record as a query hands it out; [password] has
    [select: false] and is left out unless asked for with ['+password']. *)
Definition hydrate (select_password : bool) (id : ObjectId) (u : User)
  : Document :=
  {| _id := id;
     doc_name := Some (name u);
     doc_email := Some (email u);
     doc_role := Some (role u);
     doc_password := if select_password then Some (password u) else None;
     doc_tenantId := Some (tenantId u);
     doc_createdAt := createdAt u;
     isNew := false;
     password_selected := select_password;
     modifiedPaths := [] |}.

Definition get_path (p : Path) (d : Document) : option string :=
  match p with
  | PName => doc_name d
  | PEmail => doc_email d
  | PRole => doc_role d
  | PPassword => doc_password d
  | PTenantId => doc_tenantId d
  end.

Definition put_path (p : Path) (v : option string) (d : Document)
  : Document :=
  match p with
  | PName => mkDocument (_id d) v (doc_email d) (doc_role d)
      (doc_password d) (doc_tenantId d) (doc_createdAt d) (isNew d)
      (password_selected d) (modifiedPaths d)
  | PEmail => mkDocument (_id d) (doc_name d) v (doc_role d)
      (doc_password d) (doc_tenantId d) (doc_createdAt d) (isNew d)
      (password_selected d) (modifiedPaths d)
  | PRole => mkDocument (_id d) (doc_name d) (doc_email d) v
      (doc_password d) (doc_tenantId d) (doc_createdAt d) (isNew d)
      (password_selected d) (modifiedPaths d)
  | PPassword => mkDocument (_id d) (doc_name d) (doc_email d) (doc_role d)
      v (doc_tenantId d) (doc_createdAt d) (isNew d)
      (password_selected d) (modifiedPaths d)
  | PTenantId => mkDocument (_id d) (doc_name d) (doc_email d) (doc_role d)
      (doc_password d) v (doc_createdAt d) (isNew d)
      (password_selected d) (modifiedPaths d)
  end.

Definition mark_modified (p : Path) (d : Document) : Document :=
  mkDocument (_id d) (doc_name d) (doc_email d) (doc_role d)
    (doc_password d) (doc_tenantId d) (doc_createdAt d) (isNew d)
    (password_selected d)
    (if bool_decide (p ∈ modifiedPaths d) then modifiedPaths d
     else modifiedPaths d ++ [p]).

(** [doc.isModified(p)] *)
Definition isModified (p : Path) (d : Document) : bool :=
  bool_decide (p ∈ modifiedPaths d).

(** [doc.p = v]: the path is marked modified on a new document, on a
    path that is already modified, and otherwise only when the value
    differs from the one held. *)
Definition set (p : Path) (v : option string) (d : Document) : Document :=
  if isNew d || isModified p d || negb (bool_decide (v = get_path p d))
  then mark_modified p (put_path p v d)
  else d.

Global Arguments set : simpl never.

(** The first record of the collection with the given email; under the
    unique index at most one record has it. *)
Definition find_email (e : string) (m : gmap ObjectId User)
  : option (ObjectId * User) :=
  snd <$> list_find (λ kv, email kv.2 = e) (map_to_list m).

(** A unique index on [email]: is the value taken by a record other
    than [self]? *)
Definition email_taken (e : string) (self : option ObjectId)
    (m : gmap ObjectId User) : bool :=
  bool_decide (Exists (λ kv, email kv.2 = e ∧ self ≠ Some kv.1)
                      (map_to_list m)).

Definition given (p : Path) (v : option string) : list Path :=
  match v with Some _ => [p] | None => [] end.

(** [new User({ name, email, password, role, tenantId })]: the paths that
    are given are set, and [role] gets its default when it is not. *)
Definition new_document (id : ObjectId) (created : Z)
    (name email password role tenantId : option string) : Document :=
  {| _id := id;
     doc_name := name;
     doc_email := email;
     doc_role := match role with
                 | Some r => Some r
                 | None => Some UserSchema.role_default
                 end;
     doc_password := password;
     doc_tenantId := tenantId;
     doc_createdAt := created;
     isNew := true;
     password_selected := true;
     modifiedPaths := given PName name ++ given PEmail email
                      ++ given PPassword password ++ [PRole]
                      ++ given PTenantId tenantId |}.

(** The value a record holds at a path. *)
Definition stored_path (p : Path) (u : User) : string :=
  match p with
  | PName => name u
  | PEmail => email u
  | PRole => role u
  | PPassword => password u
  | PTenantId => tenantId u
  end.

End Mongoose.

Definition set_users (m : gmap ObjectId User) (w : World) : World :=
  {| users := m; now := now w; entropy := entropy w |}.

Definition next_entropy (w : World) : World :=
  {| users := users w; now := now w; entropy := S (entropy w) |}.

Definition saved (d : Document) : Document :=
  mkDocument (_id d) (doc_name d) (doc_email d) (doc_role d)
    (doc_password d) (doc_tenantId d) (doc_createdAt d) false
    (password_selected d) [].

Definition set_user (u : option Document) (req : Request) : Request :=
  {| authorization := authorization req;
     cookies_token := cookies_token req;
     body := body req;
     user := u |}.

Definition set_cookies_token (c : option string) (req : Request) : Request :=
  {| authorization := authorization req;
     cookies_token := c;
     body := body req;
     user := user req |}.

Definition set_body (b : Body) (req : Request) : Request :=
  {| authorization := authorization req;
     cookies_token := cookies_token req;
     body := b;
     user := user req |}.

(** ** What the schema asks of a stored record *)

(** A record whose name, email and tenant id would pass the validators
    of the schema. *)
Definition valid_user (u : User) : Prop :=
  name u ≠ ""
  ∧ Regex.test UserSchema.email_pattern (email u) = true
  ∧ tenantId u ≠ "".

Definition valid_store (w : World) : Prop :=
  ∀ id u, users w !! id = Some u → valid_user u.

(** The same, of the paths a document holds. *)
Definition valid_document (d : Document) : Prop :=
  (∀ n, doc_name d = Some n → n ≠ "")
  ∧ (∀ e, doc_email d = Some e →
          Regex.test UserSchema.email_pattern e = true)
  ∧ (∀ t, doc_tenantId d = Some t → t ≠ "").

(** The record the seeding script leaves for the admin: [u] with the
    name and the role of the super admin. *)
Definition promoted (u : User) : User :=
  mkUser "Super Admin" (email u) "super-admin" (password u) (tenantId u)
    (createdAt u).

(** Two structural readings of a regular expression. *)
Module RegexShape.

Import Regex.

(** Every character a class of [r] accepts is an [allowed] one. *)
Fixpoint within (allowed : ascii → bool) (r : regex) : Prop :=
  match r with
  | Void | Eps => True
  | Class p => ∀ c, p c = true → allowed c = true
  | Cat r s | Alt r s => within allowed r ∧ within allowed s
  | Star r => within allowed r
  end.

(** No string [r] accepts can do without the character [a]. *)
Fixpoint demands (a : ascii) (r : regex) : Prop :=
  match r with
  | Void => True
  | Eps => False
  | Class p => ∀ c, p c = true → c = a
  | Cat r s => demands a r ∨ demands a s
  | Alt r s => demands a r ∧ demands a s
  | Star _ => False
  end.

(** The characters of an email the schema accepts. *)
Definition email_char (c : ascii) : bool :=
  is_word c || Ascii.eqb c "." || Ascii.eqb c "-" || Ascii.eqb c "@".

(** Every character of [s] satisfies [p]. *)
Fixpoint every (p : ascii → bool) (s : string) : bool :=
  match s with
  | EmptyString => true
  | String c s' => p c && every p s'
  end.

End RegexShape.

(** ** Reference collaborators

    Small executable stand-ins for bcryptjs and jsonwebtoken. They show that
    what the properties below assume of the collaborators can be met, and
    they let the handlers run on concrete requests. *)

Module Reference.

(** [cat s rest] is [s] followed by [rest]. *)
Fixpoint cat (s rest : string) : string :=
  match s with
  | EmptyString => rest
  | String c s' => String c (cat s' rest)
  end.

(** A number in unary, closed by a dot, before [rest]. *)
Fixpoint put_unary (n : nat) (rest : string) : string :=
  match n with
  | O => String "." rest
  | S n => String "i" (put_unary n rest)
  end.

Fixpoint read_unary (s : string) : option (nat * string) :=
  match s with
  | EmptyString => None
  | String c s' =>
      if Ascii.eqb c "i" then
        match read_unary s' with
        | Some (n, rest) => Some (S n, rest)
        | None => None
        end
      else if Ascii.eqb c "." then Some (O, s')
      else None
  end.

Fixpoint take (n : nat) (s : string) : option (string * string) :=
  match n, s with
  | O, _ => Some (EmptyString, s)
  | S n, String c s' =>
      match take n s' with
      | Some (a, rest) => Some (String c a, rest)
      | None => None
      end
  | S _, EmptyString => None
  end.

(** A string, preceded by its length. *)
Definition put_str (s rest : string) : string :=
  put_unary (String.length s) (cat s rest).

Definition get_str (s : string) : option (string * string) :=
  match read_unary s with
  | Some (n, rest) => take n rest
  | None => None
  end.

Definition put_opt (o : option string) (rest : string) : string :=
  match o with
  | None => String "N" rest
  | Some s => String "S" (put_str s rest)
  end.

Definition get_opt (s : string) : option (option string * string) :=
  match s with
  | EmptyString => None
  | String c rest =>
      if Ascii.eqb c "N" then Some (None, rest)
      else if Ascii.eqb c "S" then
        match get_str rest with
        | Some (x, rest') => Some (Some x, rest')
        | None => None
        end
      else None
  end.

Definition encode (c : Claims) : string :=
  put_unary (N.to_nat (claim_id c))
    (put_opt (claim_name c)
       (put_opt (claim_role c) (put_opt (claim_tenantId c) EmptyString))).

Definition decode (s : string) : option Claims :=
  match read_unary s with
  | Some (id, s1) =>
      match get_opt s1 with
      | Some (n, s2) =>
          match get_opt s2 with
          | Some (r, s3) =>
              match get_opt s3 with
              | Some (t, EmptyString) => Some (mkClaims (N.of_nat id) n r t)
              | _ => None
              end
          | None => None
          end
      | None => None
      end
  | None => None
  end.

(** A token is the secret followed by the claims; it never expires. *)
Definition jwt_sign (payload : Claims) (secret expiresIn : string) (at_ : Z)
  : string :=
  put_str secret (encode payload).

Definition jwt_verify (token secret : string) (at_ : Z) : option Claims :=
  match get_str token with
  | Some (s, rest) => if String.eqb s secret then decode rest else None
  | None => None
  end.

Definition bcrypt_genSalt (rounds n : nat) : string :=
  put_unary rounds (put_unary n EmptyString).

(** A digest is the salt followed by the plaintext. *)
Definition bcrypt_hash (plaintext salt : string) : string :=
  put_str salt plaintext.

Definition bcrypt_compare (plaintext digest : string) : bool :=
  match get_str digest with
  | Some (_, rest) => String.eqb rest plaintext
  | None => false
  end.

Definition env : Env :=
  {| JWT_SECRET := "s3cr3t";
     JWT_EXPIRE := "30d";
     Number_COOKIE_EXPIRE := Some 30;
     NODE_ENV := Some "production" |}.

End Reference.

(** ** Sample data *)

Module Sample.

Definition alice_digest : string :=
  Reference.bcrypt_hash "secret1" (Reference.bcrypt_genSalt 10 0).

Definition alice : User :=
  mkUser "A" "a@b.com" "student" alice_digest "S1" 1000.

Definition alice_doc : Document := Mongoose.hydrate false 0%N alice.

(** An empty collection, and a collection that holds alice. *)
Definition empty : World := mkWorld ∅ 1000 0.
Definition w1 : World := mkWorld {[ 0%N := alice ]} 2000 1.

Definition no_body : Body := mkBody None None None None None None None.

Definition credentials (e p : string) : Body :=
  mkBody None (Some e) (Some p) None None None None.

Definition registration : Body :=
  mkBody (Some "A") (Some "a@b.com") (Some "secret1") (Some "student")
    (Some "S1") None None.

Definition change_password (cur new : string) : Body :=
  mkBody None None None None None (Some cur) (Some new).

(** A payload that renames the user and also tries to set the role, the
    password and the tenant. *)
Definition details : Body :=
  mkBody (Some "B") None (Some "hacked1") (Some "super-admin") (Some "S2")
    None None.

(** A request with neither header nor cookie. *)
Definition post (b : Body) : Request := mkRequest None None b None.

(** A request the guard has resolved to alice. *)
Definition as_alice (b : Body) : Request :=
  mkRequest None None b (Some alice_doc).

Definition claims_of (id : ObjectId) : Claims :=
  mkClaims id (Some "A") (Some "student") (Some "S1").

(** A token for alice, and a token whose id resolves to no record. *)
Definition alice_token : string :=
  Reference.jwt_sign (claims_of 0%N) "s3cr3t" "30d" 1000.
Definition stale_token : string :=
  Reference.jwt_sign (claims_of 7%N) "s3cr3t" "30d" 1000.

Definition with_token (token : string) (b : Body) : Request :=
  mkRequest (Some (String.append "Bearer " token)) None b None.

Definition bearer (token : string) : Request := with_token token no_body.

(** A second user, and a collection that holds alice and bob. *)
Definition bob : User :=
  mkUser "B" "bob@b.com" "teacher" alice_digest "S1" 1500.
Definition w2 : World := mkWorld {[ 0%N := alice; 1%N := bob ]} 3000 2.

(** A record with the admin email that is not a super admin yet. *)
Definition old_admin : User :=
  mkUser "Root" "admin@cityschool.com" "admin" alice_digest "HQ" 500.
Definition w_admin : World := mkWorld {[ 5%N := old_admin ]} 2000 1.

Definition bad_registration : Body :=
  mkBody (Some "A") (Some "not-an-email") (Some "secret1") None (Some "S1")
    None None.

Definition take_bobs_email : Body :=
  mkBody None (Some "bob@b.com") None None None None None.

Definition registration_of (n e : string) : Body :=
  mkBody (Some n) (Some e) (Some "secret1") None (Some "S1") None None.

(** A record with the admin email and an empty tenant id. *)
Definition tenantless_admin : User :=
  mkUser "Root" "admin@cityschool.com" "admin" alice_digest "" 500.
Definition w_tenantless : World := mkWorld {[ 5%N := tenantless_admin ]} 2000 1.

(** An environment whose [COOKIE_EXPIRE] leads past the last date. *)
Definition far_env : Env :=
  {| JWT_SECRET := "s3cr3t";
     JWT_EXPIRE := "30d";
     Number_COOKIE_EXPIRE := Some 200000000;
     NODE_ENV := Some "production" |}.

End Sample.

(** Unfolding of the monad's operations in a goal or a hypothesis. *)
Ltac run_M :=
  unfold asyncHandler, mbind, mret, M_bind, M_ret, bind, ret, throw, emit,
    get, put, try_catch; simpl.

Ltac run_M_in H :=
  unfold asyncHandler, mbind, mret, M_bind, M_ret, bind, ret, throw, emit,
    get, put, try_catch in H; simpl in H.

(** Non-membership in a list written out. *)
Ltac not_in_paths :=
  let H := fresh in
  intros H;
  repeat (inversion H; subst; clear H;
          match goal with H' : _ ∈ _ |- _ => rename H' into H end);
  inversion H.

Section Auth.

(** [process.env] *)
Variable env : Env.

(** bcryptjs: [genSalt(rounds)] draws a salt from the source of
    randomness, [hash(plaintext, salt)], [compare(plaintext, digest)]. *)
Variable bcrypt_genSalt : nat → nat → string.
Variable bcrypt_hash : string → string → string.
Variable bcrypt_compare : string → string → bool.

(** jsonwebtoken: [sign(payload, secret, {expiresIn})] at a given
    instant, and [verify(token, secret)] at a given instant, which throws
    ([None]) on a bad signature, an expired or a malformed token. *)
Variable jwt_sign : Claims → string → string → Z → string.
Variable jwt_verify : string → string → Z → option Claims.

(** *** models/User.ts *)

(** [UserSchema.pre('save', ...)] *)
Definition pre_save (this : Document) : M Document :=
  if negb (Mongoose.isModified PPassword this) then mret this
  else
    w ← get;
    let salt := bcrypt_genSalt 10 (entropy w) in
    put (next_entropy w);;
    match doc_password this with
    | Some plaintext =>
        emit (EvBcryptHash plaintext salt);;
        mret (Mongoose.set PPassword (Some (bcrypt_hash plaintext salt)) this)
    | None => throw BcryptError
    end.

(** [UserSchema.methods.getSignedJwtToken] *)
Definition getSignedJwtToken (this : Document) : M string :=
  w ← get;
  let payload :=
    {| claim_id := _id this;
       claim_name := doc_name this;
       claim_role := doc_role this;
       claim_tenantId := doc_tenantId this |} in
  emit (EvJwtSign payload);;
  mret (jwt_sign payload (JWT_SECRET env) (JWT_EXPIRE env) (now w)).

(** [UserSchema.methods.matchPassword] *)
Definition matchPassword (this : Document) (enteredPassword : option string)
  : M bool :=
  match enteredPassword, doc_password this with
  | Some entered, Some digest =>
      emit (EvBcryptCompare entered digest);;
      mret (bcrypt_compare entered digest)
  | _, _ => throw BcryptError
  end.

(** *** The model's operations: [save], [create], [findOne], [findById],
    [findByIdAndUpdate] *)

Definition to_user (d : Document) : option User :=
  n ← doc_name d; e ← doc_email d; r ← doc_role d;
  p ← doc_password d; t ← doc_tenantId d;
  Some (mkUser n e r p t (doc_createdAt d)).

(** [$set] of one modified path; no call site unsets a path. *)
Definition apply_path (d : Document) (u : option User) (p : Path)
  : option User :=
  u ← u; v ← Mongoose.get_path p d;
  Some match p with
       | PName => mkUser v (email u) (role u) (password u) (tenantId u) (createdAt u)
       | PEmail => mkUser (name u) v (role u) (password u) (tenantId u) (createdAt u)
       | PRole => mkUser (name u) (email u) v (password u) (tenantId u) (createdAt u)
       | PPassword => mkUser (name u) (email u) (role u) v (tenantId u) (createdAt u)
       | PTenantId => mkUser (name u) (email u) (role u) (password u) v (createdAt u)
       end.

Definition persist (d : Document) : M Document :=
  w ← get;
  if isNew d then
    emit (EvInsertOne (_id d));;
    match to_user d with
    | Some u =>
        if Mongoose.email_taken (email u) None (users w)
        then throw DuplicateKeyError
        else put (set_users (<[_id d := u]> (users w)) w);; mret (saved d)
    | None => throw StoreError
    end
  else
    match modifiedPaths d with
    | [] =>
        (* nothing to write: the document is looked up by its id, and
           the save fails if it is no longer stored *)
        emit (EvFindById (_id d));;
        match users w !! _id d with
        | Some _ => mret (saved d)
        | None => throw DocumentNotFoundError
        end
    | paths =>
        emit (EvUpdateOne (_id d) paths);;
        match users w !! _id d with
        | Some u =>
            match foldl (apply_path d) (Some u) paths with
            | Some u' =>
                if bool_decide (PEmail ∈ paths)
                   && Mongoose.email_taken (email u') (Some (_id d)) (users w)
                then throw DuplicateKeyError
                else put (set_users (<[_id d := u']> (users w)) w);;
                     mret (saved d)
            | None => throw StoreError
            end
        | None => throw DocumentNotFoundError
        end
    end.

(** [doc.save()]: validation, then the pre-save hook, then the write. *)
Definition save (d : Document) : M Document :=
  match UserSchema.validate d with
  | [] => d' ← pre_save d; persist d'
  | errors => throw (ValidationError errors)
  end.

(** [User.create({ name, email, password, role, tenantId })]: a new
    document with a fresh id, saved. *)
Definition create (name email password role tenantId : option string)
  : M Document :=
  w ← get;
  save (Mongoose.new_document (fresh (dom (users w))) (now w)
          name email password role tenantId).

(** [User.findOne({ email })], with or without [.select('+password')] *)
Definition findOne (email : string) (select_password : bool)
  : M (option Document) :=
  emit (EvFindOne email);;
  w ← get;
  mret (match Mongoose.find_email email (users w) with
        | Some (id, u) => Some (Mongoose.hydrate select_password id u)
        | None => None
        end).

(** [User.findById(id)], with or without [.select('+password')] *)
Definition findById (id : ObjectId) (select_password : bool)
  : M (option Document) :=
  emit (EvFindById id);;
  w ← get;
  mret (Mongoose.hydrate select_password id <$> users w !! id).

(** [User.findByIdAndUpdate(id, { name, email },
    { new: true, runValidators: true })]; a key whose value is
    [undefined] is dropped from the update. *)
Definition findByIdAndUpdate (id : ObjectId) (upd_name upd_email : option string)
  : M (option Document) :=
  let errors :=
    (if upd_name is Some _ then UserSchema.validate_name upd_name else [])
    ++ (if upd_email is Some _ then UserSchema.validate_email upd_email
        else []) in
  match errors with
  | [] =>
      match upd_name, upd_email with
      | None, None =>
          (* an update that sets nothing is sent as a plain lookup *)
          findById id false
      | _, _ =>
          emit (EvFindOneAndUpdate id);;
          w ← get;
          match users w !! id with
          | Some u =>
              let u' := mkUser (default (name u) upd_name)
                          (default (email u) upd_email)
                          (role u) (password u) (tenantId u) (createdAt u) in
              if (if upd_email is Some _ then true else false)
                 && Mongoose.email_taken (email u') (Some id) (users w)
              then throw DuplicateKeyError
              else put (set_users (<[id := u']> (users w)) w);;
                   mret (Some (Mongoose.hydrate false id u'))
          | None => mret None
          end
      end
  | _ => throw (ValidationError errors)
  end.

(** *** controllers/v1/auth.ts *)

(** [new Date(Date.now() + Number(process.env.COOKIE_EXPIRE)
    * 24 * 60 * 60 * 1000)] at the time [at_]: the time value of the date,
    or [None] for an invalid date. *)
Definition cookie_expires (at_ : Z) : option Z :=
  match Number_COOKIE_EXPIRE env with
  | Some days =>
      let t := at_ + days * 24 * 60 * 60 * 1000 in
      if Js.valid_date t then Some t else None
  | None => None
  end.

Arguments cookie_expires : simpl never.

(** Get token from model, create cookie and send response. [res.cookie]
    throws a TypeError ('option expires is invalid') when the expiry is an
    invalid date; by then the token is signed and nothing is sent. *)
Definition sendTokenResponse (user : Document) (statusCode : Z) : M Outcome :=
  token ← getSignedJwtToken user;
  w ← get;
  match cookie_expires (now w) with
  | Some date =>
      let options :=
        {| expires := date;
           httpOnly := Some true;
           secure := Some (bool_decide (NODE_ENV env = Some "production"));
           path := Some "/";
           sameSite := Some Lax |} in
      mret (Sent {| res_status := statusCode;
                    res_cookies := [mkCookie "token" token options];
                    res_json := JsonToken token |})
  | None => throw TypeError
  end.

(** POST /api/v1/auth/register *)
Definition register (req : Request) : M Outcome :=
  let b := body req in
  user ← create (body_name b) (body_email b) (body_password b)
                (body_role b) (body_tenantId b);
  sendTokenResponse user 200.

(** POST /api/v1/auth/login *)
Definition login (req : Request) : M Outcome :=
  let email := body_email (body req) in
  let password := body_password (body req) in
  if negb (Js.truthy email) || negb (Js.truthy password) then
    mret (NextError (ErrorResponse "Please provide an email and password" 400))
  else
    user ← findOne (default "" email) true;
    match user with
    | None => mret (NextError (ErrorResponse "Invalid credentials" 401))
    | Some user =>
        isMatch ← matchPassword user password;
        if negb isMatch then
          mret (NextError (ErrorResponse "Invalid credentials" 401))
        else sendTokenResponse user 200
    end.

(** GET /api/v1/auth/logout. As in [sendTokenResponse], [res.cookie]
    throws a TypeError when the expiry is an invalid date. *)
Definition logout (req : Request) : M Outcome :=
  w ← get;
  let date := now w + 10 * 1000 in
  if Js.valid_date date then
    let cookie :=
      mkCookie "token" "none"
        {| expires := date;
           httpOnly := Some true;
           secure := None;
           path := Some "/";
           sameSite := None |} in
    mret (Sent {| res_status := 200;
                  res_cookies := [cookie];
                  res_json := JsonEmpty |})
  else throw TypeError.

(** PUT /api/v1/auth/updatedetails *)
Definition updateDetails (req : Request) : M Outcome :=
  match user req with
  | None => throw TypeError
  | Some acting =>
      user ← findByIdAndUpdate (_id acting)
               (body_name (body req)) (body_email (body req));
      mret (Sent {| res_status := 200;
                    res_cookies := [];
                    res_json := JsonData user |})
  end.

(** PUT /api/v1/auth/updatepassword *)
Definition updatePassword (req : Request) : M Outcome :=
  match user req with
  | None => throw TypeError
  | Some acting =>
      user ← findById (_id acting) true;
      match user with
      | None => throw TypeError
      | Some user =>
          ok ← matchPassword user (body_currentPassword (body req));
          if negb ok then
            mret (NextError (ErrorResponse "Current password is incorrect" 401))
          else
            user ← save (Mongoose.set PPassword
                           (body_newPassword (body req)) user);
            sendTokenResponse user 200
      end
  end.

(** *** middleware/auth.ts *)

Definition not_authorized : Error :=
  ErrorResponse "Not authorized to access this route" 401.

(** The first lines of [protect]: the token comes from the
    Authorization header, or else from the cookie. *)
Definition request_token (req : Request) : option string :=
  if match authorization req with
     | Some h => Js.truthy (Some h) && Js.startsWith h "Bearer"
     | None => false
     end
  then (* Set token from Bearer token in header *)
    h ← authorization req; Js.split " " h !! 1%nat
  else if Js.truthy (cookies_token req)
  then (* Set token from cookie *)
    cookies_token req
  else None.

Definition protect (req : Request) : M Outcome :=
  match request_token req with
  | Some token =>
      (* Make sure token exists *)
      if negb (Js.truthy (Some token)) then mret (NextError not_authorized)
      else
        try_catch
          (w ← get;
           emit (EvJwtVerify token);;
           match jwt_verify token (JWT_SECRET env) (now w) with
           | Some decoded =>
               user ← findById (claim_id decoded) false;
               mret (NextHandler user)
           | None => throw JsonWebTokenError
           end)
          (λ err, mret (NextError not_authorized))
  | None => mret (NextError not_authorized)
  end.

(** Grant access to specific roles. *)
Definition authorize (roles : list string) (req : Request) : M Outcome :=
  match user req with
  | None => throw TypeError
  | Some u =>
      if negb (bool_decide (doc_role u ∈ (Some <$> roles))) then
        mret (NextError (ErrorResponse
          ("User role " ++ default "undefined" (doc_role u)
           ++ " is not authorized to access this route")%string 403))
      else mret (NextHandler (user req))
  end.

(** *** routes/v1/auth.ts *)

Inductive Route :=
| PostRegister | PostLogin | GetLogout | PutUpdateDetails | PutUpdatePassword.

(** [router.put(path, guard, handler)] *)
Definition guarded (guard handler : Request → M Outcome) (req : Request)
  : World → Outcome * World * list Event :=
  λ w, match asyncHandler (guard req) w with
       | (NextHandler u, w', t) =>
           match asyncHandler (handler (set_user u req)) w' with
           | (o, w'', t') => (o, w'', t ++ t')
           end
       | r => r
       end.

Definition router (r : Route) (req : Request)
  : World → Outcome * World * list Event :=
  match r with
  | PostRegister => asyncHandler (register req)
  | PostLogin => asyncHandler (login req)
  | GetLogout => asyncHandler (logout req)
  | PutUpdateDetails => guarded protect updateDetails req
  | PutUpdatePassword => guarded protect updatePassword req
  end.

(** *** scripts/seed-admin.ts *)

Definition seedAdmin : World → Z * World * list Event :=
  λ w,
    match (adminExists ← findOne "admin@cityschool.com" false;
           match adminExists with
           | Some adminExists =>
               let adminExists :=
                 Mongoose.set PRole (Some "super-admin") adminExists in
               let adminExists :=
                 Mongoose.set PName (Some "Super Admin") adminExists in
               save adminExists;; mret tt
           | None =>
               create (Some "Super Admin") (Some "admin@cityschool.com")
                 (Some "adminpassword123") (Some "super-admin")
                 (Some "HQ-GLOBAL");;
               mret tt
           end) w with
    | (inr _, w', t) => (0, w', t)
    | (inl _, w', t) => (1, w', t)
    end.

(** *** Runs of the system *)

(** What can happen to the collection: a request through the router, a
    run of the seeding script, or time passing. *)
Inductive Op :=
| Http (r : Route) (req : Request)
| Seed
| Tick (t : Z).

Definition step (op : Op) (w : World) : World * list Event :=
  match op with
  | Http r req => let '(_, w', t) := router r req w in (w', t)
  | Seed => let '(_, w', t) := seedAdmin w in (w', t)
  | Tick t => ({| users := users w; now := t; entropy := entropy w |}, [])
  end.

Fixpoint run (ops : list Op) (w : World) : World :=
  match ops with
  | [] => w
  | op :: ops => run ops (step op w).1
  end.

(** The plaintext password an operation submits, if any. *)
Definition submitted (op : Op) : option string :=
  match op with
  | Http PostRegister req => body_password (body req)
  | Http PutUpdatePassword req => body_newPassword (body req)
  | Seed => Some "adminpassword123"
  | _ => None
  end.

(** A stored password is the digest of some plaintext, computed with a
    salt that [genSalt] drew, and differs from that plaintext. *)
Definition is_digest (d : string) : Prop :=
  ∃ plaintext n,
    d = bcrypt_hash plaintext (bcrypt_genSalt 10 n) ∧ d ≠ plaintext.

Definition all_digests (w : World) : Prop :=
  ∀ id u, users w !! id = Some u → is_digest (password u).

(** Every record of [w'] was in [w] with the same password. *)
Definition passwords_kept (w w' : World) : Prop :=
  ∀ id u', users w' !! id = Some u' →
    ∃ u, users w !! id = Some u ∧ password u' = password u.

(** What one operation may do to passwords: either it hashes nothing and
    keeps every password, or it hashes once, the plaintext it was given,
    and every password it leaves is an old one or that digest. *)
Definition password_discipline (given_plaintext : option string)
    (w w' : World) (t : list Event) : Prop :=
  (hashes t = [] ∧ passwords_kept w w')
  ∨ ∃ p, let salt := bcrypt_genSalt 10 (entropy w) in
      given_plaintext = Some p ∧ hashes t = [(p, salt)]
      ∧ ∀ id u', users w' !! id = Some u' →
          (∃ u, users w !! id = Some u ∧ password u' = password u)
          ∨ password u' = bcrypt_hash p salt.

Definition invalid_credentials : Error :=
  ErrorResponse "Invalid credentials" 401.

(** The cookie of a response that issues a token. *)
Definition issues_token_at (at_ : Z) (r : Response) : Prop :=
  ∃ payload,
    let token := jwt_sign payload (JWT_SECRET env) (JWT_EXPIRE env) at_ in
    res_json r = JsonToken token
    ∧ res_cookies r =
        [mkCookie "token" token
           {| expires := at_ + COOKIE_EXPIRE env * 24 * 60 * 60 * 1000;
              httpOnly := Some true;
              secure := Some (bool_decide (NODE_ENV env = Some "production"));
              path := Some "/";
              sameSite := Some Lax |}].

(** ** Properties *)

(** *** JavaScript helpers and the collection *)

Lemma truthy_Some (v : option string) :
  Js.truthy v = true ↔ ∃ s, v = Some s ∧ s ≠ "".
Proof.
  destruct v as [[|c s]|]; simpl; split; try discriminate.
  - intros (s & Hs & Hne). by inversion Hs; subst.
  - intros _. by exists (String c s).
  - done.
  - intros (s & Hs & _). discriminate.
Qed.

Lemma truthy_false (v : option string) :
  Js.truthy v = false ↔ v = None ∨ v = Some "".
Proof.
  destruct v as [[|c s]|]; simpl; split; auto; try discriminate.
  intros [?|?]; discriminate.
Qed.

Lemma find_email_None (e : string) (m : gmap ObjectId User) :
  Mongoose.find_email e m = None ↔
  ∀ id u, m !! id = Some u → email u ≠ e.
Proof.
  unfold Mongoose.find_email. rewrite fmap_None, list_find_None, Forall_forall.
  split.
  - intros H id u Hu. apply (H (id, u)). by apply elem_of_map_to_list.
  - intros H [id u] Hin. apply elem_of_map_to_list in Hin. by apply (H id).
Qed.

Lemma find_email_Some (e : string) (m : gmap ObjectId User) id u :
  Mongoose.find_email e m = Some (id, u) → m !! id = Some u ∧ email u = e.
Proof.
  unfold Mongoose.find_email. rewrite fmap_Some.
  intros ([i [id' u']] & Hfind & Heq). simpl in Heq. inversion Heq; subst.
  apply list_find_Some in Hfind as (Hl & HP & _). split; [|done].
  apply elem_of_map_to_list. by eapply list_elem_of_lookup_2.
Qed.

Lemma email_taken_false (e : string) self (m : gmap ObjectId User) :
  Mongoose.email_taken e self m = false ↔
  ∀ id u, m !! id = Some u → email u = e → self = Some id.
Proof.
  unfold Mongoose.email_taken. rewrite bool_decide_eq_false, Exists_exists.
  split.
  - intros H id u Hu He. destruct (decide (self = Some id)) as [|Hne]; [done|].
    exfalso. apply H. exists (id, u). split; [by apply elem_of_map_to_list|done].
  - intros H ([id u] & Hin & He & Hne). apply elem_of_map_to_list in Hin.
    simpl in *. apply Hne. by eapply H.
Qed.

Lemma email_taken_fresh (e : string) (m : gmap ObjectId User) :
  Mongoose.email_taken e None m = false ↔
  ∀ id u, m !! id = Some u → email u ≠ e.
Proof.
  rewrite email_taken_false. split.
  - intros H id u Hu He. by specialize (H id u Hu He).
  - intros H id u Hu He. by destruct (H id u Hu).
Qed.

(** *** Login *)

Lemma login_unknown_email (req : Request) (w : World) (e p : string) :
  body_email (body req) = Some e → body_password (body req) = Some p →
  e ≠ "" → p ≠ "" →
  (∀ id u, users w !! id = Some u → email u ≠ e) →
  asyncHandler (login req) w = (NextError invalid_credentials, w, [EvFindOne e]).
Proof.
  intros He Hp Hne Hnp Hnone. unfold login, findOne. rewrite He, Hp.
  destruct e as [|c e]; [done|]. destruct p as [|c' p]; [done|].
  apply find_email_None in Hnone. run_M. by rewrite Hnone.
Qed.

Lemma login_wrong_password (req : Request) (w : World) (e p : string) :
  body_email (body req) = Some e → body_password (body req) = Some p →
  e ≠ "" → p ≠ "" →
  (∃ id u, users w !! id = Some u ∧ email u = e) →
  (∀ id u, users w !! id = Some u → email u = e →
           bcrypt_compare p (password u) = false) →
  ∃ digest,
    asyncHandler (login req) w =
      (NextError invalid_credentials, w, [EvFindOne e; EvBcryptCompare p digest]).
Proof.
  intros He Hp Hne Hnp (id & u & Hu & Hue) Hcmp.
  unfold login, findOne, matchPassword. rewrite He, Hp.
  destruct e as [|c e]; [done|]. destruct p as [|c' p]; [done|].
  run_M. destruct (Mongoose.find_email _ _) as [[id' u']|] eqn:Hfind.
  - apply find_email_Some in Hfind as [Hu' He']. simpl.
    rewrite (Hcmp id' u' Hu' He'). simpl. by eexists.
  - rewrite find_email_None in Hfind. by destruct (Hfind id u Hu).
Qed.

(** C1. A login whose email matches no stored user and a login whose
    email matches a stored user but whose password fails the digest
    comparison hand the same error to the error handler: the message
    'Invalid credentials' with status 401, and neither changes the
    store. *)
Theorem login_failures_indistinguishable
    (req1 req2 : Request) (w1 w2 : World) (e1 p1 e2 p2 : string) :
  body_email (body req1) = Some e1 → body_password (body req1) = Some p1 →
  e1 ≠ "" → p1 ≠ "" →
  (∀ id u, users w1 !! id = Some u → email u ≠ e1) →
  body_email (body req2) = Some e2 → body_password (body req2) = Some p2 →
  e2 ≠ "" → p2 ≠ "" →
  (∃ id u, users w2 !! id = Some u ∧ email u = e2) →
  (∀ id u, users w2 !! id = Some u → email u = e2 →
           bcrypt_compare p2 (password u) = false) →
  (asyncHandler (login req1) w1).1.1
    = NextError (ErrorResponse "Invalid credentials" 401)
  ∧ (asyncHandler (login req2) w2).1.1
    = NextError (ErrorResponse "Invalid credentials" 401)
  ∧ (asyncHandler (login req1) w1).1.1 = (asyncHandler (login req2) w2).1.1
  ∧ (asyncHandler (login req1) w1).1.2 = w1
  ∧ (asyncHandler (login req2) w2).1.2 = w2.
Proof.
  intros He1 Hp1 Hne1 Hnp1 Hnone He2 Hp2 Hne2 Hnp2 Hex Hcmp.
  rewrite (login_unknown_email req1 w1 e1 p1) by done.
  destruct (login_wrong_password req2 w2 e2 p2) as [digest ->]; done.
Qed.

(** C9. A login whose email or password is missing or empty fails at once
    with 'Please provide an email and password' and status 400, without
    touching the store; the store is accessed only when both fields are
    present and non-empty. *)
Theorem login_requires_email_and_password (req : Request) (w : World) :
  (body_email (body req) = None ∨ body_email (body req) = Some "" ∨
   body_password (body req) = None ∨ body_password (body req) = Some "" →
   asyncHandler (login req) w =
     (NextError (ErrorResponse "Please provide an email and password" 400),
      w, []))
  ∧ (∀ ev, ev ∈ (asyncHandler (login req) w).2 → is_store_access ev = true →
       (∃ e, body_email (body req) = Some e ∧ e ≠ "") ∧
       (∃ p, body_password (body req) = Some p ∧ p ≠ "")).
Proof.
  unfold login.
  destruct (body_email (body req)) as [[|c e]|],
           (body_password (body req)) as [[|c' p]|]; simpl; split;
    try (intros _; reflexivity);
    try (intros ev Hin; by apply elem_of_nil in Hin).
  - intros [?|[?|[?|?]]]; discriminate.
  - intros ev _ _. split; eexists; (split; [reflexivity|done]).
Qed.

(** *** The access guard *)

Lemma startsWith_nonempty (h p : string) :
  p ≠ "" → Js.startsWith h p = true → Js.truthy (Some h) = true.
Proof. destruct h, p; simpl; done. Qed.

Lemma request_token_bearer (req : Request) (h : string) :
  authorization req = Some h → Js.startsWith h "Bearer" = true →
  request_token req = Js.split " " h !! 1%nat.
Proof.
  intros Hh Hb. unfold request_token. rewrite Hh, Hb.
  by rewrite (startsWith_nonempty h "Bearer").
Qed.

Lemma request_token_cookie (req : Request) :
  authorization req = None ∨
  (∃ h, authorization req = Some h ∧ Js.startsWith h "Bearer" = false) →
  request_token req =
    if Js.truthy (cookies_token req) then cookies_token req else None.
Proof.
  unfold request_token. intros [->|(h & -> & ->)]; [done|].
  by rewrite andb_false_r.
Qed.

Lemma protect_no_token (req : Request) (w : World) :
  request_token req = None ∨ request_token req = Some "" →
  asyncHandler (protect req) w = (NextError not_authorized, w, []).
Proof. unfold protect. by intros [->| ->]. Qed.

Lemma protect_verify_fails (req : Request) (w : World) (tok : string) :
  request_token req = Some tok → tok ≠ "" →
  jwt_verify tok (JWT_SECRET env) (now w) = None →
  asyncHandler (protect req) w
    = (NextError not_authorized, w, [EvJwtVerify tok]).
Proof.
  intros Ht Hne Hv. unfold protect. rewrite Ht.
  destruct tok as [|c tok]; [done|]. run_M. by rewrite Hv.
Qed.

Lemma protect_verified (req : Request) (w : World) (tok : string) decoded :
  request_token req = Some tok → tok ≠ "" →
  jwt_verify tok (JWT_SECRET env) (now w) = Some decoded →
  asyncHandler (protect req) w
    = (NextHandler (Mongoose.hydrate false (claim_id decoded)
                      <$> users w !! claim_id decoded),
       w, [EvJwtVerify tok; EvFindById (claim_id decoded)]).
Proof.
  intros Ht Hne Hv. unfold protect, findById. rewrite Ht.
  destruct tok as [|c tok]; [done|]. run_M. by rewrite Hv.
Qed.

Lemma protect_error_cases (req : Request) (w : World) (e : Error) :
  (asyncHandler (protect req) w).1.1 = NextError e →
  e = not_authorized
  ∧ ((request_token req = None ∨ request_token req = Some "")
     ∨ ∃ tok, request_token req = Some tok
              ∧ jwt_verify tok (JWT_SECRET env) (now w) = None).
Proof.
  destruct (request_token req) as [tok|] eqn:Ht.
  - destruct (decide (tok = "")) as [->|Hne].
    + rewrite protect_no_token by auto. simpl. intros [= <-]. auto.
    + destruct (jwt_verify tok (JWT_SECRET env) (now w)) as [d|] eqn:Hv.
      * by rewrite (protect_verified req w tok d).
      * rewrite (protect_verify_fails req w tok) by done. simpl.
        intros [= <-]. split; [done|]. right. by exists tok.
  - rewrite protect_no_token by auto. simpl. intros [= <-]. auto.
Qed.

(** C2. The guard takes the token from the Authorization header when the
    header is present and starts with 'Bearer', and otherwise from the
    'token' cookie. When neither yields a token it fails with the 401
    'not authorized' error and touches nothing; a token that fails
    verification gets the very same error, and the guard has no other
    error to give. *)
Theorem protect_token_and_failures (req : Request) (w : World) :
  (∀ h, authorization req = Some h → Js.startsWith h "Bearer" = true →
        request_token req = Js.split " " h !! 1%nat)
  ∧ (authorization req = None ∨
     (∃ h, authorization req = Some h ∧ Js.startsWith h "Bearer" = false) →
     request_token req =
       if Js.truthy (cookies_token req) then cookies_token req else None)
  ∧ (request_token req = None ∨ request_token req = Some "" →
     asyncHandler (protect req) w =
       (NextError (ErrorResponse "Not authorized to access this route" 401),
        w, []))
  ∧ (∀ tok, request_token req = Some tok → tok ≠ "" →
       jwt_verify tok (JWT_SECRET env) (now w) = None →
       asyncHandler (protect req) w =
         (NextError (ErrorResponse "Not authorized to access this route" 401),
          w, [EvJwtVerify tok]))
  ∧ (∀ e, (asyncHandler (protect req) w).1.1 = NextError e →
       e = ErrorResponse "Not authorized to access this route" 401).
Proof.
  split_and!.
  - apply request_token_bearer.
  - apply request_token_cookie.
  - apply protect_no_token.
  - apply protect_verify_fails.
  - intros e He. by apply protect_error_cases in He as [-> _].
Qed.

(** C7. A token that verifies but whose embedded id resolves to no user
    record does not make the guard fail: it sets [req.user] to the absent
    identity and calls the next handler. The guard gives an error only
    when the token is missing or fails verification. *)
Theorem protect_unresolved_identity
    (req : Request) (w : World) (tok : string) (decoded : Claims) :
  request_token req = Some tok → tok ≠ "" →
  jwt_verify tok (JWT_SECRET env) (now w) = Some decoded →
  users w !! claim_id decoded = None →
  asyncHandler (protect req) w
    = (NextHandler None, w, [EvJwtVerify tok; EvFindById (claim_id decoded)])
  ∧ (∀ req' w' e, (asyncHandler (protect req') w').1.1 = NextError e →
       (request_token req' = None ∨ request_token req' = Some "")
       ∨ ∃ tok', request_token req' = Some tok'
                 ∧ jwt_verify tok' (JWT_SECRET env) (now w') = None).
Proof.
  intros Ht Hne Hv Hnone. split.
  - rewrite (protect_verified req w tok decoded) by done. by rewrite Hnone.
  - intros req' w' e He. by apply protect_error_cases in He as [_ ?].
Qed.

(** C10. When the Authorization header is present and starts with
    'Bearer', the guard never reads the cookie: its result is the same
    for every cookie, and if the header has no token after 'Bearer' the
    request fails with the 401 error whatever the cookie holds. *)
Theorem protect_bearer_ignores_cookie
    (req : Request) (w : World) (h : string) :
  authorization req = Some h → Js.startsWith h "Bearer" = true →
  (∀ c, asyncHandler (protect (set_cookies_token c req)) w
        = asyncHandler (protect req) w)
  ∧ (Js.split " " h !! 1%nat = None ∨ Js.split " " h !! 1%nat = Some "" →
     ∀ c, asyncHandler (protect (set_cookies_token c req)) w =
       (NextError (ErrorResponse "Not authorized to access this route" 401),
        w, [])).
Proof.
  intros Hh Hb.
  assert (Htok : ∀ c, request_token (set_cookies_token c req)
                      = Js.split " " h !! 1%nat)
    by (intros c; by apply request_token_bearer).
  split.
  - intros c. unfold protect.
    by rewrite Htok, (request_token_bearer req h).
  - intros Hno c. apply protect_no_token. by rewrite Htok.
Qed.

(** *** Saving a document *)

Lemma hashes_app (t1 t2 : list Event) :
  hashes (t1 ++ t2) = hashes t1 ++ hashes t2.
Proof. apply omap_app. Qed.

Lemma hashes_nil : hashes [] = [].
Proof. done. Qed.

Lemma hashes_hash (p salt : string) (t : list Event) :
  hashes (EvBcryptHash p salt :: t) = (p, salt) :: hashes t.
Proof. done. Qed.

Lemma hashes_skip (e : Event) (t : list Event) :
  match e with EvBcryptHash _ _ => False | _ => True end →
  hashes (e :: t) = hashes t.
Proof. by destruct e. Qed.

Ltac norm_hashes :=
  repeat first [ rewrite hashes_app | rewrite hashes_hash
               | rewrite hashes_skip by exact I | rewrite hashes_nil ].

Lemma foldl_apply_path_None (d : Document) (paths : list Path) :
  foldl (apply_path d) None paths = None.
Proof. induction paths; simpl; auto. Qed.

Lemma apply_path_Some (d : Document) (u u' : User) (p : Path) :
  apply_path d (Some u) p = Some u' →
  Mongoose.get_path p d = Some (Mongoose.stored_path p u')
  ∧ createdAt u' = createdAt u
  ∧ ∀ q, q ≠ p → Mongoose.stored_path q u' = Mongoose.stored_path q u.
Proof.
  unfold apply_path. simpl. destruct (Mongoose.get_path p d) as [v|]; [|done].
  simpl. intros [= <-]. destruct p; simpl; (split_and!; [done..|]);
    intros []; simpl; congruence.
Qed.

Lemma foldl_apply_path (d : Document) (paths : list Path) (u u' : User) :
  foldl (apply_path d) (Some u) paths = Some u' →
  createdAt u' = createdAt u
  ∧ ∀ p, if bool_decide (p ∈ paths)
         then Mongoose.get_path p d = Some (Mongoose.stored_path p u')
         else Mongoose.stored_path p u' = Mongoose.stored_path p u.
Proof.
  revert u. induction paths as [|q paths IH]; intros u; cbn [foldl].
  - intros [= <-]. split; [done|]. intros p. by rewrite bool_decide_eq_false_2
      by apply not_elem_of_nil.
  - destruct (apply_path d (Some u) q) as [u1|] eqn:Hq;
      [|by rewrite foldl_apply_path_None].
    intros Hf. apply apply_path_Some in Hq as (Hget & Hc & Hother).
    destruct (IH u1 Hf) as [Hc' IH']. split; [congruence|].
    intros p. specialize (IH' p).
    destruct (decide (p = q)) as [->|Hpq].
    + rewrite bool_decide_eq_true_2 by (by left).
      destruct (bool_decide (q ∈ paths)); [done|]. by rewrite IH'.
    + destruct (decide (p ∈ paths)) as [Hin|Hin].
      * rewrite bool_decide_eq_true_2 by (by right).
        by rewrite bool_decide_eq_true_2 in IH'.
      * rewrite bool_decide_eq_false_2
          by (intros [?|?]%elem_of_cons; done).
        rewrite bool_decide_eq_false_2 in IH' by done.
        rewrite IH'. by apply Hother.
Qed.

Lemma persist_inv (d : Document) (w : World) r w' t :
  persist d w = (r, w', t) →
  now w' = now w ∧ entropy w' = entropy w ∧ hashes t = []
  ∧ ((users w' = users w
      ∧ ((∃ e, r = inl e)
         ∨ (r = inr (saved d) ∧ modifiedPaths d = [] ∧ isNew d = false)))
     ∨ (r = inr (saved d) ∧ isNew d = true
        ∧ ∃ u, to_user d = Some u
               ∧ Mongoose.email_taken (email u) None (users w) = false
               ∧ users w' = <[_id d := u]> (users w))
     ∨ (r = inr (saved d) ∧ isNew d = false
        ∧ ∃ u u', users w !! _id d = Some u
                  ∧ foldl (apply_path d) (Some u) (modifiedPaths d) = Some u'
                  ∧ (PEmail ∈ modifiedPaths d →
                     Mongoose.email_taken (email u') (Some (_id d)) (users w)
                     = false)
                  ∧ users w' = <[_id d := u']> (users w))).
Proof.
  unfold persist. run_M. intros H.
  repeat case_match; simplify_eq/=; split_and!; try done;
    try (left; split; [done|]; first [left; by eexists | by right]);
    first [ right; left; split_and!; [done..|]; eexists; split_and!; done
          | right; right; split_and!; [done..|]; do 2 eexists;
            split_and!; [done..| |done] ].
  all: intros Hin;
    first [ done
          | match goal with
            | H : _ && _ = false |- _ =>
                apply andb_false_iff in H as [H|H]; [|done];
                by apply bool_decide_eq_false in H
            end ].
Qed.

Lemma set_modified (p : Path) (v : option string) (d : Document) :
  Mongoose.isModified p d = true →
  Mongoose.set p v d = Mongoose.put_path p v d.
Proof.
  unfold Mongoose.set, Mongoose.isModified, Mongoose.mark_modified.
  intros H. rewrite H, orb_true_r. simpl.
  destruct d, p; simpl in *; by rewrite H.
Qed.

Lemma save_unfold (d : Document) (w : World) :
  save d w =
  match UserSchema.validate d with
  | [] =>
      if Mongoose.isModified PPassword d then
        match doc_password d with
        | Some p =>
            let salt := bcrypt_genSalt 10 (entropy w) in
            match persist (Mongoose.put_path PPassword
                             (Some (bcrypt_hash p salt)) d)
                          (next_entropy w) with
            | (r, w', t) => (r, w', EvBcryptHash p salt :: t)
            end
        | None => (inl BcryptError, next_entropy w, [])
        end
      else persist d w
  | errors => (inl (ValidationError errors), w, [])
  end.
Proof.
  unfold save, pre_save. destruct (UserSchema.validate d); [|done].
  destruct (Mongoose.isModified PPassword d) eqn:Hm; run_M.
  - destruct (doc_password d) as [p|]; [|done].
    rewrite set_modified by done. by destruct (persist _ _) as [[[]]].
  - by destruct (persist d w) as [[[]]].
Qed.

(** *** Logging out *)

Lemma logout_run (req : Request) (w : World) o w' t :
  asyncHandler (logout req) w = (o, w', t) →
  w' = w ∧ t = []
  ∧ (o = NextError TypeError
     ∨ o = Sent {| res_status := 200;
                   res_cookies :=
                     [mkCookie "token" "none"
                        {| expires := now w + 10 * 1000;
                           httpOnly := Some true;
                           secure := None;
                           path := Some "/";
                           sameSite := None |}];
                   res_json := JsonEmpty |}).
Proof.
  unfold logout. run_M. cbv zeta.
  destruct (Js.valid_date _); intros [= <- <- <-]; auto.
Qed.

(** *** The token response *)

Lemma cookie_expires_Some (at_ date : Z) :
  cookie_expires at_ = Some date →
  date = at_ + COOKIE_EXPIRE env * 24 * 60 * 60 * 1000.
Proof.
  unfold cookie_expires, COOKIE_EXPIRE.
  destruct (Number_COOKIE_EXPIRE env) as [days|]; [|done]. cbn [default].
  cbv zeta. destruct (Js.valid_date _); [|done]. by intros [= <-].
Qed.

Lemma sendTokenResponse_unfold (u : Document) (statusCode : Z) (w : World) :
  let payload := mkClaims (_id u) (doc_name u) (doc_role u) (doc_tenantId u) in
  let token := jwt_sign payload (JWT_SECRET env) (JWT_EXPIRE env) (now w) in
  sendTokenResponse u statusCode w =
    match cookie_expires (now w) with
    | Some date =>
        (inr (Sent
           {| res_status := statusCode;
              res_cookies :=
                [mkCookie "token" token
                   {| expires := date;
                      httpOnly := Some true;
                      secure := Some (bool_decide
                                        (NODE_ENV env = Some "production"));
                      path := Some "/";
                      sameSite := Some Lax |}];
              res_json := JsonToken token |}),
         w, [EvJwtSign payload])
    | None => (inl TypeError, w, [EvJwtSign payload])
    end.
Proof.
  cbv zeta. unfold sendTokenResponse, getSignedJwtToken. run_M.
  by destruct (cookie_expires (now w)).
Qed.

(** *** Registration *)

Lemma email_pattern_nonempty (e : string) :
  Regex.test UserSchema.email_pattern e = true → e ≠ "".
Proof. by intros H ->. Qed.

Lemma fresh_id_unused (m : gmap ObjectId User) : m !! fresh (dom m) = None.
Proof. apply not_elem_of_dom, is_fresh. Qed.

Lemma validate_new_document id (n e r p t : string) c sel mp :
  n ≠ "" → Regex.test UserSchema.email_pattern e = true →
  r ∈ UserSchema.role_enum → (6 ≤ String.length p)%nat → t ≠ "" →
  UserSchema.validate
    {| _id := id; doc_name := Some n; doc_email := Some e;
       doc_role := Some r; doc_password := Some p; doc_tenantId := Some t;
       doc_createdAt := c; isNew := true; password_selected := sel;
       modifiedPaths := mp |} = [].
Proof.
  intros Hn Hre Hrin Hlen Ht.
  unfold UserSchema.validate, UserSchema.validate_name,
    UserSchema.validate_email, UserSchema.validate_role,
    UserSchema.validate_password, UserSchema.validate_tenantId,
    UserSchema.required, UserSchema.match_, UserSchema.enum,
    UserSchema.minlength, UserSchema.password_minlength.
  cbn [doc_name doc_email doc_role doc_password doc_tenantId isNew orb].
  rewrite Hre, (bool_decide_eq_true_2 _ Hrin).
  apply Nat.leb_le in Hlen. rewrite Hlen.
  pose proof (email_pattern_nonempty e Hre).
  assert (p ≠ "") by (intros ->; done).
  destruct n, e, p, t; done.
Qed.

Lemma register_valid_fields
    (req : Request) (w : World) (n e p t : string) :
  (∀ c at_, jwt_verify (jwt_sign c (JWT_SECRET env) (JWT_EXPIRE env) at_)
                       (JWT_SECRET env) at_ = Some c) →
  (∀ plaintext k, bcrypt_hash plaintext (bcrypt_genSalt 10 k) ≠ plaintext) →
  is_Some (cookie_expires (now w)) →
  body_name (body req) = Some n → n ≠ "" →
  body_email (body req) = Some e →
  Regex.test UserSchema.email_pattern e = true →
  (∀ id u, users w !! id = Some u → email u ≠ e) →
  body_password (body req) = Some p → (6 ≤ String.length p)%nat →
  (body_role (body req) = None
   ∨ ∃ r, body_role (body req) = Some r ∧ r ∈ UserSchema.role_enum) →
  body_tenantId (body req) = Some t → t ≠ "" →
  ∃ r w' tr token decoded u,
    asyncHandler (register req) w = (Sent r, w', tr)
    ∧ res_status r = 200 ∧ res_json r = JsonToken token
    ∧ jwt_verify token (JWT_SECRET env) (now w') = Some decoded
    ∧ users w !! claim_id decoded = None
    ∧ users w' !! claim_id decoded = Some u
    ∧ email u = e
    ∧ password u ≠ p
    ∧ ∀ id, id ≠ claim_id decoded → users w' !! id = users w !! id.
Proof.
  intros Hjwt Hhash [date Hdate] Hn Hnn He Hre Huniq Hp Hlen Hrole Ht Htn.
  pose proof (email_pattern_nonempty e Hre) as Hen.
  assert (Hpn : p ≠ "") by (intros ->; simpl in Hlen; lia).
  assert (Hr : ∃ r, match body_role (body req) with
                    | Some r => Some r
                    | None => Some UserSchema.role_default
                    end = Some r ∧ r ∈ UserSchema.role_enum).
  { destruct Hrole as [->|(r & -> & Hr)]; eexists; (split; [done|]); [|done].
    unfold UserSchema.role_enum, UserSchema.role_default.
    do 4 apply list_elem_of_further. apply list_elem_of_here. }
  destruct Hr as (r & Hr & Hrin).
  unfold register, create, Mongoose.new_document. run_M.
  rewrite save_unfold, Hn, He, Hp, Ht, Hr.
  rewrite validate_new_document by done.
  cbn -[fresh].
  unfold persist. run_M.
  apply email_taken_fresh in Huniq. rewrite Huniq. cbn -[fresh].
  rewrite sendTokenResponse_unfold. cbn -[fresh]. rewrite Hdate.
  cbn -[fresh].
  do 6 eexists. split_and!; try reflexivity.
  - cbn -[fresh]. apply Hjwt.
  - cbn -[fresh]. apply fresh_id_unused.
  - cbn -[fresh]. apply lookup_insert_eq.
  - done.
  - cbn. apply Hhash.
  - intros id Hid. cbn -[fresh]. cbn -[fresh] in Hid.
    by rewrite lookup_insert_ne.
Qed.

Lemma validate_new_document_inv id created (n e p r t : option string) :
  UserSchema.validate (Mongoose.new_document id created n e p r t) = [] →
  ∃ n' e' p' t',
    n = Some n' ∧ n' ≠ ""
    ∧ e = Some e' ∧ Regex.test UserSchema.email_pattern e' = true
    ∧ p = Some p' ∧ (6 ≤ String.length p')%nat
    ∧ (r = None ∨ ∃ r', r = Some r' ∧ r' ∈ UserSchema.role_enum)
    ∧ t = Some t' ∧ t' ≠ "".
Proof.
  unfold UserSchema.validate, Mongoose.new_document.
  cbn [doc_name doc_email doc_role doc_password doc_tenantId isNew orb].
  intros (Hn & (He & (Hr & (Hp & Ht)%app_eq_nil)%app_eq_nil)%app_eq_nil)%app_eq_nil.
  unfold UserSchema.validate_name, UserSchema.required in Hn.
  unfold UserSchema.validate_email, UserSchema.required,
    UserSchema.match_ in He.
  unfold UserSchema.validate_role, UserSchema.enum in Hr.
  unfold UserSchema.validate_password, UserSchema.required,
    UserSchema.minlength, UserSchema.password_minlength in Hp.
  unfold UserSchema.validate_tenantId, UserSchema.required in Ht.
  destruct n as [n'|]; [|done]. destruct e as [e'|]; [|done].
  destruct p as [p'|]; [|done]. destruct t as [t'|]; [|done].
  exists n', e', p', t'.
  apply app_eq_nil in He as [He1 He2]. apply app_eq_nil in Hp as [Hp1 Hp2].
  split_and!; try done.
  - by destruct n'.
  - destruct (Regex.test UserSchema.email_pattern e'); [done|].
    destruct (Js.truthy (Some e')); simpl in He1, He2; discriminate.
  - destruct (6 <=? String.length p')%nat eqn:E; [|done]. by apply Nat.leb_le.
  - destruct r as [r'|]; [|by left]. right. exists r'. split; [done|].
    by case_bool_decide.
  - by destruct t'.
Qed.

(** C3. For a registration input that passes the schema's validation and
    whose email no stored user has, at a time for which the expiry of the
    token cookie is a valid date, register answers 200 with a token;
    verifying that token with the configured secret gives claims whose id
    resolves to a record that did not exist before, whose email is the
    submitted one character for character and whose password is not the
    submitted plaintext; no other record changes. *)
Theorem register_valid_input (req : Request) (w : World) :
  (∀ c at_, jwt_verify (jwt_sign c (JWT_SECRET env) (JWT_EXPIRE env) at_)
                       (JWT_SECRET env) at_ = Some c) →
  (∀ plaintext k, bcrypt_hash plaintext (bcrypt_genSalt 10 k) ≠ plaintext) →
  is_Some (cookie_expires (now w)) →
  UserSchema.validate
    (Mongoose.new_document (fresh (dom (users w))) (now w)
       (body_name (body req)) (body_email (body req))
       (body_password (body req)) (body_role (body req))
       (body_tenantId (body req))) = [] →
  (∀ id u, users w !! id = Some u → Some (email u) ≠ body_email (body req)) →
  ∃ r w' tr token decoded u,
    asyncHandler (register req) w = (Sent r, w', tr)
    ∧ res_status r = 200 ∧ res_json r = JsonToken token
    ∧ jwt_verify token (JWT_SECRET env) (now w') = Some decoded
    ∧ users w !! claim_id decoded = None
    ∧ users w' !! claim_id decoded = Some u
    ∧ Some (email u) = body_email (body req)
    ∧ Some (password u) ≠ body_password (body req)
    ∧ ∀ id, id ≠ claim_id decoded → users w' !! id = users w !! id.
Proof.
  intros Hjwt Hhash Hdate Hvalid Huniq.
  apply validate_new_document_inv in Hvalid
    as (n & e & p & t & Hn & Hnn & He & Hre & Hp & Hlen & Hrole & Ht & Htn).
  destruct (register_valid_fields req w n e p t)
    as (r & w' & tr & token & decoded & u & Hrun & Hst & Hjs & Hver & Hnew
        & Hu & Hemail & Hpw & Hother); try done.
  { intros id v Hv Heq. apply (Huniq id v Hv). by rewrite He, Heq. }
  exists r, w', tr, token, decoded, u.
  split_and!; try done; congruence.
Qed.

(** *** Updating details *)

Lemma updateDetails_effect
    (req : Request) (w : World) (acting : Document) o w' t :
  user req = Some acting →
  asyncHandler (updateDetails req) w = (o, w', t) →
  now w' = now w ∧ entropy w' = entropy w ∧ hashes t = []
  ∧ (∀ id, id ≠ _id acting → users w' !! id = users w !! id)
  ∧ (users w !! _id acting = None → users w' !! _id acting = None)
  ∧ (∀ u, users w !! _id acting = Some u →
       ∃ u', users w' !! _id acting = Some u'
             ∧ role u' = role u ∧ password u' = password u
             ∧ tenantId u' = tenantId u ∧ createdAt u' = createdAt u
             ∧ (name u' = name u ∨ body_name (body req) = Some (name u'))
             ∧ (email u' = email u
                ∨ body_email (body req) = Some (email u')))
  ∧ (∀ r, o = Sent r →
       ∃ data, res_json r = JsonData data
               ∧ ∀ d, data = Some d →
                   doc_password d = None
                   ∧ Mongoose.hydrate false (_id acting)
                       <$> users w' !! _id acting = Some d).
Proof.
  intros Hu. unfold updateDetails, findByIdAndUpdate, findById. rewrite Hu. run_M.
  destruct (body_name (body req)) as [n|], (body_email (body req)) as [e|];
    simpl; repeat case_match; intros; simplify_eq/=;
    split_and!; try done;
    try (intros id Hid; by rewrite lookup_insert_ne);
    try (intros r' [= <-]; eexists; split; [done|]; intros d' [= <-];
         by rewrite ?lookup_insert_eq);
    try (intros u' Hu'; simplify_eq; eexists; rewrite ?lookup_insert_eq;
         split_and!; (done || auto)).
  intros d Hd. split; [|done].
  destruct (users w' !! _id acting); simpl in Hd; by simplify_eq.
Qed.

(** C8. For a request with a resolved acting identity, updateDetails can
    change only the name and the email of the acting user's record, and
    only to the values of the payload: role, password, tenant id and
    creation date of that record stay as they are, every other record
    stays as it is, the other fields of the payload have no influence on
    the result, and the record sent back carries no password. *)
Theorem updateDetails_frame
    (req : Request) (w : World) (acting : Document) o w' t :
  user req = Some acting →
  asyncHandler (updateDetails req) w = (o, w', t) →
  now w' = now w ∧ entropy w' = entropy w
  ∧ (∀ id, id ≠ _id acting → users w' !! id = users w !! id)
  ∧ (users w !! _id acting = None → users w' !! _id acting = None)
  ∧ (∀ u, users w !! _id acting = Some u →
       ∃ u', users w' !! _id acting = Some u'
             ∧ role u' = role u ∧ password u' = password u
             ∧ tenantId u' = tenantId u ∧ createdAt u' = createdAt u
             ∧ (name u' = name u ∨ body_name (body req) = Some (name u'))
             ∧ (email u' = email u ∨ body_email (body req) = Some (email u')))
  ∧ (∀ r, o = Sent r →
       ∃ data, res_json r = JsonData data
               ∧ ∀ d, data = Some d →
                   doc_password d = None
                   ∧ Mongoose.hydrate false (_id acting)
                       <$> users w' !! _id acting = Some d)
  ∧ (∀ b', body_name b' = body_name (body req) →
           body_email b' = body_email (body req) →
           asyncHandler (updateDetails (set_body b' req)) w = (o, w', t)).
Proof.
  intros Hu Hrun.
  destruct (updateDetails_effect req w acting o w' t Hu Hrun)
    as (? & ? & ? & ? & ? & ? & ?).
  split_and!; try done.
  intros b' Hn He. rewrite <- Hrun. unfold updateDetails. simpl.
  by rewrite Hu, Hn, He.
Qed.

(** *** Cookies *)

Lemma validate_modified_password (d : Document) :
  UserSchema.validate d = [] → Mongoose.isModified PPassword d = true →
  ∃ p, doc_password d = Some p ∧ (6 ≤ String.length p)%nat.
Proof.
  unfold UserSchema.validate, Mongoose.isModified. intros Hv Hm.
  rewrite Hm, orb_true_r in Hv.
  apply app_eq_nil in Hv as (_ & (_ & (_ & (Hv & _)%app_eq_nil)%app_eq_nil)%app_eq_nil).
  unfold UserSchema.validate_password, UserSchema.required,
    UserSchema.minlength, UserSchema.password_minlength in Hv.
  destruct (doc_password d) as [p|]; [|done]. exists p. split; [done|].
  apply app_eq_nil in Hv as [_ Hv].
  destruct (6 <=? String.length p)%nat eqn:E; [|done]. by apply Nat.leb_le.
Qed.

Lemma save_inv (d : Document) (w : World) r w' t :
  save d w = (r, w', t) →
  (UserSchema.validate d ≠ [] ∧ r = inl (ValidationError (UserSchema.validate d))
   ∧ w' = w ∧ t = [])
  ∨ (UserSchema.validate d = [] ∧ Mongoose.isModified PPassword d = false
     ∧ persist d w = (r, w', t))
  ∨ (UserSchema.validate d = [] ∧ Mongoose.isModified PPassword d = true
     ∧ ∃ p t',
         let salt := bcrypt_genSalt 10 (entropy w) in
         doc_password d = Some p ∧ (6 ≤ String.length p)%nat
         ∧ persist (Mongoose.put_path PPassword (Some (bcrypt_hash p salt)) d)
                   (next_entropy w) = (r, w', t')
         ∧ t = EvBcryptHash p salt :: t').
Proof.
  rewrite save_unfold.
  destruct (UserSchema.validate d) as [|err errs] eqn:Hv.
  - destruct (Mongoose.isModified PPassword d) eqn:Hm.
    + destruct (validate_modified_password d Hv Hm) as (p & Hp & Hlen).
      rewrite Hp. cbv zeta.
      destruct (persist _ (next_entropy w)) as [[r1 w1] t1] eqn:Hpersist.
      intros [= <- <- <-]. right; right. split_and!; [done..|].
      exists p, t1. by split_and!.
    + intros H. right; left. by split_and!.
  - intros [= <- <- <-]. left. by split_and!.
Qed.

Lemma save_now (d : Document) (w : World) r w' t :
  save d w = (r, w', t) → now w' = now w.
Proof.
  intros [(_ & _ & -> & _)|[(_ & _ & H)|(_ & _ & p & t' & _ & _ & H & _)]]%save_inv;
    [done|..]; by apply persist_inv in H as (-> & _).
Qed.

Lemma sendTokenResponse_run (u : Document) (statusCode : Z) (w : World) :
  ∃ payload,
    sendTokenResponse u statusCode w =
      match cookie_expires (now w) with
      | Some date =>
          (inr (Sent
             {| res_status := statusCode;
                res_cookies :=
                  [mkCookie "token"
                     (jwt_sign payload (JWT_SECRET env) (JWT_EXPIRE env)
                        (now w))
                     {| expires := date;
                        httpOnly := Some true;
                        secure := Some (bool_decide
                                          (NODE_ENV env = Some "production"));
                        path := Some "/";
                        sameSite := Some Lax |}];
                res_json :=
                  JsonToken (jwt_sign payload (JWT_SECRET env)
                               (JWT_EXPIRE env) (now w)) |}),
           w, [EvJwtSign payload])
      | None => (inl TypeError, w, [EvJwtSign payload])
      end.
Proof. eexists. apply sendTokenResponse_unfold. Qed.

Lemma sendTokenResponse_sent (u : Document) sc (w : World) o w' t :
  sendTokenResponse u sc w = (o, w', t) →
  w' = w ∧ hashes t = []
  ∧ (o = inl TypeError
     ∨ ∃ r, o = inr (Sent r) ∧ issues_token_at (now w) r).
Proof.
  destruct (sendTokenResponse_run u sc w) as [payload ->].
  destruct (cookie_expires (now w)) as [date|] eqn:Hdate;
    intros [= <- <- <-]; (split; [done|]); (split; [done|]); [|by left].
  right. eexists. split; [done|]. exists payload.
  by rewrite (cookie_expires_Some _ _ Hdate).
Qed.

Lemma register_sent (req : Request) (w : World) r w' t :
  asyncHandler (register req) w = (Sent r, w', t) →
  issues_token_at (now w) r.
Proof.
  unfold register, create, asyncHandler, mbind, M_bind, bind, get.
  cbv beta iota.
  destruct (save _ w) as [[[e|d] w1] t1] eqn:Hsave; [done|].
  apply save_now in Hsave.
  destruct (sendTokenResponse d 200 w1) as [[o2 w2] t2] eqn:Hsend.
  apply sendTokenResponse_sent in Hsend as (-> & _ & [->|(r' & -> & Hr)]);
    [done|].
  intros [= <- <- <-]. by rewrite <- Hsave.
Qed.

Lemma login_sent (req : Request) (w : World) r w' t :
  asyncHandler (login req) w = (Sent r, w', t) →
  w' = w ∧ issues_token_at (now w) r.
Proof.
  unfold login, findOne, matchPassword. run_M.
  repeat case_match; intros; simplify_eq/=.
  match goal with
  | H : sendTokenResponse _ _ _ = _ |- _ =>
      apply sendTokenResponse_sent in H as (-> & _ & [?|(r' & ? & Hr)])
  end; by simplify_eq.
Qed.

Lemma updatePassword_sent (req : Request) (w : World) r w' t :
  asyncHandler (updatePassword req) w = (Sent r, w', t) →
  issues_token_at (now w) r.
Proof.
  unfold updatePassword, findById, matchPassword. run_M.
  repeat case_match; intros; simplify_eq/=.
  match goal with
  | H : sendTokenResponse _ _ _ = _ |- _ =>
      apply sendTokenResponse_sent in H as (-> & _ & [?|(r' & ? & Hr)])
  end; simplify_eq.
  match goal with
  | H : save _ _ = _ |- _ => apply save_now in H; simpl in H; by rewrite <- H
  end.
Qed.

Lemma updateDetails_sent (req : Request) (w : World) r w' t :
  asyncHandler (updateDetails req) w = (Sent r, w', t) → res_cookies r = [].
Proof.
  unfold updateDetails. run_M.
  repeat case_match; intros; by simplify_eq/=.
Qed.

Lemma protect_passes (req : Request) (w : World) o w' t :
  asyncHandler (protect req) w = (o, w', t) →
  w' = w ∧ hashes t = [] ∧ ∀ r, o ≠ Sent r.
Proof.
  destruct (request_token req) as [tok|] eqn:Ht.
  - destruct (decide (tok = "")) as [->|Hne].
    + rewrite protect_no_token by auto. by intros [= <- <- <-].
    + destruct (jwt_verify tok (JWT_SECRET env) (now w)) as [d|] eqn:Hv.
      * rewrite (protect_verified req w tok d) by done.
        by intros [= <- <- <-].
      * rewrite (protect_verify_fails req w tok) by done.
        by intros [= <- <- <-].
  - rewrite protect_no_token by auto. by intros [= <- <- <-].
Qed.

Lemma guarded_protect_sent handler (req : Request) (w : World) r w' t :
  guarded protect handler req w = (Sent r, w', t) →
  ∃ u t', asyncHandler (handler (set_user u req)) w = (Sent r, w', t').
Proof.
  unfold guarded.
  destruct (asyncHandler (protect req) w) as [[o w1] t1] eqn:Hp.
  apply protect_passes in Hp as (-> & _ & Hns).
  destruct o as [r'|e|u]; [by destruct (Hns r')|done|].
  intros H. exists u. revert H.
  destruct (asyncHandler (handler (set_user u req)) w) as [[o' w2] t2].
  intros [= -> -> <-]. by eexists.
Qed.

(** C6 (amended). Every cookie the system sets is named 'token' and is
    httpOnly with path '/'. A cookie that register, login or
    updatePassword sets carries the signed token, which is also the
    token of the response body, expires the configured number of days
    from now, has sameSite 'lax', and is secure exactly in production.
    The cookie that logout sets carries the value 'none', expires ten
    seconds from now, and sets neither sameSite nor secure. *)
Theorem cookie_contract
    (route : Route) (req : Request) (w : World) r w' t (c : Cookie) :
  router route req w = (Sent r, w', t) → c ∈ res_cookies r →
  cookie_name c = "token"
  ∧ httpOnly (cookie_options c) = Some true
  ∧ path (cookie_options c) = Some "/"
  ∧ (route = GetLogout →
       cookie_value c = "none"
       ∧ expires (cookie_options c) = now w + 10 * 1000
       ∧ sameSite (cookie_options c) = None
       ∧ secure (cookie_options c) = None)
  ∧ (route ≠ GetLogout →
       (∃ payload, cookie_value c =
          jwt_sign payload (JWT_SECRET env) (JWT_EXPIRE env) (now w))
       ∧ res_json r = JsonToken (cookie_value c)
       ∧ expires (cookie_options c)
         = now w + COOKIE_EXPIRE env * 24 * 60 * 60 * 1000
       ∧ sameSite (cookie_options c) = Some Lax
       ∧ secure (cookie_options c)
         = Some (bool_decide (NODE_ENV env = Some "production"))).
Proof.
  intros Hrun Hc.
  assert (Hissue : issues_token_at (now w) r → route ≠ GetLogout →
    cookie_name c = "token"
    ∧ httpOnly (cookie_options c) = Some true
    ∧ path (cookie_options c) = Some "/"
    ∧ (route = GetLogout →
         cookie_value c = "none"
         ∧ expires (cookie_options c) = now w + 10 * 1000
         ∧ sameSite (cookie_options c) = None
         ∧ secure (cookie_options c) = None)
    ∧ (route ≠ GetLogout →
         (∃ payload, cookie_value c =
            jwt_sign payload (JWT_SECRET env) (JWT_EXPIRE env) (now w))
         ∧ res_json r = JsonToken (cookie_value c)
         ∧ expires (cookie_options c)
           = now w + COOKIE_EXPIRE env * 24 * 60 * 60 * 1000
         ∧ sameSite (cookie_options c) = Some Lax
         ∧ secure (cookie_options c)
           = Some (bool_decide (NODE_ENV env = Some "production")))).
  { intros (payload & Hjson & Hcookies) Hroute. rewrite Hcookies in Hc.
    apply list_elem_of_singleton in Hc as ->. simpl.
    split_and!; try done. intros _. split_and!; try done. by exists payload. }
  destruct route; simpl in Hrun.
  - apply Hissue; [by eapply register_sent|done].
  - apply Hissue; [by eapply login_sent|done].
  - apply logout_run in Hrun as (_ & _ & [[=]|[= ->]]).
    apply list_elem_of_singleton in Hc as ->. simpl. by split_and!.
  - apply guarded_protect_sent in Hrun as (u & t' & Hrun).
    apply updateDetails_sent in Hrun. rewrite Hrun in Hc.
    by apply elem_of_nil in Hc.
  - apply guarded_protect_sent in Hrun as (u & t' & Hrun).
    apply Hissue; [by eapply updatePassword_sent|done].
Qed.

(** *** Passwords are stored as digests *)

Lemma passwords_kept_refl (w w' : World) :
  users w' = users w → passwords_kept w w'.
Proof. intros H id u Hu. rewrite H in Hu. by exists u. Qed.

Lemma discipline_same (sub : option string) (w w' : World) t :
  users w' = users w → hashes t = [] → password_discipline sub w w' t.
Proof. intros. left. split; [done|]. by apply passwords_kept_refl. Qed.

Lemma to_user_password (d : Document) (u : User) :
  to_user d = Some u → doc_password d = Some (password u).
Proof.
  unfold to_user. destruct (doc_name d), (doc_email d), (doc_role d),
    (doc_password d), (doc_tenantId d); simpl; intros; by simplify_eq.
Qed.

Lemma save_keeps_password (d : Document) (w : World) r w' t :
  save d w = (r, w', t) →
  isNew d = false → Mongoose.isModified PPassword d = false →
  hashes t = [] ∧ passwords_kept w w' ∧ entropy w' = entropy w.
Proof.
  intros Hsave Hnew Hmod. apply save_inv in Hsave
    as [(_ & _ & -> & ->)|[(_ & _ & H)|(_ & Hm & _)]];
    [split_and!; [done|by apply passwords_kept_refl|done]| |congruence].
  apply persist_inv in H as (_ & He & Ht & H). split_and!; [done| |done].
  destruct H as [[H _]|[(_ & Hn & _)|(_ & _ & u & u' & Hu & Hf & _ & Hw')]];
    [by apply passwords_kept_refl|congruence|].
  intros id v. rewrite Hw'. destruct (decide (id = _id d)) as [->|Hne].
  - rewrite lookup_insert_eq. intros [= <-]. exists u. split; [done|].
    apply foldl_apply_path in Hf as [_ Hf]. specialize (Hf PPassword).
    unfold Mongoose.isModified in Hmod. by rewrite Hmod in Hf.
  - rewrite lookup_insert_ne by done. intros Hv. by exists v.
Qed.

Lemma save_hashes_once (d : Document) (w : World) r w' t :
  save d w = (r, w', t) →
  Mongoose.isModified PPassword d = true →
  password_discipline (doc_password d) w w' t.
Proof.
  intros Hsave Hmod. apply save_inv in Hsave
    as [(_ & _ & -> & ->)|[(_ & Hm & _)|(_ & _ & p & t' & Hp & _ & H & ->)]];
    [by apply discipline_same|congruence|].
  apply persist_inv in H as (_ & _ & Ht & H). right. exists p.
  cbv zeta. split_and!; [done|by rewrite hashes_hash, Ht|].
  intros id v.
  destruct H as [[H _]|[(_ & _ & u & Hu & _ & Hw')
                       |(_ & _ & u & u' & Hu & Hf & _ & Hw')]].
  - rewrite H. intros Hv. left. by exists v.
  - rewrite Hw'. destruct (decide (id = _id d)) as [->|Hne].
    + destruct d; simpl in *. rewrite lookup_insert_eq. intros [= <-]. right.
      apply to_user_password in Hu. simpl in Hu. congruence.
    + destruct d; simpl in *. rewrite lookup_insert_ne by done.
      intros Hv. left. by exists v.
  - rewrite Hw'. destruct (decide (id = _id d)) as [->|Hne].
    + destruct d; simpl in *. rewrite lookup_insert_eq. intros [= <-]. right.
      apply foldl_apply_path in Hf as [_ Hf]. specialize (Hf PPassword).
      unfold Mongoose.isModified in Hmod. simpl in *. rewrite Hmod in Hf.
      congruence.
    + destruct d; simpl in *. rewrite lookup_insert_ne by done.
      intros Hv. left. by exists v.
Qed.

Lemma validate_new_without_password (d : Document) :
  isNew d = true → doc_password d = None → UserSchema.validate d ≠ [].
Proof.
  unfold UserSchema.validate. intros -> ->. simpl.
  by intros (_ & (_ & (_ & Hv)%app_eq_nil)%app_eq_nil)%app_eq_nil.
Qed.

Lemma create_discipline (n e p r tid : option string) (w : World) res w' t :
  create n e p r tid w = (res, w', t) →
  password_discipline p w w' t.
Proof.
  unfold create, Mongoose.new_document.
  unfold mbind, M_bind, bind, get. cbv beta iota.
  destruct (save _ w) as [[res1 w1] t1] eqn:Hsave.
  intros [= <- <- <-]. simpl app.
  destruct p as [p|].
  - apply save_hashes_once in Hsave.
    + exact Hsave.
    + unfold Mongoose.isModified. apply bool_decide_eq_true_2.
      cbn [modifiedPaths Mongoose.given]. rewrite !elem_of_app.
      right; right; left. by left.
  - apply save_inv in Hsave
      as [(_ & _ & -> & ->)|[(Hv & _)|(Hv & _)]];
      [by apply discipline_same|..];
      by apply validate_new_without_password in Hv.
Qed.

Lemma register_discipline (req : Request) (w : World) o w' t :
  asyncHandler (register req) w = (o, w', t) →
  password_discipline (body_password (body req)) w w' t.
Proof.
  unfold register, asyncHandler, mbind, M_bind, bind.
  destruct (create _ _ _ _ _ w) as [[[e|d] w1] t1] eqn:Hc;
    apply create_discipline in Hc.
  - by intros [= <- <- <-].
  - destruct (sendTokenResponse_run d 200 w1) as [payload ->].
    destruct (cookie_expires (now w1)); intros [= <- <- <-];
      (destruct Hc as [[Hh Hk]|(p & Hp & Hh & Hk)]; [left|right];
       [split; [|done]; norm_hashes; by rewrite Hh
       |exists p; split_and!; [done| |done]; norm_hashes; by rewrite Hh]).
Qed.

Lemma set_password_hydrated (v : option string) id (u : User) :
  let d := Mongoose.hydrate true id u in
  (v = Some (password u) ∧ Mongoose.set PPassword v d = d)
  ∨ (v ≠ Some (password u)
     ∧ Mongoose.isModified PPassword (Mongoose.set PPassword v d) = true
     ∧ doc_password (Mongoose.set PPassword v d) = v
     ∧ Mongoose.set PPassword v d
       = mkDocument id (Some (name u)) (Some (email u)) (Some (role u)) v
           (Some (tenantId u)) (createdAt u) false true [PPassword]).
Proof.
  unfold Mongoose.set. simpl.
  destruct (decide (v = Some (password u))) as [->|Hne].
  - left. by rewrite bool_decide_eq_true_2.
  - right. by rewrite bool_decide_eq_false_2.
Qed.

Lemma updatePassword_discipline (req : Request) (w : World) o w' t :
  asyncHandler (updatePassword req) w = (o, w', t) →
  password_discipline (body_newPassword (body req)) w w' t.
Proof.
  unfold updatePassword, findById, matchPassword, sendTokenResponse,
    getSignedJwtToken. run_M.
  repeat case_match; intros; simplify_eq/=; try by apply discipline_same.
  all: match goal with
       | H : _ <$> _ = Some _ |- _ => apply fmap_Some in H as (u & Hu & ->)
       end.
  all: match goal with
       | H : save (Mongoose.set PPassword ?v (Mongoose.hydrate true ?id ?u)) _
             = _ |- _ =>
           destruct (set_password_hydrated v id u)
             as [[_ Hset]|(_ & Hmod & Hpw & _)];
           [rewrite Hset in H; apply save_keeps_password in H as (Hh & Hk & _);
            [|done..]
           |apply save_hashes_once in H; [rewrite Hpw in H|done]]
       end.
  all: try (left; split; [norm_hashes; by rewrite ?Hh|done]).
  all: match goal with
       | H : password_discipline _ _ _ _ |- _ =>
           destruct H as [[Hh Hk]|(p & Hp & Hh & Hk)]; [left|right]
       end.
  all: try (split; [norm_hashes; by rewrite ?Hh|done]).
  all: exists p; split_and!; [done| |done]; norm_hashes; by rewrite ?Hh.
Qed.

Lemma login_effect (req : Request) (w : World) o w' t :
  asyncHandler (login req) w = (o, w', t) → w' = w ∧ hashes t = [].
Proof.
  unfold login, findOne, matchPassword, sendTokenResponse,
    getSignedJwtToken. run_M.
  repeat case_match; intros; by simplify_eq/=.
Qed.

Lemma updateDetails_keeps (req : Request) (w : World) o w' t :
  asyncHandler (updateDetails req) w = (o, w', t) →
  hashes t = [] ∧ passwords_kept w w'.
Proof.
  destruct (user req) as [acting|] eqn:Hu.
  - intros (_ & _ & Hh & Hother & Hnone & Hsome & _)%(updateDetails_effect _ _ acting);
      [|done].
    split; [done|]. intros id v Hv.
    destruct (decide (id = _id acting)) as [->|Hne].
    + destruct (users w !! _id acting) as [u|] eqn:Hw.
      * destruct (Hsome u eq_refl) as (u' & Hu' & _ & Hpw & _).
        exists u. split; [done|]. congruence.
      * rewrite Hnone in Hv; done.
    + rewrite Hother in Hv by done. by exists v.
  - unfold updateDetails. rewrite Hu. run_M. intros [= <- <- <-].
    split; [done|]. by apply passwords_kept_refl.
Qed.

Lemma guarded_protect_run handler (req : Request) (w : World) o w' t :
  guarded protect handler req w = (o, w', t) →
  (w' = w ∧ hashes t = [])
  ∨ ∃ u t1 t2, asyncHandler (handler (set_user u req)) w = (o, w', t2)
               ∧ t = t1 ++ t2 ∧ hashes t1 = [].
Proof.
  unfold guarded.
  destruct (asyncHandler (protect req) w) as [[o1 w1] t1] eqn:Hp.
  apply protect_passes in Hp as (-> & Hh & _).
  destruct o1 as [r'|e|u]; try (intros [= <- <- <-]; by left).
  intros H. right. exists u, t1. revert H.
  destruct (asyncHandler (handler (set_user u req)) w) as [[o' w2] t2].
  intros [= -> -> <-]. by exists t2.
Qed.

Lemma router_discipline (route : Route) (req : Request) (w : World) o w' t :
  router route req w = (o, w', t) →
  password_discipline (submitted (Http route req)) w w' t.
Proof.
  destruct route; simpl.
  - apply register_discipline.
  - intros [-> Hh]%login_effect. by apply discipline_same.
  - intros (-> & -> & _)%logout_run. by apply discipline_same.
  - intros [[-> Hh]|(u & t1 & t2 & Hrun & -> & Hh)]%guarded_protect_run;
      [by apply discipline_same|].
    apply updateDetails_keeps in Hrun as [Hh2 Hk]. left.
    split; [|done]. norm_hashes. by rewrite Hh, Hh2.
  - intros [[-> Hh]|(u & t1 & t2 & Hrun & -> & Hh)]%guarded_protect_run;
      [by apply discipline_same|].
    apply updatePassword_discipline in Hrun. simpl in Hrun.
    destruct Hrun as [[Hh2 Hk]|(p & Hp & Hh2 & Hk)]; [left|right].
    + split; [|done]. norm_hashes. by rewrite Hh, Hh2.
    + exists p. split_and!; [done| |done]. norm_hashes. by rewrite Hh, Hh2.
Qed.

Lemma seed_document_unmodified_password id (u : User) :
  let d := Mongoose.set PName (Some "Super Admin")
             (Mongoose.set PRole (Some "super-admin")
                (Mongoose.hydrate false id u)) in
  isNew d = false ∧ Mongoose.isModified PPassword d = false.
Proof.
  unfold Mongoose.set, Mongoose.isModified. simpl.
  repeat (case_bool_decide; simpl); split; try done;
    apply bool_decide_eq_false_2; set_solver.
Qed.

Lemma seedAdmin_existing (w : World) id (u : User) code w' t :
  Mongoose.find_email "admin@cityschool.com" (users w) = Some (id, u) →
  seedAdmin w = (code, w', t) →
  hashes t = [] ∧ passwords_kept w w'.
Proof.
  intros Hfind. unfold seedAdmin, findOne.
  unfold mbind, mret, M_bind, M_ret, bind, ret, emit, get.
  cbv beta iota. rewrite Hfind. cbv beta iota.
  destruct (seed_document_unmodified_password id u) as [Hnew Hmod].
  destruct (save _ w) as [[res w1] t1] eqn:Hsave.
  apply save_keeps_password in Hsave as (Hh & Hk & _); [|done..].
  destruct res; intros [= <- <- <-]; (split; [|done]); norm_hashes;
    by rewrite Hh.
Qed.

Lemma seedAdmin_discipline (w : World) code w' t :
  seedAdmin w = (code, w', t) →
  password_discipline (Some "adminpassword123") w w' t.
Proof.
  destruct (Mongoose.find_email "admin@cityschool.com" (users w))
    as [[id u]|] eqn:Hfind.
  - intros [Hh Hk]%(seedAdmin_existing _ id u); [|done]. by left.
  - unfold seedAdmin, findOne.
    unfold mbind, mret, M_bind, M_ret, bind, ret, emit, get.
    cbv beta iota. rewrite Hfind. cbv beta iota.
    destruct (create _ _ _ _ _ w) as [[res w1] t1] eqn:Hc.
    apply create_discipline in Hc.
    assert (Hgoal : password_discipline (Some "adminpassword123") w w1
                      (EvFindOne "admin@cityschool.com" :: t1 ++ [])).
    { destruct Hc as [[Hh Hk]|(p & Hp & Hh & Hk)]; [left|right].
      - split; [|done]. norm_hashes. by rewrite Hh.
      - exists p. split_and!; [done| |done]. norm_hashes. by rewrite Hh. }
    destruct res; by intros [= <- <- <-].
Qed.

Lemma step_discipline (op : Op) (w : World) :
  password_discipline (submitted op) w (step op w).1 (step op w).2.
Proof.
  destruct op as [route req| |at_]; cbn [step].
  - destruct (router route req w) as [[o w'] t] eqn:Hrun.
    by apply router_discipline in Hrun.
  - destruct (seedAdmin w) as [[code w'] t] eqn:Hrun.
    by apply seedAdmin_discipline in Hrun.
  - by apply discipline_same.
Qed.

Lemma step_all_digests (op : Op) (w : World) :
  (∀ plaintext k, bcrypt_hash plaintext (bcrypt_genSalt 10 k) ≠ plaintext) →
  all_digests w → all_digests (step op w).1.
Proof.
  intros Hhash Hw id u' Hu'.
  destruct (step_discipline op w) as [[_ Hk]|(p & _ & _ & Hk)].
  - destruct (Hk id u' Hu') as (u & Hu & ->). by eapply Hw.
  - destruct (Hk id u' Hu') as [(u & Hu & ->)| ->]; [by eapply Hw|].
    exists p, (entropy w). split; [done|]. apply Hhash.
Qed.

Lemma run_all_digests (ops : list Op) (w : World) :
  (∀ plaintext k, bcrypt_hash plaintext (bcrypt_genSalt 10 k) ≠ plaintext) →
  all_digests w → all_digests (run ops w).
Proof.
  intros Hhash. revert w. induction ops as [|op ops IH]; intros w Hw; [done|].
  cbn [run]. apply IH. by apply step_all_digests.
Qed.

(** C4. Whatever sequence of requests, seeding runs and clock ticks the
    system goes through, every stored password is the digest of a
    plaintext and differs from that plaintext. One operation hashes at
    most once, and then the plaintext it was given (the password of a
    registration or of the seeded admin, the new password of a password
    change); every password it leaves behind is an old one or that one
    digest. updateDetails, and the seeding script when the admin already
    exists, hash nothing and keep every stored password. *)
Theorem password_always_digest :
  (∀ plaintext k, bcrypt_hash plaintext (bcrypt_genSalt 10 k) ≠ plaintext) →
  (∀ ops w, all_digests w → all_digests (run ops w))
  ∧ (∀ ops at_ seed,
       all_digests (run ops {| users := ∅; now := at_; entropy := seed |}))
  ∧ (∀ op w,
       password_discipline (submitted op) w (step op w).1 (step op w).2)
  ∧ (∀ req w,
       hashes (step (Http PutUpdateDetails req) w).2 = []
       ∧ passwords_kept w (step (Http PutUpdateDetails req) w).1)
  ∧ (∀ w id u,
       users w !! id = Some u → email u = "admin@cityschool.com" →
       hashes (step Seed w).2 = [] ∧ passwords_kept w (step Seed w).1).
Proof.
  intros Hhash. split_and!.
  - intros ops w. by apply run_all_digests.
  - intros ops at_ seed. apply run_all_digests; [done|].
    intros id u Hu. simpl in Hu. by rewrite lookup_empty in Hu.
  - apply step_discipline.
  - intros req w.
    destruct (step_discipline (Http PutUpdateDetails req) w)
      as [?|(p & Hp & _)]; [done|]. discriminate.
  - intros w id u Hu He. cbn [step].
    destruct (seedAdmin w) as [[code w'] t] eqn:Hrun.
    destruct (Mongoose.find_email "admin@cityschool.com" (users w))
      as [[id' u']|] eqn:Hfind.
    + by eapply seedAdmin_existing.
    + rewrite find_email_None in Hfind. by destruct (Hfind id u Hu).
Qed.

(** *** Changing the password, then logging in *)

Lemma find_email_unique (m : gmap ObjectId User) id (u : User) :
  unique_email m → m !! id = Some u →
  Mongoose.find_email (email u) m = Some (id, u).
Proof.
  intros Huniq Hu.
  destruct (Mongoose.find_email (email u) m) as [[id' u']|] eqn:Hfind.
  - apply find_email_Some in Hfind as [Hu' He].
    assert (id' = id) as -> by (by eapply Huniq). congruence.
  - rewrite find_email_None in Hfind. by destruct (Hfind id u Hu).
Qed.

Lemma unique_email_update (m : gmap ObjectId User) id (u u' : User) :
  unique_email m → m !! id = Some u → email u' = email u →
  unique_email (<[id := u']> m).
Proof.
  intros Huniq Hu He i j ui uj.
  destruct (decide (i = id)) as [->|Hi], (decide (j = id)) as [->|Hj];
    rewrite ?lookup_insert_eq, ?lookup_insert_ne by done; [done|..].
  - intros [= <-] Hj' Heq. eapply Huniq; [done..|]. congruence.
  - intros Hi' [= <-] Heq. eapply Huniq; [done..|]. congruence.
  - apply Huniq.
Qed.

Lemma login_success (req : Request) (w : World) (e p : string) id (u : User) :
  body_email (body req) = Some e → body_password (body req) = Some p →
  e ≠ "" → p ≠ "" →
  Mongoose.find_email e (users w) = Some (id, u) →
  bcrypt_compare p (password u) = true →
  is_Some (cookie_expires (now w)) →
  ∃ r token, (asyncHandler (login req) w).1.1 = Sent r
             ∧ res_status r = 200 ∧ res_json r = JsonToken token.
Proof.
  intros He Hp Hne Hnp Hfind Hcmp [date Hdate].
  unfold login, findOne, matchPassword. rewrite He, Hp.
  destruct e as [|c e]; [done|]. destruct p as [|c' p]; [done|].
  run_M. rewrite Hfind. simpl. rewrite Hcmp. simpl.
  rewrite sendTokenResponse_unfold, Hdate. simpl. by do 2 eexists.
Qed.

Lemma validate_email_nonempty (d : Document) (e : string) :
  UserSchema.validate d = [] → doc_email d = Some e → e ≠ "".
Proof.
  unfold UserSchema.validate. intros (_ & (Hv & _)%app_eq_nil)%app_eq_nil He.
  rewrite He in Hv. unfold UserSchema.validate_email in Hv.
  apply app_eq_nil in Hv as [Hv _]. unfold UserSchema.required in Hv.
  by destruct e.
Qed.

Lemma updatePassword_success
    (req : Request) (w : World) (acting : Document) (u : User)
    (new : string) r w' t :
  user req = Some acting →
  users w !! _id acting = Some u →
  body_newPassword (body req) = Some new →
  new ≠ password u →
  asyncHandler (updatePassword req) w = (Sent r, w', t) →
  let digest := bcrypt_hash new (bcrypt_genSalt 10 (entropy w)) in
  (∃ cur, body_currentPassword (body req) = Some cur
          ∧ bcrypt_compare cur (password u) = true)
  ∧ (6 ≤ String.length new)%nat ∧ email u ≠ ""
  ∧ users w' = <[_id acting :=
                   mkUser (name u) (email u) (role u) digest (tenantId u)
                          (createdAt u)]> (users w).
Proof.
  intros Hu Hw Hnew Hdiff.
  unfold updatePassword, findById, matchPassword.
  rewrite Hu, Hnew. run_M. rewrite Hw. simpl.
  destruct (body_currentPassword (body req)) as [cur|]; [|done].
  destruct (bcrypt_compare cur (password u)) eqn:Hcmp; [|done]. simpl.
  destruct (set_password_hydrated (Some new) (_id acting) u)
    as [[Heq _]|(_ & Hmod & Hpw & Hset)]; [congruence|].
  destruct (save _ w) as [[[e|d1] w1] t1] eqn:Hsave; [done|].
  rewrite sendTokenResponse_unfold.
  destruct (cookie_expires (now w1)); [|done].
  intros [= <- <- <-].
  apply save_inv in Hsave
    as [(_ & ? & _)|[(_ & Hm & _)|(Hv & _ & p & t' & Hp & Hlen & H & _)]];
    [done|congruence|].
  rewrite Hpw in Hp. injection Hp as <-.
  split_and!; [by exists cur|done|..].
  { apply (validate_email_nonempty _ _ Hv). by rewrite Hset. }
  apply persist_inv in H as (_ & _ & _ & H). rewrite Hset in H. simpl in H.
  destruct H as [[_ [[? ?]|(_ & ? & _)]]|[(_ & ? & _)
                |(_ & _ & u0 & u' & Hu0 & Hf & _ & ->)]]; try done.
  rewrite Hw in Hu0. injection Hu0 as <-.
  unfold apply_path in Hf. simpl in Hf. by injection Hf as <-.
Qed.

(** C5 (amended). Let updatePassword succeed for a resolved acting
    identity in a collection with unique emails, with a new password that
    is not the stored digest itself. Then the current password had
    verified, a later login with the new plaintext, at a time for which
    the expiry of the token cookie is a valid date, succeeds and issues a
    token, and a later login with the old plaintext fails with the
    invalid-credentials error provided the old plaintext does not verify
    against a digest of the new one (so not when old and new are the
    same password). *)
Theorem updatePassword_then_login
    (req : Request) (w : World) (acting : Document) (u : User)
    (cur new : string) r w' t :
  (∀ p k, bcrypt_compare p (bcrypt_hash p (bcrypt_genSalt 10 k)) = true) →
  unique_email (users w) →
  user req = Some acting →
  users w !! _id acting = Some u →
  body_currentPassword (body req) = Some cur →
  body_newPassword (body req) = Some new →
  new ≠ password u →
  asyncHandler (updatePassword req) w = (Sent r, w', t) →
  bcrypt_compare cur (password u) = true
  ∧ (∃ token, res_json r = JsonToken token)
  ∧ (∀ lreq w'',
       users w'' = users w' →
       is_Some (cookie_expires (now w'')) →
       body_email (body lreq) = Some (email u) →
       body_password (body lreq) = Some new →
       ∃ r' token, (asyncHandler (login lreq) w'').1.1 = Sent r'
                   ∧ res_status r' = 200 ∧ res_json r' = JsonToken token)
  ∧ (∀ lreq w'',
       users w'' = users w' →
       body_email (body lreq) = Some (email u) →
       body_password (body lreq) = Some cur →
       cur ≠ "" →
       (∀ k, bcrypt_compare cur (bcrypt_hash new (bcrypt_genSalt 10 k))
             = false) →
       (asyncHandler (login lreq) w'').1.1
         = NextError (ErrorResponse "Invalid credentials" 401)).
Proof.
  intros Hcorrect Huniq Hu Hw Hcur Hnew Hdiff Hrun.
  pose proof (updatePassword_sent req w r w' t Hrun) as (payload & Hjson & _).
  destruct (updatePassword_success req w acting u new r w' t)
    as ((cur' & Hcur' & Hcmp) & Hlen & Hemail & Hw'); [done..|].
  assert (cur' = cur) as -> by congruence.
  set (u' := mkUser (name u) (email u) (role u)
               (bcrypt_hash new (bcrypt_genSalt 10 (entropy w)))
               (tenantId u) (createdAt u)) in Hw'.
  assert (Hfind : Mongoose.find_email (email u) (users w')
                  = Some (_id acting, u')).
  { rewrite Hw'. apply (find_email_unique _ (_id acting) u').
    - by eapply unique_email_update.
    - apply lookup_insert_eq. }
  split_and!; [done|by eexists|..].
  - intros lreq w'' Hsame Hdate He Hp.
    eapply login_success; [done..| |by rewrite Hsame|apply Hcorrect|done].
    intros ->. simpl in Hlen. lia.
  - intros lreq w'' Hsame He Hp Hne Hfail.
    destruct (login_wrong_password lreq w'' (email u) cur)
      as [digest ->]; [done..| | |done].
    + exists (_id acting), u'. rewrite Hsame.
      by apply find_email_Some in Hfind.
    + intros id v Hv He'. rewrite Hsame in Hv.
      assert (Mongoose.find_email (email v) (users w') = Some (id, v)) as Hf.
      { apply find_email_unique; [|done]. rewrite Hw'.
        by eapply unique_email_update. }
      rewrite He', Hfind in Hf. injection Hf as <- <-. apply Hfail.
Qed.

(** *** The unique index is an invariant *)

Lemma unique_email_insert (m : gmap ObjectId User) i (u' : User) :
  unique_email m →
  (∀ j v, m !! j = Some v → email v = email u' → j = i) →
  unique_email (<[i := u']> m).
Proof.
  intros Huniq Hfree a b ua ub.
  destruct (decide (a = i)) as [->|Ha], (decide (b = i)) as [->|Hb];
    rewrite ?lookup_insert_eq, ?lookup_insert_ne by done; [done|..].
  - intros [= <-] Hb' Heq. symmetry. by eapply Hfree.
  - intros Ha' [= <-] Heq. by eapply Hfree.
  - apply Huniq.
Qed.

Lemma persist_unique_email (d : Document) (w : World) r w' t :
  persist d w = (r, w', t) →
  unique_email (users w) → unique_email (users w').
Proof.
  intros (_ & _ & _ & H)%persist_inv Huniq.
  destruct H as [[-> _]|[(_ & _ & u & _ & Hfree & ->)
                        |(_ & _ & u & u' & Hu & Hf & Hfree & ->)]]; [done|..].
  - apply unique_email_insert; [done|]. intros j v Hv He.
    rewrite email_taken_fresh in Hfree. by destruct (Hfree j v Hv).
  - destruct (decide (PEmail ∈ modifiedPaths d)) as [Hin|Hin].
    + apply unique_email_insert; [done|]. intros j v Hv He.
      specialize (Hfree Hin). rewrite email_taken_false in Hfree.
      specialize (Hfree j v Hv He). congruence.
    + eapply unique_email_update; [done..|].
      apply foldl_apply_path in Hf as [_ Hf]. specialize (Hf PEmail).
      by rewrite bool_decide_eq_false_2 in Hf.
Qed.

Lemma save_unique_email (d : Document) (w : World) r w' t :
  save d w = (r, w', t) → unique_email (users w) → unique_email (users w').
Proof.
  intros Hsave Huniq. apply save_inv in Hsave
    as [(_ & _ & -> & _)|[(_ & _ & H)|(_ & _ & p & t' & _ & _ & H & _)]];
    [done|..]; exact (persist_unique_email _ _ _ _ _ H Huniq).
Qed.

Lemma router_unique_email (route : Route) (req : Request) (w : World) o w' t :
  router route req w = (o, w', t) →
  unique_email (users w) → unique_email (users w').
Proof.
  intros Hrun Huniq. destruct route; simpl in Hrun.
  - revert Hrun. unfold register, create, asyncHandler, mbind, M_bind, bind, get.
    cbv beta iota. destruct (save _ w) as [[[e|d] w1] t1] eqn:Hsave.
    + intros [= <- <- <-]. by eapply save_unique_email.
    + destruct (sendTokenResponse_run d 200 w1) as [payload ->].
      destruct (cookie_expires (now w1)); intros [= <- <- <-];
        by eapply save_unique_email.
  - by apply login_effect in Hrun as [-> _].
  - by apply logout_run in Hrun as (-> & _).
  - apply guarded_protect_run in Hrun
      as [[-> _]|(u & t1 & t2 & Hrun & _ & _)]; [done|].
    revert Hrun. unfold updateDetails, findByIdAndUpdate, findById. run_M.
    repeat case_match; intros; simplify_eq/=; try done.
    all: apply unique_email_insert; [done|]; intros j v Hv He.
    all: simpl in He.
    all: first [ match goal with
                 | H : Mongoose.email_taken _ _ _ = false |- _ =>
                     rewrite email_taken_false in H;
                     specialize (H j v Hv He); congruence
                 end
               | by eapply Huniq ].
  - apply guarded_protect_run in Hrun
      as [[-> _]|(u & t1 & t2 & Hrun & _ & _)]; [done|].
    revert Hrun. unfold updatePassword, findById, matchPassword,
      sendTokenResponse, getSignedJwtToken. run_M.
    repeat case_match; intros; simplify_eq/=; try done.
    all: match goal with
         | H : save _ _ = _ |- _ => by apply save_unique_email in H
         end.
Qed.

Lemma seedAdmin_unique_email (w : World) code w' t :
  seedAdmin w = (code, w', t) →
  unique_email (users w) → unique_email (users w').
Proof.
  unfold seedAdmin, findOne, create.
  unfold mbind, mret, M_bind, M_ret, bind, ret, emit, get. cbv beta iota.
  destruct (Mongoose.find_email _ _) as [[id u]|]; cbv beta iota;
    destruct (save _ w) as [[res w1] t1] eqn:Hsave;
    destruct res; intros [= <- <- <-]; by eapply save_unique_email.
Qed.

Lemma run_unique_email (ops : list Op) (w : World) :
  unique_email (users w) → unique_email (users (run ops w)).
Proof.
  revert w. induction ops as [|op ops IH]; intros w Hw; [done|].
  cbn [run]. apply IH. destruct op as [route req| |at_]; cbn [step].
  - destruct (router route req w) as [[o w'] t] eqn:Hrun.
    by eapply router_unique_email.
  - destruct (seedAdmin w) as [[code w'] t] eqn:Hrun.
    by eapply seedAdmin_unique_email.
  - done.
Qed.

(** ** Further properties of the handlers *)

(** *** The role check *)

(** X1. With a resolved identity, authorize calls the next handler exactly
    when the identity's role is one of the allowed roles; otherwise it
    answers 403 with a message that names the role. Either way it reads
    and writes nothing. *)
Theorem authorize_by_role
    (roles : list string) (req : Request) (w : World) (u : Document)
    (r : string) :
  user req = Some u → doc_role u = Some r →
  (r ∈ roles → authorize roles req w = (inr (NextHandler (Some u)), w, []))
  ∧ (r ∉ roles →
     authorize roles req w =
       (inr (NextError (ErrorResponse
          ("User role " ++ r ++ " is not authorized to access this route")%string
          403)), w, [])).
Proof.
  intros Hu Hr. unfold authorize. rewrite Hu, Hr. split; intros Hin.
  - rewrite bool_decide_eq_true_2; [done|]. by apply list_elem_of_fmap_2.
  - rewrite bool_decide_eq_false_2; [done|].
    intros H. by apply (list_elem_of_fmap_inj_2 Some) in H.
Qed.

(** *** Requests that fail change nothing *)






(** X3. login, logout and the guard are read-only: whatever the request,
    they hand back the world they were given. *)
Theorem read_only_handlers (req : Request) (w : World) :
  (asyncHandler (login req) w).1.2 = w
  ∧ (asyncHandler (logout req) w).1.2 = w
  ∧ (asyncHandler (protect req) w).1.2 = w.
Proof.
  split_and!.
  - destruct (asyncHandler (login req) w) as [[o w'] t] eqn:H.
    by apply login_effect in H as [-> _].
  - destruct (asyncHandler (logout req) w) as [[o w'] t] eqn:H.
    by apply logout_run in H as (-> & _).
  - destruct (asyncHandler (protect req) w) as [[o w'] t] eqn:H.
    by apply protect_passes in H as (-> & _).
Qed.

(** *** The guarded routes *)

(** X4. On PUT /updatedetails and PUT /updatepassword a request without a
    token, or with a token that fails verification, is answered with the
    401 'not authorized' error: the handler behind the guard does not run,
    the world is unchanged and the store is not accessed. *)
Theorem guarded_routes_need_token
    (route : Route) (req : Request) (w : World) :
  route = PutUpdateDetails ∨ route = PutUpdatePassword →
  request_token req = None ∨ request_token req = Some ""
  ∨ (∃ tok, request_token req = Some tok
            ∧ jwt_verify tok (JWT_SECRET env) (now w) = None) →
  ∃ t, router route req w =
         (NextError (ErrorResponse "Not authorized to access this route" 401),
          w, t)
       ∧ ∀ ev, ev ∈ t → is_store_access ev = false.
Proof.
  intros Hroute Htok.
  assert (Hp : ∃ t, asyncHandler (protect req) w
                    = (NextError not_authorized, w, t)
                    ∧ ∀ ev, ev ∈ t → is_store_access ev = false).
  { destruct Htok as [H|[H|(tok & Ht & Hv)]].
    - exists []. rewrite protect_no_token by auto. split; [done|].
      by intros ev ?%elem_of_nil.
    - exists []. rewrite protect_no_token by auto. split; [done|].
      by intros ev ?%elem_of_nil.
    - destruct (decide (tok = "")) as [->|Hne].
      + exists []. rewrite protect_no_token by auto. split; [done|].
        by intros ev ?%elem_of_nil.
      + exists [EvJwtVerify tok].
        rewrite (protect_verify_fails req w tok) by done. split; [done|].
        by intros ev ->%list_elem_of_singleton. }
  destruct Hp as (t & Hp & Ht). exists t. split; [|done].
  destruct Hroute as [-> | ->]; simpl; unfold guarded; by rewrite Hp.
Qed.

(** X5. On the guarded routes a token that verifies but whose id resolves
    to no record gets past the guard with an absent identity, and the
    handler then fails on [req.user.id] with a TypeError, not with the 401
    error; the world is unchanged. *)
Theorem guarded_routes_stale_token
    (route : Route) (req : Request) (w : World) (tok : string)
    (decoded : Claims) :
  route = PutUpdateDetails ∨ route = PutUpdatePassword →
  request_token req = Some tok → tok ≠ "" →
  jwt_verify tok (JWT_SECRET env) (now w) = Some decoded →
  users w !! claim_id decoded = None →
  router route req w
  = (NextError TypeError, w,
     [EvJwtVerify tok; EvFindById (claim_id decoded)]).
Proof.
  intros Hroute Ht Hne Hv Hnone.
  destruct Hroute as [-> | ->]; simpl; unfold guarded;
    rewrite (protect_verified req w tok decoded) by done; by rewrite Hnone.
Qed.

(** *** Changing the password *)

(** X6. updatePassword with a current password that does not verify
    against the stored digest answers 401 'Current password is incorrect':
    nothing is hashed, nothing is saved and the world is unchanged. *)
Theorem updatePassword_wrong_current
    (req : Request) (w : World) (acting : Document) (u : User) (cur : string) :
  user req = Some acting →
  users w !! _id acting = Some u →
  body_currentPassword (body req) = Some cur →
  bcrypt_compare cur (password u) = false →
  asyncHandler (updatePassword req) w
  = (NextError (ErrorResponse "Current password is incorrect" 401), w,
     [EvFindById (_id acting); EvBcryptCompare cur (password u)]).
Proof.
  intros Hu Hw Hcur Hcmp. unfold updatePassword, findById, matchPassword.
  rewrite Hu, Hcur. run_M. rewrite Hw. simpl. by rewrite Hcmp.
Qed.

(** X7. Whatever its outcome, updatePassword can change nothing but the
    password of the acting user's record: every other record, and the
    name, email, role, tenant id and creation date of that record, stay
    as they are. *)
Theorem updatePassword_frame
    (req : Request) (w : World) (acting : Document) o w' t :
  user req = Some acting →
  asyncHandler (updatePassword req) w = (o, w', t) →
  now w' = now w
  ∧ (∀ id, id ≠ _id acting → users w' !! id = users w !! id)
  ∧ (users w !! _id acting = None → users w' !! _id acting = None)
  ∧ (∀ u, users w !! _id acting = Some u →
       ∃ u', users w' !! _id acting = Some u'
             ∧ name u' = name u ∧ email u' = email u ∧ role u' = role u
             ∧ tenantId u' = tenantId u ∧ createdAt u' = createdAt u).
Proof.
  intros Hu. unfold updatePassword, findById, matchPassword.
  rewrite Hu. run_M.
  destruct (users w !! _id acting) as [u|] eqn:Hw; simpl;
    [|intros [= <- <- <-]; split_and!; try done].
  assert (Hsame : ∀ w1, users w1 = users w → now w1 = now w →
            now w1 = now w
            ∧ (∀ id, id ≠ _id acting → users w1 !! id = users w !! id)
            ∧ (Some u = None → users w1 !! _id acting = None)
            ∧ (∀ u0, Some u = Some u0 →
                 ∃ u', users w1 !! _id acting = Some u'
                       ∧ name u' = name u0 ∧ email u' = email u0
                       ∧ role u' = role u0 ∧ tenantId u' = tenantId u0
                       ∧ createdAt u' = createdAt u0)).
  { intros w1 Hus Hnow. split_and!; try done.
    - intros id _. by rewrite Hus.
    - intros u0 [= <-]. exists u. by rewrite Hus. }
  assert (Hsave : ∀ res w1 t1,
            save (Mongoose.set PPassword (body_newPassword (body req))
                    (Mongoose.hydrate true (_id acting) u)) w = (res, w1, t1) →
            now w1 = now w
            ∧ (∀ id, id ≠ _id acting → users w1 !! id = users w !! id)
            ∧ (Some u = None → users w1 !! _id acting = None)
            ∧ (∀ u0, Some u = Some u0 →
                 ∃ u', users w1 !! _id acting = Some u'
                       ∧ name u' = name u0 ∧ email u' = email u0
                       ∧ role u' = role u0 ∧ tenantId u' = tenantId u0
                       ∧ createdAt u' = createdAt u0)).
  { intros res w1 t1 Hs. pose proof (save_now _ _ _ _ _ Hs) as Hnow.
    destruct (set_password_hydrated (body_newPassword (body req))
                (_id acting) u) as [[_ Hset]|(_ & Hmod & _ & Hset)];
      rewrite Hset in Hs.
    - apply save_inv in Hs
        as [(_ & _ & -> & _)|[(_ & _ & H)|(_ & Hm & _)]];
        [by apply Hsame| |done].
      apply persist_inv in H as (_ & _ & _ & H).
      destruct H as [[H _]|[(_ & ? & _)|(_ & _ & u0 & u' & Hu0 & Hf & _ & Hw1)]];
        [by apply Hsame|done|].
      simpl in Hf, Hu0. injection Hf as <-. rewrite Hw in Hu0.
      injection Hu0 as <-. apply Hsame; [|done]. rewrite Hw1. simpl.
      by apply insert_id.
    - apply save_inv in Hs
        as [(_ & _ & -> & _)|[(_ & Hm & _)|(_ & _ & p & t' & _ & _ & H & _)]];
        [by apply Hsame|done|].
      apply persist_inv in H as (_ & _ & _ & H).
      destruct H as [[H _]|[(_ & ? & _)|(_ & _ & u0 & u' & Hu0 & Hf & _ & Hw1)]];
        [by apply Hsame|done|].
      simpl in Hf, Hu0. rewrite Hw in Hu0. injection Hu0 as <-.
      unfold apply_path in Hf. simpl in Hf. injection Hf as <-.
      rewrite Hw1. simpl. split_and!; try done.
      + intros id Hid. by rewrite lookup_insert_ne.
      + intros u0 [= <-]. eexists. rewrite lookup_insert_eq. by split_and!. }
  destruct (body_currentPassword (body req)) as [cur|];
    [|intros [= <- <- <-]; by apply Hsame].
  destruct (bcrypt_compare cur (password u)); simpl;
    [|intros [= <- <- <-]; by apply Hsame].
  destruct (save _ w) as [[[e|d] w1] t1] eqn:Hs.
  - intros [= <- <- <-]; by eapply Hsave.
  - destruct (sendTokenResponse d 200 w1) as [[[e2|o2] w2] t2] eqn:Hsend;
      apply sendTokenResponse_sent in Hsend as (-> & _);
      intros [= <- <- <-]; by eapply Hsave.
Qed.

(** *** Registration, in full *)

Lemma email_taken_by (e : string) (m : gmap ObjectId User) id (u : User) :
  m !! id = Some u → email u = e → Mongoose.email_taken e None m = true.
Proof.
  intros Hu He. destruct (Mongoose.email_taken e None m) eqn:Ht; [done|].
  rewrite email_taken_fresh in Ht. by destruct (Ht id u Hu).
Qed.

Lemma register_run (req : Request) (w : World) (n e p t : string) :
  body_name (body req) = Some n → body_email (body req) = Some e →
  body_password (body req) = Some p → body_tenantId (body req) = Some t →
  UserSchema.validate
    (Mongoose.new_document (fresh (dom (users w))) (now w)
       (body_name (body req)) (body_email (body req))
       (body_password (body req)) (body_role (body req))
       (body_tenantId (body req))) = [] →
  let id := fresh (dom (users w)) in
  let salt := bcrypt_genSalt 10 (entropy w) in
  let r := default UserSchema.role_default (body_role (body req)) in
  let u := mkUser n e r (bcrypt_hash p salt) t (now w) in
  let payload := mkClaims id (Some n) (Some r) (Some t) in
  let token := jwt_sign payload (JWT_SECRET env) (JWT_EXPIRE env) (now w) in
  asyncHandler (register req) w =
    if Mongoose.email_taken e None (users w) then
      (NextError DuplicateKeyError,
       {| users := users w; now := now w; entropy := S (entropy w) |},
       [EvBcryptHash p salt; EvInsertOne id])
    else
      (match cookie_expires (now w) with
       | Some date =>
           Sent {| res_status := 200;
                   res_cookies :=
                     [mkCookie "token" token
                        {| expires := date;
                           httpOnly := Some true;
                           secure := Some (bool_decide
                                             (NODE_ENV env = Some "production"));
                           path := Some "/";
                           sameSite := Some Lax |}];
                   res_json := JsonToken token |}
       | None => NextError TypeError
       end,
       {| users := <[id := u]> (users w); now := now w;
          entropy := S (entropy w) |},
       [EvBcryptHash p salt; EvInsertOne id; EvJwtSign payload]).
Proof.
  intros Hn He Hp Ht Hvalid. cbv zeta.
  unfold register, create. run_M. rewrite save_unfold, Hvalid.
  rewrite Hn, He, Hp, Ht. unfold Mongoose.new_document. clear Hvalid.
  destruct (body_role (body req)) as [r|]; cbn -[fresh];
    unfold persist; run_M;
    (destruct (Mongoose.email_taken e None (users w)); [done|]);
    rewrite sendTokenResponse_unfold; cbn -[fresh];
    by destruct (cookie_expires (now w)).
Qed.



(** X9. A registration that passes validation but whose email a stored
    user already has is refused with the duplicate-key error of the unique
    index: the password has been hashed by then, but no record is added
    and no stored record changes. *)
Theorem register_taken_email
    (req : Request) (w : World) (n e p t : string) id0 (u0 : User) :
  body_name (body req) = Some n → body_email (body req) = Some e →
  body_password (body req) = Some p → body_tenantId (body req) = Some t →
  UserSchema.validate
    (Mongoose.new_document (fresh (dom (users w))) (now w)
       (body_name (body req)) (body_email (body req))
       (body_password (body req)) (body_role (body req))
       (body_tenantId (body req))) = [] →
  users w !! id0 = Some u0 → email u0 = e →
  asyncHandler (register req) w =
    (NextError DuplicateKeyError,
     {| users := users w; now := now w; entropy := S (entropy w) |},
     [EvBcryptHash p (bcrypt_genSalt 10 (entropy w));
      EvInsertOne (fresh (dom (users w)))]).
Proof.
  intros Hn He Hp Ht Hvalid Hu0 He0.
  rewrite (register_run req w n e p t) by done.
  by rewrite (email_taken_by e (users w) id0 u0).
Qed.

(** *** Logging in, and coming back with the token *)


Lemma split_no_separator (sep : ascii) (s : string) :
  Js.contains sep s = false → Js.split sep s = [s].
Proof.
  induction s as [|c s IH]; simpl; [done|].
  intros [Hc Hs]%orb_false_iff. rewrite Hc, IH; done.
Qed.

Lemma request_token_bearer_header (req : Request) (tok : string) :
  authorization req = Some (String.append "Bearer " tok) →
  Js.contains " " tok = false →
  request_token req = Some tok.
Proof.
  intros Hh Hsp. rewrite (request_token_bearer req _ Hh) by done.
  change (String.append "Bearer " tok)
    with (String "B" (String "e" (String "a" (String "r" (String "e"
           (String "r" (String " " tok))))))).
  cbn [Js.split Ascii.eqb Bool.eqb]. by rewrite split_no_separator.
Qed.

(** X11. The token the system signs for a user opens the guard for that
    user: sent back in the 'token' cookie, or after 'Bearer ' in the
    Authorization header when it holds no space, a token that still
    verifies makes protect attach the user's current record, without the
    password, and call the next handler. The record is read afresh: what
    the token says about name or role is not used. *)
Theorem signed_token_opens_guard
    (req : Request) (w : World) (payload : Claims) (issued : Z) (u : User) :
  let token :=
    jwt_sign payload (JWT_SECRET env) (JWT_EXPIRE env) issued in
  token ≠ "" →
  jwt_verify token (JWT_SECRET env) (now w) = Some payload →
  users w !! claim_id payload = Some u →
  (authorization req = None ∧ cookies_token req = Some token)
  ∨ (authorization req = Some (String.append "Bearer " token)
     ∧ Js.contains " " token = false) →
  asyncHandler (protect req) w =
    (NextHandler (Some (Mongoose.hydrate false (claim_id payload) u)), w,
     [EvJwtVerify token; EvFindById (claim_id payload)])
  ∧ doc_password (Mongoose.hydrate false (claim_id payload) u) = None.
Proof.
  cbv zeta. intros Hne Hv Hu Hreq. split; [|done].
  assert (Htok : request_token req
                 = Some (jwt_sign payload (JWT_SECRET env) (JWT_EXPIRE env)
                                  issued)).
  { destruct Hreq as [[Hh Hc]|[Hh Hsp]].
    - rewrite request_token_cookie by auto. rewrite Hc.
      by destruct (jwt_sign _ _ _ _).
    - by apply request_token_bearer_header. }
  rewrite (protect_verified req w _ payload) by done. by rewrite Hu.
Qed.

(** X12. No response carries a password: whatever the route and the
    request, a response that is sent holds a token, an empty object, or a
    user document whose password field is absent. *)
Theorem responses_hide_password
    (route : Route) (req : Request) (w : World) r w' t :
  router route req w = (Sent r, w', t) →
  match res_json r with
  | JsonData (Some d) => doc_password d = None
  | _ => True
  end.
Proof.
  destruct route; simpl.
  - intros (payload & -> & _)%register_sent. done.
  - intros (_ & payload & -> & _)%login_sent. done.
  - by intros (_ & _ & [[=]|[= ->]])%logout_run.
  - intros (u & t' & Hrun)%guarded_protect_sent.
    destruct (user (set_user u req)) as [acting|] eqn:Hu.
    + eapply updateDetails_effect in Hrun as (_ & _ & _ & _ & _ & _ & Hr);
        [|done].
      destruct (Hr r eq_refl) as (data & -> & Hd).
      destruct data as [d|]; [|done]. by destruct (Hd d eq_refl).
    + revert Hrun. unfold updateDetails. rewrite Hu. by run_M.
  - intros (u & t' & Hrun)%guarded_protect_sent.
    by apply updatePassword_sent in Hrun as (payload & -> & _).
Qed.

(** *** The seeding script *)

Lemma admin_email_valid :
  Regex.test UserSchema.email_pattern "admin@cityschool.com" = true.
Proof. by vm_compute. Qed.

Lemma validate_valid_document (d : Document) :
  UserSchema.validate d = [] → valid_document d.
Proof.
  unfold UserSchema.validate.
  intros (Hn & (He & (Hr & (_ & Ht)%app_eq_nil)%app_eq_nil)%app_eq_nil)%app_eq_nil.
  split_and!.
  - intros n Hd. rewrite Hd in Hn. unfold UserSchema.validate_name,
      UserSchema.required in Hn. by destruct n.
  - intros e Hd. rewrite Hd in He. unfold UserSchema.validate_email,
      UserSchema.required, UserSchema.match_ in He.
    apply app_eq_nil in He as [He1 He2].
    destruct (Regex.test UserSchema.email_pattern e); [done|].
    destruct (Js.truthy (Some e)); simpl in He1, He2; discriminate.
  - intros t Hd. rewrite Hd in Ht. unfold UserSchema.validate_tenantId,
      UserSchema.required in Ht. by destruct t.
Qed.

Lemma validate_loaded_document id (n e r t : string) created paths :
  n ≠ "" → Regex.test UserSchema.email_pattern e = true →
  r ∈ UserSchema.role_enum → t ≠ "" → PPassword ∉ paths →
  UserSchema.validate
    (mkDocument id (Some n) (Some e) (Some r) None (Some t) created false
       false paths) = [].
Proof.
  intros Hn Hre Hr Ht Hp.
  unfold UserSchema.validate, UserSchema.validate_name,
    UserSchema.validate_email, UserSchema.validate_role,
    UserSchema.validate_tenantId, UserSchema.required, UserSchema.match_,
    UserSchema.enum.
  cbn [doc_name doc_email doc_role doc_password doc_tenantId isNew
       password_selected modifiedPaths orb].
  rewrite Hre, (bool_decide_eq_true_2 _ Hr), (bool_decide_eq_false_2 _ Hp).
  pose proof (email_pattern_nonempty e Hre).
  destruct n, e, t; done.
Qed.

Lemma seed_document id (u : User) :
  Mongoose.set PName (Some "Super Admin")
    (Mongoose.set PRole (Some "super-admin") (Mongoose.hydrate false id u))
  = mkDocument id (Some "Super Admin") (Some (email u)) (Some "super-admin")
      None (Some (tenantId u)) (createdAt u) false false
      ((if decide (role u = "super-admin") then [] else [PRole])
       ++ (if decide (name u = "Super Admin") then [] else [PName])).
Proof.
  unfold Mongoose.set, Mongoose.isModified, Mongoose.mark_modified,
    Mongoose.hydrate. simpl.
  destruct (decide (role u = "super-admin")) as [Hr|Hr],
           (decide (name u = "Super Admin")) as [Hn|Hn].
  - rewrite (bool_decide_eq_true_2 (Some "super-admin" = Some (role u)))
      by congruence. simpl.
    rewrite (bool_decide_eq_true_2 (Some "Super Admin" = Some (name u)))
      by congruence. simpl. by rewrite Hr, Hn.
  - rewrite (bool_decide_eq_true_2 (Some "super-admin" = Some (role u)))
      by congruence. simpl.
    rewrite (bool_decide_eq_false_2 (Some "Super Admin" = Some (name u)))
      by congruence. simpl. by rewrite Hr.
  - rewrite (bool_decide_eq_false_2 (Some "super-admin" = Some (role u)))
      by congruence. simpl.
    rewrite (bool_decide_eq_true_2 (Some "Super Admin" = Some (name u)))
      by congruence. simpl. by rewrite Hn.
  - rewrite (bool_decide_eq_false_2 (Some "super-admin" = Some (role u)))
      by congruence. simpl.
    by rewrite (bool_decide_eq_false_2 (Some "Super Admin" = Some (name u)))
      by congruence.
Qed.

Lemma seedAdmin_unfold (w : World) :
  seedAdmin w =
  match Mongoose.find_email "admin@cityschool.com" (users w) with
  | Some (id, u) =>
      match save (Mongoose.set PName (Some "Super Admin")
                    (Mongoose.set PRole (Some "super-admin")
                       (Mongoose.hydrate false id u))) w with
      | (inr _, w', t) => (0, w', EvFindOne "admin@cityschool.com" :: t)
      | (inl _, w', t) => (1, w', EvFindOne "admin@cityschool.com" :: t)
      end
  | None =>
      match create (Some "Super Admin") (Some "admin@cityschool.com")
              (Some "adminpassword123") (Some "super-admin")
              (Some "HQ-GLOBAL") w with
      | (inr _, w', t) => (0, w', EvFindOne "admin@cityschool.com" :: t)
      | (inl _, w', t) => (1, w', EvFindOne "admin@cityschool.com" :: t)
      end
  end.
Proof.
  unfold seedAdmin, findOne.
  unfold mbind, mret, M_bind, M_ret, bind, ret, emit, get. cbv beta iota.
  destruct (Mongoose.find_email _ _) as [[id u]|]; cbv beta iota.
  - destruct (save _ w) as [[[e|d] w1] t1]; by rewrite ?app_nil_r.
  - destruct (create _ _ _ _ _ w) as [[[e|d] w1] t1]; by rewrite ?app_nil_r.
Qed.

Lemma seedAdmin_create_run (w : World) :
  (∀ id u, users w !! id = Some u → email u ≠ "admin@cityschool.com") →
  seedAdmin w =
    (0, {| users :=
             <[fresh (dom (users w)) :=
                 mkUser "Super Admin" "admin@cityschool.com" "super-admin"
                   (bcrypt_hash "adminpassword123"
                      (bcrypt_genSalt 10 (entropy w)))
                   "HQ-GLOBAL" (now w)]> (users w);
           now := now w; entropy := S (entropy w) |},
     [EvFindOne "admin@cityschool.com";
      EvBcryptHash "adminpassword123" (bcrypt_genSalt 10 (entropy w));
      EvInsertOne (fresh (dom (users w)))]).
Proof.
  intros Hfree. rewrite seedAdmin_unfold.
  pose proof Hfree as Hnone. apply find_email_None in Hnone. rewrite Hnone.
  unfold create. unfold mbind, M_bind, bind, get. cbv beta iota.
  rewrite save_unfold. unfold Mongoose.new_document.
  rewrite validate_new_document;
    [|done|exact admin_email_valid
     |apply list_elem_of_here|cbn; lia|done].
  change (Mongoose.isModified PPassword _) with true. cbv beta iota zeta.
  cbn [doc_password]. unfold persist.
  unfold mbind, mret, M_bind, M_ret, bind, ret, emit, get, put, throw.
  cbv beta iota. cbn [isNew Mongoose.put_path to_user doc_name doc_email
    doc_role doc_password doc_tenantId doc_createdAt _id mbind option_bind
    users next_entropy email].
  apply email_taken_fresh in Hfree. rewrite Hfree. by cbv beta iota.
Qed.

(** X13. When no stored user has the admin email, the seeding script
    creates one record under a fresh id, named 'Super Admin', with the
    role 'super-admin', the tenant 'HQ-GLOBAL' and the digest of the
    password written in the script, and exits with code 0. *)
Theorem seedAdmin_creates_admin (w : World) :
  (∀ id u, users w !! id = Some u → email u ≠ "admin@cityschool.com") →
  let id := fresh (dom (users w)) in
  let salt := bcrypt_genSalt 10 (entropy w) in
  let admin :=
    mkUser "Super Admin" "admin@cityschool.com" "super-admin"
      (bcrypt_hash "adminpassword123" salt) "HQ-GLOBAL" (now w) in
  users w !! id = None
  ∧ seedAdmin w =
      (0, {| users := <[id := admin]> (users w); now := now w;
             entropy := S (entropy w) |},
       [EvFindOne "admin@cityschool.com";
        EvBcryptHash "adminpassword123" salt; EvInsertOne id]).
Proof.
  intros Hfree. cbv zeta. split; [apply fresh_id_unused|].
  by apply seedAdmin_create_run.
Qed.

(** X14. In a collection where no two records share an email, when a
    stored user has the admin email and a non-empty tenant id, whatever
    its role, the seeding script makes it a super admin: it sets the role
    to 'super-admin' and the name to 'Super Admin', keeps email, password,
    tenant id and creation date, touches no other record, hashes nothing
    and exits with code 0. (With an empty tenant id it exits with code 1,
    X25.) *)
Theorem seedAdmin_promotes_existing (w : World) id (u : User) :
  unique_email (users w) →
  users w !! id = Some u → email u = "admin@cityschool.com" →
  tenantId u ≠ "" →
  ∃ t, seedAdmin w =
         (0, {| users := <[id := promoted u]> (users w); now := now w;
                entropy := entropy w |}, t)
       ∧ hashes t = [].
Proof.
  intros Huniq Hu He Ht.
  pose proof (find_email_unique _ _ _ Huniq Hu) as Hfind. rewrite He in Hfind.
  rewrite seedAdmin_unfold, Hfind, seed_document, save_unfold.
  rewrite validate_loaded_document;
    [|done|rewrite He; exact admin_email_valid|apply list_elem_of_here|done|].
  2: { destruct (decide (role u = "super-admin")),
         (decide (name u = "Super Admin")); cbn [app]; not_in_paths. }
  assert (Hmod : ∀ paths d, d = mkDocument id (Some "Super Admin")
            (Some (email u)) (Some "super-admin") None (Some (tenantId u))
            (createdAt u) false false paths →
            PPassword ∉ paths → Mongoose.isModified PPassword d = false).
  { intros paths d -> Hp. by apply bool_decide_eq_false_2. }
  unfold persist.
  unfold mbind, mret, M_bind, M_ret, bind, ret, emit, get, put, throw.
  destruct (decide (role u = "super-admin")) as [Hr|Hr],
           (decide (name u = "Super Admin")) as [Hn|Hn];
    cbn [app]; erewrite Hmod by (reflexivity || not_in_paths);
    cbv beta iota; cbn [isNew modifiedPaths _id].
  all: rewrite Hu; cbv beta iota.
  1: { assert (Hsame : <[id := promoted u]> (users w) = users w).
       { apply insert_id. rewrite Hu. f_equal.
         destruct u; simpl in *; by subst. }
       rewrite Hsame. eexists. split; [by destruct w|reflexivity]. }
  all: cbn [foldl]; unfold apply_path;
    cbn [mbind option_bind Mongoose.get_path doc_role doc_name name email
         role password tenantId createdAt];
    eexists;
    (split;
     [unfold set_users, promoted; cbn [users now entropy];
      by rewrite ?Hr, ?Hn
     |reflexivity]).
Qed.

(** X25. When the stored user that has the admin email has an empty
    tenant id, the seeding script fails validation: it exits with code 1
    after the lookup and writes nothing. *)
Theorem seedAdmin_invalid_existing (w : World) id (u : User) :
  unique_email (users w) →
  users w !! id = Some u → email u = "admin@cityschool.com" →
  tenantId u = "" →
  seedAdmin w = (1, w, [EvFindOne "admin@cityschool.com"]).
Proof.
  intros Huniq Hu He Ht.
  pose proof (find_email_unique _ _ _ Huniq Hu) as Hfind. rewrite He in Hfind.
  rewrite seedAdmin_unfold, Hfind, seed_document, save_unfold.
  destruct (UserSchema.validate _) eqn:Hv; [|done].
  apply validate_valid_document in Hv as (_ & _ & Hv).
  destruct (Hv (tenantId u) eq_refl Ht).
Qed.

Lemma seedAdmin_exit_0 (w w' : World) t :
  seedAdmin w = (0, w', t) →
  ∃ id u, users w' !! id = Some u ∧ email u = "admin@cityschool.com"
          ∧ role u = "super-admin" ∧ name u = "Super Admin"
          ∧ tenantId u ≠ "".
Proof.
  rewrite seedAdmin_unfold.
  destruct (Mongoose.find_email _ _) as [[id u]|] eqn:Hfind.
  - apply find_email_Some in Hfind as [Hu He].
    rewrite seed_document.
    destruct (save _ w) as [[[e|d] w1] t1] eqn:Hsave; [done|].
    intros [= <- <-].
    apply save_inv in Hsave
      as [(_ & [=] & _)|[(Hv & _ & H)|(_ & Hm & _)]].
    2: { apply bool_decide_eq_true_1 in Hm. exfalso. revert Hm.
         cbn [modifiedPaths].
         destruct (decide (role u = "super-admin")),
           (decide (name u = "Super Admin")); cbn [app]; not_in_paths. }
    apply validate_valid_document in Hv as (_ & _ & Hv).
    specialize (Hv (tenantId u) eq_refl).
    apply persist_inv in H as (_ & _ & _ & H). cbn [isNew modifiedPaths _id] in H.
    destruct H as [[Hs [[e' [=]]|(_ & Hmp & _)]]
                  |[(_ & [=] & _)|(_ & _ & u0 & u' & Hu0 & Hf & _ & Hs)]].
    + exists id, u. rewrite Hs.
      destruct (decide (role u = "super-admin")),
        (decide (name u = "Super Admin")); done.
    + exists id, u'. rewrite Hs, lookup_insert_eq.
      assert (u0 = u) as -> by congruence.
      apply foldl_apply_path in Hf as [_ Hf].
      pose proof (Hf PEmail) as Hemail.
      pose proof (Hf PRole) as Hrole. pose proof (Hf PName) as Hname.
      pose proof (Hf PTenantId) as Htenant.
      cbn [Mongoose.get_path Mongoose.stored_path doc_name doc_email doc_role
           doc_tenantId] in Hemail, Hrole, Hname, Htenant.
      split_and!; [done|..].
      4: { destruct (bool_decide (PTenantId ∈ _)); congruence. }
      * destruct (bool_decide (PEmail ∈ _)); congruence.
      * destruct (bool_decide (PRole ∈ _)) eqn:Hin; [congruence|].
        apply bool_decide_eq_false_1 in Hin. rewrite Hrole.
        destruct (decide (role u = "super-admin")) as [|Hne]; [done|].
        destruct Hin. apply list_elem_of_here.
      * destruct (bool_decide (PName ∈ _)) eqn:Hin; [congruence|].
        apply bool_decide_eq_false_1 in Hin. rewrite Hname.
        destruct (decide (name u = "Super Admin")) as [|Hne]; [done|].
        destruct Hin. apply elem_of_app. right. apply list_elem_of_here.
  - unfold create. unfold mbind, M_bind, bind, get. cbv beta iota.
    destruct (save _ w) as [[[e|d] w1] t1] eqn:Hsave; [done|].
    intros [= <- <-].
    apply save_inv in Hsave
      as [(_ & [=] & _)|[(_ & Hm & _)|(_ & _ & p & t' & _ & _ & H & _)]];
      [done|].
    apply persist_inv in H as (_ & _ & _ & H).
    destruct H as [[_ [[e' [=]]|(_ & _ & [=])]]
                  |[(_ & _ & u & Hu & _ & Hs)|(_ & [=] & _)]].
    exists (fresh (dom (users w))), u. rewrite Hs.
    unfold Mongoose.new_document in *.
    cbn [Mongoose.put_path to_user doc_name doc_email doc_role doc_password
         doc_tenantId doc_createdAt _id mbind option_bind] in *.
    injection Hu as <-. by rewrite lookup_insert_eq.
Qed.

(** X15. In a collection where no two records share an email, once the
    seeding script has exited with code 0, running it again writes and
    hashes nothing, whatever the clock and the salt source have become:
    it looks the admin up by email, finds nothing to change, looks the
    record up once more by id as the save of an unmodified document does,
    and exits with code 0. *)
Theorem seedAdmin_idempotent (w w1 w2 : World) t :
  unique_email (users w) →
  seedAdmin w = (0, w1, t) →
  users w2 = users w1 →
  ∃ id u,
    users w1 !! id = Some u ∧ email u = "admin@cityschool.com"
    ∧ seedAdmin w2 =
        (0, w2, [EvFindOne "admin@cityschool.com"; EvFindById id]).
Proof.
  intros Huniq Hrun Hsame.
  pose proof (seedAdmin_unique_email _ _ _ _ Hrun Huniq) as Huniq1.
  apply seedAdmin_exit_0 in Hrun as (id & u & Hu & He & Hr & Hn & Ht).
  exists id, u. split; [done|]. split; [done|].
  rewrite <- Hsame in Hu, Huniq1.
  pose proof (find_email_unique _ _ _ Huniq1 Hu) as Hfind.
  rewrite He in Hfind.
  rewrite seedAdmin_unfold, Hfind, seed_document, save_unfold.
  rewrite (decide_True _ _ Hr), (decide_True _ _ Hn). cbn [app].
  rewrite validate_loaded_document;
    [|done|rewrite He; exact admin_email_valid|apply list_elem_of_here|done
     |not_in_paths].
  change (Mongoose.isModified PPassword _) with false. cbv beta iota.
  unfold persist.
  unfold mbind, mret, M_bind, M_ret, bind, ret, emit, get, put, throw.
  cbv beta iota. cbn [isNew modifiedPaths _id]. rewrite Hu. by cbv beta iota.
Qed.

(** *** What every stored record satisfies *)

Lemma valid_document_put_password (d : Document) v :
  valid_document d → valid_document (Mongoose.put_path PPassword v d).
Proof. done. Qed.

Lemma persist_valid_store (d : Document) (w : World) r w' t :
  persist d w = (r, w', t) →
  valid_document d → valid_store w → valid_store w'.
Proof.
  intros (_ & _ & _ & H)%persist_inv (Hn & He & Ht) Hw.
  destruct H as [[Hs _]|[(_ & _ & u & Hu & _ & Hs)
                        |(_ & _ & u & u' & Hu & Hf & _ & Hs)]];
    intros id v; rewrite Hs; [apply Hw|..].
  - destruct (decide (id = _id d)) as [->|Hid];
      [|rewrite lookup_insert_ne by done; apply Hw].
    rewrite lookup_insert_eq. intros [= <-]. unfold to_user in Hu.
    destruct (doc_name d) as [n|] eqn:Hdn; [|done].
    destruct (doc_email d) as [e|] eqn:Hde; [|done].
    destruct (doc_role d) as [ro|] eqn:Hdr; [|done].
    destruct (doc_password d) as [p|]; [|done].
    destruct (doc_tenantId d) as [te|] eqn:Hdt; [|done].
    simpl in Hu. simplify_eq. split_and!; simpl; auto.
  - destruct (decide (id = _id d)) as [->|Hid];
      [|rewrite lookup_insert_ne by done; apply Hw].
    rewrite lookup_insert_eq. intros [= <-].
    destruct (Hw _ _ Hu) as (Hun & Hue & Hut).
    apply foldl_apply_path in Hf as [_ Hf].
    pose proof (Hf PName) as Hname. pose proof (Hf PEmail) as Hemail.
    pose proof (Hf PTenantId) as Htenant.
    cbn [Mongoose.get_path Mongoose.stored_path] in Hname, Hemail, Htenant.
    split_and!.
    + destruct (bool_decide (PName ∈ _)); [by apply Hn|by rewrite Hname].
    + destruct (bool_decide (PEmail ∈ _)); [by apply He|by rewrite Hemail].
    + destruct (bool_decide (PTenantId ∈ _));
        [by apply Ht|by rewrite Htenant].
Qed.

Lemma save_valid_store (d : Document) (w : World) r w' t :
  save d w = (r, w', t) → valid_store w → valid_store w'.
Proof.
  intros Hsave Hw. apply save_inv in Hsave
    as [(_ & _ & -> & _)|[(Hv & _ & H)|(Hv & _ & p & t' & _ & _ & H & _)]];
    [done|..]; apply validate_valid_document in Hv.
  - exact (persist_valid_store _ _ _ _ _ H Hv Hw).
  - exact (persist_valid_store _ _ _ _ _ H
             (valid_document_put_password _ _ Hv) Hw).
Qed.

Lemma validate_name_Some (n : string) :
  UserSchema.validate_name (Some n) = [] → n ≠ "".
Proof. unfold UserSchema.validate_name, UserSchema.required. by destruct n. Qed.

Lemma validate_email_Some (e : string) :
  UserSchema.validate_email (Some e) = [] →
  Regex.test UserSchema.email_pattern e = true.
Proof.
  unfold UserSchema.validate_email, UserSchema.required, UserSchema.match_.
  intros [He1 He2]%app_eq_nil.
  destruct (Regex.test UserSchema.email_pattern e); [done|].
  destruct (Js.truthy (Some e)); simpl in He1, He2; discriminate.
Qed.

Lemma updateDetails_valid_store
    (req : Request) (w : World) o w' t :
  asyncHandler (updateDetails req) w = (o, w', t) →
  valid_store w → valid_store w'.
Proof.
  unfold updateDetails, findByIdAndUpdate, findById. run_M.
  destruct (user req) as [acting|]; simpl;
    destruct (body_name (body req)) as [n|] eqn:Hbn,
             (body_email (body req)) as [e|] eqn:Hbe;
    simpl; repeat case_match; intros; simplify_eq/=; try done.
  all: match goal with
       | Hu : users _ !! _ = Some ?u, Hw : valid_store _ |- _ =>
           destruct (Hw _ _ Hu) as (Hun & Hue & Hut);
           intros j v; unfold set_users; cbn [users];
           destruct (decide (j = _id acting)) as [->|Hj];
           [rewrite lookup_insert_eq; intros [= <-]
           |rewrite lookup_insert_ne by done; by apply Hw]
       end.
  all: repeat match goal with
       | H : _ ++ _ = [] |- _ => apply app_eq_nil in H as [? ?]
       end.
  all: split_and!; simpl; try done;
    try (by apply validate_name_Some); try (by apply validate_email_Some).
Qed.

Lemma router_valid_store (route : Route) (req : Request) (w : World) o w' t :
  router route req w = (o, w', t) → valid_store w → valid_store w'.
Proof.
  intros Hrun Hw. destruct route; simpl in Hrun.
  - revert Hrun. unfold register, create, asyncHandler, mbind, M_bind, bind, get.
    cbv beta iota. destruct (save _ w) as [[[e|d] w1] t1] eqn:Hsave.
    + intros [= <- <- <-]. by eapply save_valid_store.
    + destruct (sendTokenResponse_run d 200 w1) as [payload ->].
      destruct (cookie_expires (now w1)); intros [= <- <- <-];
        by eapply save_valid_store.
  - by apply login_effect in Hrun as [-> _].
  - by apply logout_run in Hrun as (-> & _).
  - apply guarded_protect_run in Hrun
      as [[-> _]|(u & t1 & t2 & Hrun & _ & _)]; [done|].
    by eapply updateDetails_valid_store.
  - apply guarded_protect_run in Hrun
      as [[-> _]|(u & t1 & t2 & Hrun & _ & _)]; [done|].
    revert Hrun. unfold updatePassword, findById, matchPassword,
      sendTokenResponse, getSignedJwtToken. run_M.
    repeat case_match; intros; simplify_eq/=; try done.
    all: match goal with
         | H : save _ _ = _ |- _ => by apply save_valid_store in H
         end.
Qed.

Lemma seedAdmin_valid_store (w : World) code w' t :
  seedAdmin w = (code, w', t) → valid_store w → valid_store w'.
Proof.
  unfold seedAdmin, findOne, create.
  unfold mbind, mret, M_bind, M_ret, bind, ret, emit, get. cbv beta iota.
  destruct (Mongoose.find_email _ _) as [[id u]|]; cbv beta iota;
    destruct (save _ w) as [[res w1] t1] eqn:Hsave;
    destruct res; intros [= <- <- <-]; by eapply save_valid_store.
Qed.

(** X16. Whatever requests, seeding runs and clock ticks a store goes
    through in which every record has a non-empty name, an email that
    matches the pattern and a non-empty tenant id, every record it holds
    afterwards still has them. *)
Theorem run_valid_store (ops : list Op) (w : World) :
  valid_store w → valid_store (run ops w).
Proof.
  revert w. induction ops as [|op ops IH]; intros w Hw; [done|].
  cbn [run]. apply IH. destruct op as [route req| |at_]; cbn [step].
  - destruct (router route req w) as [[o w'] t] eqn:Hrun.
    by eapply router_valid_store.
  - destruct (seedAdmin w) as [[code w'] t] eqn:Hrun.
    by eapply seedAdmin_valid_store.
  - done.
Qed.

(** X17. Starting from a store where no two records share an email,
    no sequence of requests, seeding runs and clock ticks produces two
    records with the same email: any two different records of the store
    it ends in have different emails. The unique index holds through
    register, updateDetails and the seeding script. *)
Theorem run_keeps_emails_unique (ops : list Op) (w : World) id1 id2 u1 u2 :
  unique_email (users w) →
  id1 ≠ id2 →
  users (run ops w) !! id1 = Some u1 →
  users (run ops w) !! id2 = Some u2 →
  email u1 ≠ email u2.
Proof.
  intros Huniq Hne H1 H2 He.
  exact (Hne (run_unique_email ops w Huniq id1 id2 u1 u2 H1 H2 He)).
Qed.

(** *** The email pattern *)

Lemma test_Void (s : string) : Regex.test Regex.Void s = false.
Proof. induction s; simpl; auto. Qed.

Lemma within_cat allowed (r s : Regex.regex) :
  RegexShape.within allowed r → RegexShape.within allowed s →
  RegexShape.within allowed (Regex.cat r s).
Proof. destruct r, s; simpl; tauto. Qed.

Lemma within_alt allowed (r s : Regex.regex) :
  RegexShape.within allowed r → RegexShape.within allowed s →
  RegexShape.within allowed (Regex.alt r s).
Proof. destruct r, s; simpl; tauto. Qed.

Lemma within_deriv allowed c (r : Regex.regex) :
  RegexShape.within allowed r → RegexShape.within allowed (Regex.deriv c r).
Proof.
  induction r as [| |p|r1 IH1 r2 IH2|r1 IH1 r2 IH2|r IH]; simpl; try done.
  - by destruct (p c).
  - intros [H1 H2]. destruct (Regex.nullable r1).
    + apply within_alt; [apply within_cat|]; auto.
    + apply within_cat; auto.
  - intros [H1 H2]. apply within_alt; auto.
  - intros H. apply within_cat; auto.
Qed.

Lemma deriv_outside allowed c (r : Regex.regex) :
  RegexShape.within allowed r → allowed c = false →
  Regex.deriv c r = Regex.Void.
Proof.
  intros Hr Hc.
  induction r as [| |p|r1 IH1 r2 IH2|r1 IH1 r2 IH2|r IH]; simpl in *;
    try done.
  - destruct (p c) eqn:E; [|done]. apply Hr in E. congruence.
  - destruct Hr as [H1 H2]. rewrite IH1, IH2 by done.
    by destruct (Regex.nullable r1).
  - destruct Hr as [H1 H2]. by rewrite IH1, IH2.
  - by rewrite IH.
Qed.

Lemma test_within allowed (r : Regex.regex) (s : string) :
  RegexShape.within allowed r → Regex.test r s = true →
  RegexShape.every allowed s = true.
Proof.
  revert r. induction s as [|c s IH]; intros r Hr; [done|]. simpl.
  destruct (allowed c) eqn:Hc; simpl.
  - apply IH. by apply within_deriv.
  - by rewrite (deriv_outside allowed c r Hr Hc), test_Void.
Qed.

Lemma demands_not_nullable a (r : Regex.regex) :
  RegexShape.demands a r → Regex.nullable r = false.
Proof.
  induction r as [| |p|r1 IH1 r2 IH2|r1 IH1 r2 IH2|r IH]; simpl; try done.
  - intros [H|H]; [by rewrite IH1|by rewrite IH2, andb_false_r].
  - intros [H1 H2]. by rewrite IH1, IH2.
Qed.

Lemma demands_cat a (r s : Regex.regex) :
  RegexShape.demands a r ∨ RegexShape.demands a s →
  RegexShape.demands a (Regex.cat r s).
Proof. destruct r, s; simpl; tauto. Qed.

Lemma demands_alt a (r s : Regex.regex) :
  RegexShape.demands a r → RegexShape.demands a s →
  RegexShape.demands a (Regex.alt r s).
Proof. destruct r, s; simpl; tauto. Qed.

Lemma demands_deriv a c (r : Regex.regex) :
  c ≠ a → RegexShape.demands a r → RegexShape.demands a (Regex.deriv c r).
Proof.
  intros Hc.
  induction r as [| |p|r1 IH1 r2 IH2|r1 IH1 r2 IH2|r IH]; simpl; try done.
  - intros H. destruct (p c) eqn:E; [|done]. by apply H in E.
  - intros [H|H].
    + rewrite (demands_not_nullable a r1 H). apply demands_cat. auto.
    + destruct (Regex.nullable r1).
      * apply demands_alt; [apply demands_cat|]; auto.
      * apply demands_cat. auto.
  - intros [H1 H2]. apply demands_alt; auto.
Qed.

Lemma test_demands a (r : Regex.regex) (s : string) :
  RegexShape.demands a r → Regex.test r s = true → Js.contains a s = true.
Proof.
  revert r. induction s as [|c s IH]; intros r Hr; simpl.
  - by rewrite (demands_not_nullable a r Hr).
  - destruct (Ascii.eqb_spec c a) as [->|Hc]; [done|]. simpl.
    apply IH. by apply demands_deriv.
Qed.

Lemma email_pattern_within :
  RegexShape.within RegexShape.email_char UserSchema.email_pattern.
Proof.
  unfold UserSchema.email_pattern, Regex.plus, Regex.opt, Regex.chr,
    Regex.word. cbn [RegexShape.within].
  assert (Hword : ∀ c, Regex.is_word c = true →
                       RegexShape.email_char c = true).
  { intros c H. unfold RegexShape.email_char. by rewrite H. }
  assert (Hdd : ∀ c, Ascii.eqb c "." || Ascii.eqb c "-" = true →
                     RegexShape.email_char c = true).
  { intros c H. unfold RegexShape.email_char.
    apply orb_prop in H as [H|H]; rewrite H; by rewrite ?orb_true_r. }
  assert (Hat : ∀ c, Ascii.eqb "@" c = true →
                     RegexShape.email_char c = true).
  { by intros c <-%Ascii.eqb_eq. }
  assert (Hdot : ∀ c, Ascii.eqb "." c = true →
                      RegexShape.email_char c = true).
  { by intros c <-%Ascii.eqb_eq. }
  by repeat split.
Qed.

Lemma email_pattern_demands_at :
  RegexShape.demands "@" UserSchema.email_pattern.
Proof.
  unfold UserSchema.email_pattern, Regex.chr. cbn [RegexShape.demands].
  right. left. by intros c <-%Ascii.eqb_eq.
Qed.

Lemma email_pattern_demands_dot :
  RegexShape.demands "." UserSchema.email_pattern.
Proof.
  unfold UserSchema.email_pattern, Regex.plus, Regex.chr.
  cbn [RegexShape.demands].
  right. right. right. left. left. by intros c <-%Ascii.eqb_eq.
Qed.

(** X18. An email the schema's pattern accepts is made only of word
    characters, dots, dashes and at signs, and has at least one at sign
    and one dot. *)
Theorem accepted_email_shape (e : string) :
  Regex.test UserSchema.email_pattern e = true →
  RegexShape.every RegexShape.email_char e = true
  ∧ Js.contains "@" e = true ∧ Js.contains "." e = true.
Proof.
  intros H. split_and!.
  - exact (test_within _ _ _ email_pattern_within H).
  - exact (test_demands _ _ _ email_pattern_demands_at H).
  - exact (test_demands _ _ _ email_pattern_demands_dot H).
Qed.

(** X19. register refuses an input that misses the name, the email, the
    password or the tenant id, whose email the pattern rejects, whose
    password has fewer than six characters or whose role is not of the
    enumeration: it passes a validation error on, before anything is
    hashed or written. *)
Theorem register_invalid_input (req : Request) (w : World) :
  Js.truthy (body_name (body req)) = false
  ∨ Js.truthy (body_email (body req)) = false
  ∨ Js.truthy (body_password (body req)) = false
  ∨ Js.truthy (body_tenantId (body req)) = false
  ∨ (∃ e, body_email (body req) = Some e
          ∧ Regex.test UserSchema.email_pattern e = false)
  ∨ (∃ p, body_password (body req) = Some p ∧ (String.length p < 6)%nat)
  ∨ (∃ r, body_role (body req) = Some r ∧ r ∉ UserSchema.role_enum) →
  ∃ errors,
    errors ≠ []
    ∧ router PostRegister req w
      = (NextError (ValidationError errors), w, []).
Proof.
  intros Hcause.
  exists (UserSchema.validate
            (Mongoose.new_document (fresh (dom (users w))) (now w)
               (body_name (body req)) (body_email (body req))
               (body_password (body req)) (body_role (body req))
               (body_tenantId (body req)))).
  assert (Hne : UserSchema.validate
            (Mongoose.new_document (fresh (dom (users w))) (now w)
               (body_name (body req)) (body_email (body req))
               (body_password (body req)) (body_role (body req))
               (body_tenantId (body req))) ≠ []).
  { intros (n & e & p & t & Hn & Hn' & He & He' & Hp & Hp' & Hr & Ht & Ht')
      %validate_new_document_inv.
    destruct Hcause as [H|[H|[H|[H|[(e0 & H & H')|[(p0 & H & H')
                                  |(r0 & H & H')]]]]]].
    - rewrite Hn in H. by destruct n.
    - rewrite He in H. by destruct e.
    - rewrite Hp in H. destruct p; [simpl in Hp'; lia|done].
    - rewrite Ht in H. by destruct t.
    - congruence.
    - assert (p0 = p) as -> by congruence. lia.
    - destruct Hr as [Hr|(r' & Hr & Hin)]; congruence. }
  split; [done|].
  cbn [router]. unfold register, create, asyncHandler, mbind, M_bind, bind, get.
  cbv beta iota. rewrite save_unfold.
  by destruct (UserSchema.validate _).
Qed.

(** *** Profile updates *)

Lemma validate_name_ok (n : string) :
  n ≠ "" → UserSchema.validate_name (Some n) = [].
Proof. unfold UserSchema.validate_name, UserSchema.required. by destruct n. Qed.

Lemma validate_email_ok (e : string) :
  Regex.test UserSchema.email_pattern e = true →
  UserSchema.validate_email (Some e) = [].
Proof.
  intros He. pose proof (email_pattern_nonempty e He).
  unfold UserSchema.validate_email, UserSchema.required, UserSchema.match_.
  rewrite He. by destruct e.
Qed.

Lemma findByIdAndUpdate_validated (n e : option string) :
  n ≠ Some "" →
  (∀ e', e = Some e' → Regex.test UserSchema.email_pattern e' = true) →
  (if n is Some _ then UserSchema.validate_name n else [])
  ++ (if e is Some _ then UserSchema.validate_email e else []) = [].
Proof.
  intros Hn He. destruct n as [n|], e as [e|]; simpl;
    rewrite ?validate_name_ok by congruence;
    rewrite ?validate_email_ok by auto; done.
Qed.

(** X20. For a resolved identity whose record is stored, and a body
    whose name, if given, is not empty and whose email, if given, matches
    the pattern and is no other user's, updateDetails applies the name and
    the email to that record, each only if given, keeps every other field,
    and answers 200 with the updated record without its password. It does
    so in one find-and-update; with neither name nor email it only looks
    the record up by id, and answers with the record as it is. *)
Theorem updateDetails_applies
    (req : Request) (w : World) (acting : Document) (u : User) :
  user req = Some acting → users w !! _id acting = Some u →
  body_name (body req) ≠ Some "" →
  (∀ e, body_email (body req) = Some e →
        Regex.test UserSchema.email_pattern e = true
        ∧ ∀ j v, users w !! j = Some v → email v = e → j = _id acting) →
  let u' := mkUser (default (name u) (body_name (body req)))
              (default (email u) (body_email (body req)))
              (role u) (password u) (tenantId u) (createdAt u) in
  asyncHandler (updateDetails req) w =
    (Sent {| res_status := 200; res_cookies := [];
             res_json :=
               JsonData (Some (Mongoose.hydrate false (_id acting) u')) |},
     {| users := <[_id acting := u']> (users w); now := now w;
        entropy := entropy w |},
     [match body_name (body req), body_email (body req) with
      | None, None => EvFindById (_id acting)
      | _, _ => EvFindOneAndUpdate (_id acting)
      end]).
Proof.
  intros Hu Hw Hn He. cbv zeta.
  unfold updateDetails, findByIdAndUpdate, findById. rewrite Hu.
  rewrite findByIdAndUpdate_validated; [|done|intros e' H; by apply He].
  destruct (body_name (body req)) as [n|] eqn:Hbn,
           (body_email (body req)) as [e|] eqn:Hbe;
    run_M; rewrite Hw; cbv beta iota;
    cbn [default from_option andb fmap option_fmap option_map]; unfold id.
  1, 3: destruct (He e eq_refl) as [_ Hfree];
    assert (Mongoose.email_taken e (Some (_id acting)) (users w) = false)
      as -> by (apply email_taken_false; intros j v Hv Hev; f_equal;
                symmetry; by eapply Hfree);
    done.
  - done.
  - assert (Hsame : mkUser (name u) (email u) (role u) (password u)
                      (tenantId u) (createdAt u) = u) by (by destruct u).
    rewrite Hsame, insert_id by done. by destruct w.
Qed.


(** *** Seeding, then logging in *)



(** *** Password changes the schema refuses *)

Lemma validate_password_weak (v : option string) :
  (∀ p, v = Some p → (String.length p < 6)%nat) →
  UserSchema.validate_password v ≠ [].
Proof.
  intros Hv. unfold UserSchema.validate_password, UserSchema.required,
    UserSchema.minlength, UserSchema.password_minlength.
  destruct v as [p|]; [|done]. specialize (Hv p eq_refl).
  destruct p as [|c p]; [done|]. cbn [Js.truthy app].
  destruct (6 <=? _)%nat eqn:E; [|done]. apply Nat.leb_le in E. lia.
Qed.

Lemma set_password_selected (v : option string) id (u : User) :
  doc_password (Mongoose.set PPassword v (Mongoose.hydrate true id u)) = v
  ∧ password_selected
      (Mongoose.set PPassword v (Mongoose.hydrate true id u)) = true.
Proof.
  unfold Mongoose.set, Mongoose.isModified, Mongoose.hydrate. simpl.
  case_bool_decide as Hv; simpl; [by rewrite Hv|done].
Qed.

(** X23. updatePassword refuses a new password that is missing, empty or
    shorter than six characters even when the current password is right:
    it passes a validation error on, and nothing is hashed or written. *)
Theorem updatePassword_weak_password
    (req : Request) (w : World) (acting : Document) (u : User) (cur : string) :
  user req = Some acting →
  users w !! _id acting = Some u →
  body_currentPassword (body req) = Some cur →
  bcrypt_compare cur (password u) = true →
  (∀ p, body_newPassword (body req) = Some p → (String.length p < 6)%nat) →
  ∃ errors,
    errors ≠ []
    ∧ asyncHandler (updatePassword req) w
      = (NextError (ValidationError errors), w,
         [EvFindById (_id acting); EvBcryptCompare cur (password u)]).
Proof.
  intros Hu Hw Hcur Hcmp Hweak.
  set (d := Mongoose.set PPassword (body_newPassword (body req))
              (Mongoose.hydrate true (_id acting) u)).
  exists (UserSchema.validate d).
  assert (Hne : UserSchema.validate d ≠ []).
  { destruct (set_password_selected (body_newPassword (body req))
                (_id acting) u) as [Hp Hs].
    fold d in Hp, Hs. unfold UserSchema.validate. rewrite Hp, Hs.
    rewrite orb_true_r. cbn [orb].
    intros (_ & (_ & (_ & (H & _)%app_eq_nil)%app_eq_nil)%app_eq_nil)
      %app_eq_nil.
    by apply validate_password_weak in Hweak. }
  split; [done|].
  unfold updatePassword, findById, matchPassword.
  rewrite Hu, Hcur. run_M. rewrite Hw. simpl. rewrite Hcmp. simpl.
  rewrite save_unfold. fold d.
  by destruct (UserSchema.validate d).
Qed.

End Auth.

(** ** The reference collaborators meet the assumptions *)

Module ReferenceFacts.

Import Reference.

Lemma read_put_unary (n : nat) (rest : string) :
  read_unary (put_unary n rest) = Some (n, rest).
Proof. induction n as [|n IH]; simpl; [done|]. by rewrite IH. Qed.

Lemma take_cat (s rest : string) :
  take (String.length s) (cat s rest) = Some (s, rest).
Proof. induction s as [|c s IH]; simpl; [done|]. by rewrite IH. Qed.

Lemma get_put_str (s rest : string) : get_str (put_str s rest) = Some (s, rest).
Proof. unfold get_str, put_str. by rewrite read_put_unary, take_cat. Qed.

Lemma get_put_opt (o : option string) (rest : string) :
  get_opt (put_opt o rest) = Some (o, rest).
Proof. destruct o as [s|]; simpl; [|done]. by rewrite get_put_str. Qed.

Lemma decode_encode (c : Claims) : decode (encode c) = Some c.
Proof.
  unfold decode, encode. rewrite read_put_unary, !get_put_opt.
  destruct c. simpl. by rewrite N2Nat.id.
Qed.

Lemma jwt_roundtrip (c : Claims) (secret expiresIn : string) (at_ later : Z) :
  jwt_verify (jwt_sign c secret expiresIn at_) secret later = Some c.
Proof.
  unfold jwt_verify, jwt_sign. rewrite get_put_str, String.eqb_refl.
  apply decode_encode.
Qed.

Lemma bcrypt_compare_hash (p salt : string) :
  bcrypt_compare p (bcrypt_hash p salt) = true.
Proof.
  unfold bcrypt_compare, bcrypt_hash. rewrite get_put_str.
  apply String.eqb_refl.
Qed.

Lemma bcrypt_compare_other (p q salt : string) :
  p ≠ q → bcrypt_compare p (bcrypt_hash q salt) = false.
Proof.
  intros Hne. unfold bcrypt_compare, bcrypt_hash. rewrite get_put_str.
  apply String.eqb_neq. congruence.
Qed.

Lemma length_cat (s rest : string) :
  String.length (cat s rest) = (String.length s + String.length rest)%nat.
Proof. induction s as [|c s IH]; simpl; [done|]. by rewrite IH. Qed.

Lemma length_put_unary (n : nat) (rest : string) :
  String.length (put_unary n rest) = (S n + String.length rest)%nat.
Proof. induction n as [|n IH]; simpl; [done|]. by rewrite IH. Qed.

Lemma bcrypt_hash_neq (p salt : string) : bcrypt_hash p salt ≠ p.
Proof.
  intros H. apply (f_equal String.length) in H. revert H.
  unfold bcrypt_hash, put_str. rewrite length_put_unary, length_cat. lia.
Qed.

End ReferenceFacts.

(** ** The properties at work on the reference collaborators *)

Module Witness.

Import Sample.

Local Abbreviation ref_login := (login Reference.env Reference.bcrypt_compare
                           Reference.jwt_sign).
Local Abbreviation ref_protect := (protect Reference.env Reference.jwt_verify).
Local Abbreviation ref_register :=
  (register Reference.env Reference.bcrypt_genSalt Reference.bcrypt_hash
     Reference.jwt_sign).
Local Abbreviation ref_updatePassword :=
  (updatePassword Reference.env Reference.bcrypt_genSalt
     Reference.bcrypt_hash Reference.bcrypt_compare Reference.jwt_sign).
Local Abbreviation ref_router :=
  (router Reference.env Reference.bcrypt_genSalt Reference.bcrypt_hash
     Reference.bcrypt_compare Reference.jwt_sign Reference.jwt_verify).
Local Abbreviation ref_run :=
  (run Reference.env Reference.bcrypt_genSalt Reference.bcrypt_hash
     Reference.bcrypt_compare Reference.jwt_sign Reference.jwt_verify).
Local Abbreviation ref_all_digests :=
  (all_digests Reference.bcrypt_genSalt Reference.bcrypt_hash).

Lemma w1_only_alice id (u : User) :
  users w1 !! id = Some u → id = 0%N ∧ u = alice.
Proof. unfold w1. simpl. by intros [<- <-]%lookup_singleton_Some. Qed.

Lemma ref_cookie_expires (at_ : Z) :
  Z.abs (at_ + 2592000000) ≤ 8640000000000000 →
  is_Some (cookie_expires Reference.env at_).
Proof.
  intros H. exists (at_ + 30 * 24 * 60 * 60 * 1000).
  unfold cookie_expires. cbn [Number_COOKIE_EXPIRE Reference.env].
  cbv zeta. unfold Js.valid_date.
  replace (at_ + 30 * 24 * 60 * 60 * 1000) with (at_ + 2592000000) by lia.
  by rewrite (proj2 (Z.leb_le _ _) H).
Qed.

Lemma w1_unique_email : unique_email (users w1).
Proof.
  intros i j ui uj [-> _]%w1_only_alice [-> _]%w1_only_alice _. done.
Qed.

Lemma login_failures_indistinguishable_witness :
  (asyncHandler (ref_login (post (credentials "nobody@b.com" "secret1"))) w1).1.1
    = NextError (ErrorResponse "Invalid credentials" 401)
  ∧ (asyncHandler (ref_login (post (credentials "a@b.com" "wrong"))) w1).1.1
    = NextError (ErrorResponse "Invalid credentials" 401).
Proof.
  assert (Hnone : ∀ id u, users w1 !! id = Some u → email u ≠ "nobody@b.com")
    by (by intros id u [-> ->]%w1_only_alice).
  assert (Hex : ∃ id u, users w1 !! id = Some u ∧ email u = "a@b.com")
    by (by exists 0%N, alice).
  assert (Hcmp : ∀ id u, users w1 !! id = Some u → email u = "a@b.com" →
                   Reference.bcrypt_compare "wrong" (password u) = false)
    by (by intros id u [-> ->]%w1_only_alice _).
  destruct (login_failures_indistinguishable Reference.env
              Reference.bcrypt_compare Reference.jwt_sign
              (post (credentials "nobody@b.com" "secret1"))
              (post (credentials "a@b.com" "wrong")) w1 w1
              "nobody@b.com" "secret1" "a@b.com" "wrong"
              eq_refl eq_refl ltac:(done) ltac:(done) Hnone
              eq_refl eq_refl ltac:(done) ltac:(done) Hex Hcmp)
    as (H1 & H2 & _).
  by split.
Defined.

Lemma login_requires_email_and_password_witness :
  asyncHandler (ref_login (post (credentials "" "secret1"))) w1
  = (NextError (ErrorResponse "Please provide an email and password" 400),
     w1, []).
Proof.
  apply (login_requires_email_and_password Reference.env
           Reference.bcrypt_compare Reference.jwt_sign).
  right; left. reflexivity.
Defined.

Lemma protect_token_and_failures_witness :
  asyncHandler (ref_protect (post no_body)) w1
  = (NextError (ErrorResponse "Not authorized to access this route" 401),
     w1, [])
  ∧ asyncHandler (ref_protect (bearer "garbage")) w1
    = (NextError (ErrorResponse "Not authorized to access this route" 401),
       w1, [EvJwtVerify "garbage"]).
Proof.
  split.
  - apply (protect_token_and_failures Reference.env Reference.jwt_verify).
    left. reflexivity.
  - apply (protect_token_and_failures Reference.env Reference.jwt_verify);
      [reflexivity|done|reflexivity].
Defined.

Lemma protect_unresolved_identity_witness :
  asyncHandler (ref_protect (bearer stale_token)) w1
  = (NextHandler None, w1, [EvJwtVerify stale_token; EvFindById 7%N]).
Proof.
  apply (protect_unresolved_identity Reference.env Reference.jwt_verify
           (bearer stale_token) w1 stale_token (claims_of 7%N)).
  - vm_compute. reflexivity.
  - done.
  - apply ReferenceFacts.jwt_roundtrip.
  - reflexivity.
Defined.

Lemma protect_bearer_ignores_cookie_witness :
  Reference.jwt_verify alice_token "s3cr3t" 2000 = Some (claims_of 0%N)
  ∧ asyncHandler
      (ref_protect (mkRequest (Some "Bearer") (Some alice_token) no_body None)) w1
    = (NextError (ErrorResponse "Not authorized to access this route" 401),
       w1, []).
Proof.
  split; [apply ReferenceFacts.jwt_roundtrip|].
  apply (protect_bearer_ignores_cookie Reference.env Reference.jwt_verify
           (mkRequest (Some "Bearer") None no_body None) w1 "Bearer"
           eq_refl eq_refl).
  left. reflexivity.
Defined.

Lemma register_valid_input_witness :
  ∃ r w' tr token decoded u,
    asyncHandler (ref_register (post registration)) empty = (Sent r, w', tr)
    ∧ res_status r = 200 ∧ res_json r = JsonToken token
    ∧ Reference.jwt_verify token (JWT_SECRET Reference.env) (now w')
      = Some decoded
    ∧ users empty !! claim_id decoded = None
    ∧ users w' !! claim_id decoded = Some u
    ∧ Some (email u) = Some "a@b.com"
    ∧ Some (password u) ≠ Some "secret1"
    ∧ ∀ id, id ≠ claim_id decoded → users w' !! id = users empty !! id.
Proof.
  apply (register_valid_input Reference.env Reference.bcrypt_genSalt
           Reference.bcrypt_hash Reference.jwt_sign Reference.jwt_verify
           (post registration) empty).
  - intros c at_. apply ReferenceFacts.jwt_roundtrip.
  - intros p k. apply ReferenceFacts.bcrypt_hash_neq.
  - apply ref_cookie_expires. simpl. lia.
  - vm_compute. reflexivity.
  - intros id u Hu. simpl in Hu. by rewrite lookup_empty in Hu.
Defined.

(** C3 as it is stated fails when the expiry of the token cookie is not a
    valid date: with COOKIE_EXPIRE = 200000000 a valid registration
    stores the user, and then passes a TypeError on instead of a token. *)
Lemma register_valid_input_fails_on_cookie_expiry :
  (∀ c at_,
     Reference.jwt_verify
       (Reference.jwt_sign c (JWT_SECRET far_env) (JWT_EXPIRE far_env) at_)
       (JWT_SECRET far_env) at_ = Some c)
  ∧ (∀ plaintext k,
       Reference.bcrypt_hash plaintext (Reference.bcrypt_genSalt 10 k)
       ≠ plaintext)
  ∧ UserSchema.validate
      (Mongoose.new_document (fresh (dom (users empty))) (now empty)
         (body_name (body (post registration)))
         (body_email (body (post registration)))
         (body_password (body (post registration)))
         (body_role (body (post registration)))
         (body_tenantId (body (post registration)))) = []
  ∧ (∀ id u, users empty !! id = Some u →
       Some (email u) ≠ body_email (body (post registration)))
  ∧ ∃ w' t u,
      asyncHandler
        (register far_env Reference.bcrypt_genSalt Reference.bcrypt_hash
           Reference.jwt_sign (post registration)) empty
      = (NextError TypeError, w', t)
      ∧ users w' !! fresh (dom (users empty)) = Some u
      ∧ email u = "a@b.com".
Proof.
  split_and!.
  - intros c at_. apply ReferenceFacts.jwt_roundtrip.
  - intros p k. apply ReferenceFacts.bcrypt_hash_neq.
  - vm_compute. reflexivity.
  - intros id u Hu. simpl in Hu. by rewrite lookup_empty in Hu.
  - do 3 eexists. split_and!.
    + vm_compute. reflexivity.
    + vm_compute. reflexivity.
    + reflexivity.
Qed.

Lemma password_always_digest_witness :
  ref_all_digests
    (ref_run [Http PostRegister (post registration); Seed; Tick 5000; Seed;
              Http PutUpdatePassword
                (with_token alice_token (change_password "secret1" "secret2"));
              Http PutUpdateDetails (with_token alice_token details)]
       empty).
Proof.
  destruct (password_always_digest Reference.env Reference.bcrypt_genSalt
              Reference.bcrypt_hash Reference.bcrypt_compare
              Reference.jwt_sign Reference.jwt_verify
              (λ p k, ReferenceFacts.bcrypt_hash_neq p _))
    as (_ & Hrun & _).
  exact (Hrun _ 1000 0%nat).
Defined.

Lemma updatePassword_then_login_witness :
  ∃ r w' t,
    asyncHandler
      (ref_updatePassword (as_alice (change_password "secret1" "secret2"))) w1
    = (Sent r, w', t)
    ∧ (∃ r' token,
         (asyncHandler (ref_login (post (credentials "a@b.com" "secret2")))
                       w').1.1 = Sent r'
         ∧ res_status r' = 200 ∧ res_json r' = JsonToken token)
    ∧ (asyncHandler (ref_login (post (credentials "a@b.com" "secret1")))
                    w').1.1
      = NextError (ErrorResponse "Invalid credentials" 401).
Proof.
  destruct (asyncHandler
              (ref_updatePassword
                 (as_alice (change_password "secret1" "secret2"))) w1)
    as [[o w'] t] eqn:Hrun.
  assert (Ho : ∃ r, o = Sent r).
  { apply (f_equal (λ x, x.1.1)) in Hrun. vm_compute in Hrun.
    rewrite <- Hrun. by eexists. }
  assert (Hnow : now w' = 2000).
  { pose proof (f_equal (λ x, now x.1.2) Hrun) as H. vm_compute in H.
    exact (eq_sym H). }
  destruct Ho as [r ->]. exists r, w', t. split; [done|].
  destruct (updatePassword_then_login Reference.env Reference.bcrypt_genSalt
              Reference.bcrypt_hash Reference.bcrypt_compare
              Reference.jwt_sign
              (as_alice (change_password "secret1" "secret2")) w1
              alice_doc alice "secret1" "secret2" r w' t)
    as (_ & _ & Hnew & Hold); try done.
  - intros p k. apply ReferenceFacts.bcrypt_compare_hash.
  - apply w1_unique_email.
  - split.
    + apply (Hnew (post (credentials "a@b.com" "secret2")) w'); try done.
      apply ref_cookie_expires. rewrite Hnow. simpl. lia.
    + apply (Hold (post (credentials "a@b.com" "secret1")) w'); try done.
      intros k. by apply ReferenceFacts.bcrypt_compare_other.
Defined.

(** The amended C5 asks for a valid cookie expiry at the later login: at
    a time so late that the expiry is no date, the login with the new
    password passes a TypeError on instead of a token. *)
Lemma login_after_updatePassword_fails_on_cookie_expiry :
  ∃ r w' t,
    asyncHandler
      (ref_updatePassword (as_alice (change_password "secret1" "secret2"))) w1
    = (Sent r, w', t)
    ∧ (asyncHandler (ref_login (post (credentials "a@b.com" "secret2")))
         {| users := users w'; now := 8640000000000000;
            entropy := entropy w' |}).1.1
      = NextError TypeError.
Proof.
  do 3 eexists. split; [vm_compute; reflexivity|]. vm_compute. reflexivity.
Qed.

(** C5 as it is stated fails when the new password is the old one: the
    change succeeds and the old password still logs in. *)
Lemma updatePassword_same_password_old_login_succeeds :
  ∃ r w' t r',
    asyncHandler
      (ref_updatePassword (as_alice (change_password "secret1" "secret1"))) w1
    = (Sent r, w', t)
    ∧ (asyncHandler (ref_login (post (credentials "a@b.com" "secret1")))
                    w').1.1 = Sent r'
    ∧ (asyncHandler (ref_login (post (credentials "a@b.com" "secret1")))
                    w').1.1
      ≠ NextError (ErrorResponse "Invalid credentials" 401).
Proof.
  do 4 eexists. split; [vm_compute; reflexivity|].
  split; [vm_compute; reflexivity|]. vm_compute. discriminate.
Qed.

Lemma cookie_contract_witness :
  ∃ r w' t c,
    ref_router PostLogin (post (credentials "a@b.com" "secret1")) w1
    = (Sent r, w', t)
    ∧ c ∈ res_cookies r
    ∧ cookie_name c = "token"
    ∧ httpOnly (cookie_options c) = Some true
    ∧ path (cookie_options c) = Some "/"
    ∧ res_json r = JsonToken (cookie_value c)
    ∧ expires (cookie_options c) = 2000 + 30 * 24 * 60 * 60 * 1000
    ∧ sameSite (cookie_options c) = Some Lax
    ∧ secure (cookie_options c) = Some true.
Proof.
  destruct (ref_router PostLogin (post (credentials "a@b.com" "secret1")) w1)
    as [[o w'] t] eqn:Hrun.
  assert (Ho : ∃ r c, o = Sent r ∧ res_cookies r = [c]).
  { apply (f_equal (λ x, x.1.1)) in Hrun. vm_compute in Hrun.
    rewrite <- Hrun. by do 2 eexists. }
  destruct Ho as (r & c & -> & Hc). exists r, w', t, c.
  assert (Hin : c ∈ res_cookies r)
    by (rewrite Hc; by apply list_elem_of_singleton).
  destruct (cookie_contract Reference.env Reference.bcrypt_genSalt
              Reference.bcrypt_hash Reference.bcrypt_compare
              Reference.jwt_sign Reference.jwt_verify
              PostLogin (post (credentials "a@b.com" "secret1")) w1 r w' t c
              Hrun Hin)
    as (Hname & Hhttp & Hpath & _ & Hissue).
  destruct Hissue as (_ & Hjson & Hexp & Hsame & Hsec); [done|].
  by split_and!.
Defined.

(** C6 as it is stated fails for logout: in production its cookie has
    neither sameSite=lax nor secure. *)
Lemma logout_cookie_lacks_sameSite_and_secure :
  NODE_ENV Reference.env = Some "production"
  ∧ ∃ r c,
      ref_router GetLogout (post no_body) w1 = (Sent r, w1, [])
      ∧ c ∈ res_cookies r
      ∧ sameSite (cookie_options c) ≠ Some Lax
      ∧ secure (cookie_options c) ≠ Some true.
Proof.
  split; [reflexivity|]. do 2 eexists.
  split; [reflexivity|]. split; [by apply list_elem_of_singleton|].
  by split.
Qed.

Lemma updateDetails_frame_witness :
  ∃ o w' t,
    asyncHandler (updateDetails (as_alice details)) w1 = (o, w', t)
    ∧ (∃ u', users w' !! 0%N = Some u'
             ∧ role u' = "student" ∧ password u' = alice_digest
             ∧ tenantId u' = "S1")
    ∧ asyncHandler
        (updateDetails (set_body (mkBody (Some "B") None None None None
                                    None None)
                          (as_alice details))) w1
      = (o, w', t).
Proof.
  destruct (asyncHandler (updateDetails (as_alice details)) w1)
    as [[o w'] t] eqn:Hrun.
  exists o, w', t. split; [done|].
  destruct (updateDetails_frame (as_alice details) w1 alice_doc o w' t
              eq_refl Hrun)
    as (_ & _ & _ & _ & Hsome & _ & Hbody).
  split.
  - destruct (Hsome alice eq_refl) as (u' & Hu' & ? & ? & ? & _).
    by exists u'.
  - by apply Hbody.
Defined.

(** Instances of the further properties. *)

Local Abbreviation ref_seedAdmin :=
  (seedAdmin Reference.bcrypt_genSalt Reference.bcrypt_hash).

Lemma empty_free (e : string) id (u : User) :
  users empty !! id = Some u → email u ≠ e.
Proof. intros Hu. simpl in Hu. by rewrite lookup_empty in Hu. Qed.

Lemma empty_unique_email : unique_email (users empty).
Proof. intros i j ui uj Hi. simpl in Hi. by rewrite lookup_empty in Hi. Qed.

Lemma w_admin_unique_email : unique_email (users w_admin).
Proof.
  intros i j ui uj Hi Hj _. unfold w_admin in Hi, Hj. simpl in Hi, Hj.
  apply lookup_singleton_Some in Hi as [<- _].
  by apply lookup_singleton_Some in Hj as [<- _].
Qed.

Lemma alice_valid : valid_user alice.
Proof. split_and!; [done|by vm_compute|done]. Qed.

Lemma w2_unique_email : unique_email (users w2).
Proof.
  assert (H : ∀ i u, users w2 !! i = Some u →
                (i = 0%N ∧ u = alice) ∨ (i = 1%N ∧ u = bob)).
  { intros i u. unfold w2. cbn [users].
    intros [[<- <-]|[_ [<- <-]%lookup_singleton_Some]]%lookup_insert_Some;
      auto. }
  intros i j ui uj [[-> ->]|[-> ->]]%H [[-> ->]|[-> ->]]%H; done.
Qed.

Lemma w_tenantless_unique_email : unique_email (users w_tenantless).
Proof.
  intros i j ui uj Hi Hj _. unfold w_tenantless in Hi, Hj. simpl in Hi, Hj.
  apply lookup_singleton_Some in Hi as [<- _].
  by apply lookup_singleton_Some in Hj as [<- _].
Qed.

Lemma authorize_by_role_witness :
  authorize ["admin"; "student"] (as_alice no_body) w1
  = (inr (NextHandler (Some alice_doc)), w1, [])
  ∧ authorize ["admin"] (as_alice no_body) w1
    = (inr (NextError (ErrorResponse
         "User role student is not authorized to access this route" 403)),
       w1, []).
Proof.
  split.
  - apply (proj1 (authorize_by_role ["admin"; "student"] (as_alice no_body)
                    w1 alice_doc "student" eq_refl eq_refl)).
    apply list_elem_of_further, list_elem_of_here.
  - apply (proj2 (authorize_by_role ["admin"] (as_alice no_body)
                    w1 alice_doc "student" eq_refl eq_refl)).
    by intros [=]%list_elem_of_singleton.
Defined.


Lemma guarded_routes_need_token_witness :
  ∃ t, ref_router PutUpdateDetails (post details) w1
       = (NextError (ErrorResponse "Not authorized to access this route" 401),
          w1, t)
       ∧ ∀ ev, ev ∈ t → is_store_access ev = false.
Proof.
  apply (guarded_routes_need_token Reference.env Reference.bcrypt_genSalt
           Reference.bcrypt_hash Reference.bcrypt_compare
           Reference.jwt_sign Reference.jwt_verify
           PutUpdateDetails (post details) w1).
  - by left.
  - left. reflexivity.
Defined.

Lemma guarded_routes_stale_token_witness :
  ref_router PutUpdatePassword (bearer stale_token) w1
  = (NextError TypeError, w1, [EvJwtVerify stale_token; EvFindById 7%N]).
Proof.
  apply (guarded_routes_stale_token Reference.env Reference.bcrypt_genSalt
           Reference.bcrypt_hash Reference.bcrypt_compare
           Reference.jwt_sign Reference.jwt_verify
           PutUpdatePassword (bearer stale_token) w1 stale_token
           (claims_of 7%N)).
  - by right.
  - vm_compute. reflexivity.
  - done.
  - apply ReferenceFacts.jwt_roundtrip.
  - reflexivity.
Defined.

Lemma updatePassword_wrong_current_witness :
  asyncHandler
    (ref_updatePassword (as_alice (change_password "wrong" "secret2"))) w1
  = (NextError (ErrorResponse "Current password is incorrect" 401), w1,
     [EvFindById 0%N; EvBcryptCompare "wrong" alice_digest]).
Proof.
  apply (updatePassword_wrong_current Reference.env Reference.bcrypt_genSalt
           Reference.bcrypt_hash Reference.bcrypt_compare
           Reference.jwt_sign
           (as_alice (change_password "wrong" "secret2")) w1 alice_doc alice
           "wrong" eq_refl eq_refl eq_refl).
  vm_compute. reflexivity.
Defined.

Lemma updatePassword_frame_witness :
  ∃ o w' t,
    asyncHandler
      (ref_updatePassword (as_alice (change_password "secret1" "secret2"))) w1
    = (o, w', t)
    ∧ now w' = 2000
    ∧ ∃ u', users w' !! 0%N = Some u'
            ∧ name u' = "A" ∧ email u' = "a@b.com" ∧ role u' = "student"
            ∧ tenantId u' = "S1" ∧ createdAt u' = 1000.
Proof.
  destruct (asyncHandler
              (ref_updatePassword
                 (as_alice (change_password "secret1" "secret2"))) w1)
    as [[o w'] t] eqn:Hrun.
  exists o, w', t. split; [done|].
  destruct (updatePassword_frame Reference.env Reference.bcrypt_genSalt
              Reference.bcrypt_hash Reference.bcrypt_compare
              Reference.jwt_sign
              (as_alice (change_password "secret1" "secret2")) w1 alice_doc
              o w' t eq_refl Hrun)
    as (Hnow & _ & _ & Hsome).
  split; [done|]. destruct (Hsome alice eq_refl) as (u' & Hu' & H).
  by exists u'.
Defined.


Lemma register_taken_email_witness :
  asyncHandler (ref_register (post registration)) w1
  = (NextError DuplicateKeyError,
     {| users := users w1; now := 2000; entropy := 2 |},
     [EvBcryptHash "secret1" (Reference.bcrypt_genSalt 10 1);
      EvInsertOne (fresh (dom (users w1)))]).
Proof.
  apply (register_taken_email Reference.env Reference.bcrypt_genSalt
           Reference.bcrypt_hash Reference.jwt_sign
           (post registration) w1 "A" "a@b.com" "secret1" "S1" 0%N alice
           eq_refl eq_refl eq_refl eq_refl).
  - vm_compute. reflexivity.
  - reflexivity.
  - reflexivity.
Defined.


Lemma signed_token_opens_guard_witness :
  asyncHandler (ref_protect (bearer alice_token)) w1
  = (NextHandler (Some alice_doc), w1,
     [EvJwtVerify alice_token; EvFindById 0%N]).
Proof.
  destruct (signed_token_opens_guard Reference.env Reference.jwt_sign
              Reference.jwt_verify (bearer alice_token) w1 (claims_of 0%N)
              1000 alice)
    as [H _].
  - done.
  - apply ReferenceFacts.jwt_roundtrip.
  - reflexivity.
  - right. split; [reflexivity|]. vm_compute. reflexivity.
  - exact H.
Defined.

Lemma responses_hide_password_witness :
  ∃ r w' t d,
    ref_router PutUpdateDetails (with_token alice_token details) w1
    = (Sent r, w', t)
    ∧ res_json r = JsonData (Some d) ∧ doc_password d = None.
Proof.
  destruct (ref_router PutUpdateDetails (with_token alice_token details) w1)
    as [[o w'] t] eqn:Hrun.
  assert (Ho : ∃ r d, o = Sent r ∧ res_json r = JsonData (Some d)).
  { apply (f_equal (λ x, x.1.1)) in Hrun. vm_compute in Hrun.
    rewrite <- Hrun. by do 2 eexists. }
  destruct Ho as (r & d & -> & Hd). exists r, w', t, d.
  split; [done|]. split; [done|].
  pose proof (responses_hide_password Reference.env Reference.bcrypt_genSalt
                Reference.bcrypt_hash Reference.bcrypt_compare
                Reference.jwt_sign Reference.jwt_verify
                PutUpdateDetails (with_token alice_token details) w1 r w' t
                Hrun) as H.
  by rewrite Hd in H.
Defined.

Lemma seedAdmin_creates_admin_witness :
  ∃ w',
    ref_seedAdmin empty
    = (0, w',
       [EvFindOne "admin@cityschool.com";
        EvBcryptHash "adminpassword123" (Reference.bcrypt_genSalt 10 0);
        EvInsertOne (fresh (dom (users empty)))])
    ∧ users w' !! fresh (dom (users empty))
      = Some (mkUser "Super Admin" "admin@cityschool.com" "super-admin"
                (Reference.bcrypt_hash "adminpassword123"
                   (Reference.bcrypt_genSalt 10 0))
                "HQ-GLOBAL" 1000).
Proof.
  destruct (seedAdmin_creates_admin Reference.bcrypt_genSalt
              Reference.bcrypt_hash empty (empty_free "admin@cityschool.com"))
    as [_ Hrun].
  eexists. split; [exact Hrun|]. cbn [users]. apply lookup_insert_eq.
Defined.

Lemma seedAdmin_promotes_existing_witness :
  ∃ t, ref_seedAdmin w_admin
       = (0, {| users := <[5%N := promoted old_admin]> (users w_admin);
                now := now w_admin; entropy := entropy w_admin |}, t)
       ∧ hashes t = [].
Proof.
  apply (seedAdmin_promotes_existing Reference.bcrypt_genSalt
           Reference.bcrypt_hash w_admin 5%N old_admin).
  - apply w_admin_unique_email.
  - reflexivity.
  - reflexivity.
  - done.
Defined.

Lemma seedAdmin_idempotent_witness :
  ∃ w' t id,
    ref_seedAdmin empty = (0, w', t)
    ∧ ref_seedAdmin w'
      = (0, w', [EvFindOne "admin@cityschool.com"; EvFindById id]).
Proof.
  pose proof (seedAdmin_create_run Reference.bcrypt_genSalt
                Reference.bcrypt_hash empty
                (empty_free "admin@cityschool.com")) as Hrun.
  destruct (seedAdmin_idempotent Reference.bcrypt_genSalt
              Reference.bcrypt_hash empty _ _ _ empty_unique_email Hrun
              eq_refl)
    as (id & u & _ & _ & H).
  eexists _, _, id. split; [exact Hrun|exact H].
Defined.

Lemma seedAdmin_invalid_existing_witness :
  ref_seedAdmin w_tenantless
  = (1, w_tenantless, [EvFindOne "admin@cityschool.com"]).
Proof.
  apply (seedAdmin_invalid_existing Reference.bcrypt_genSalt
           Reference.bcrypt_hash w_tenantless 5%N tenantless_admin).
  - apply w_tenantless_unique_email.
  - reflexivity.
  - reflexivity.
  - reflexivity.
Defined.


Lemma run_valid_store_witness :
  valid_store
    (ref_run [Http PostRegister (post registration); Seed;
              Http PutUpdateDetails (with_token alice_token details);
              Tick 5000]
       w1).
Proof.
  apply (run_valid_store Reference.env Reference.bcrypt_genSalt
           Reference.bcrypt_hash Reference.bcrypt_compare
           Reference.jwt_sign Reference.jwt_verify).
  intros id u [_ ->]%w1_only_alice. exact alice_valid.
Defined.

Lemma run_keeps_emails_unique_witness :
  ∃ u0 u2,
    users (ref_run [Http PostRegister (post registration);
                    Http PostRegister
                      (post (registration_of "C" "carol@b.com"));
                    Http PutUpdateDetails
                      (with_token alice_token take_bobs_email);
                    Http PutUpdateDetails (with_token alice_token details)]
             w2) !! 0%N = Some u0
    ∧ users (ref_run [Http PostRegister (post registration);
                      Http PostRegister
                        (post (registration_of "C" "carol@b.com"));
                      Http PutUpdateDetails
                        (with_token alice_token take_bobs_email);
                      Http PutUpdateDetails (with_token alice_token details)]
               w2) !! 2%N = Some u2
    ∧ name u0 = "B" ∧ name u2 = "C"
    ∧ email u0 ≠ email u2.
Proof.
  do 2 eexists.
  split; [vm_compute; reflexivity|]. split; [vm_compute; reflexivity|].
  split; [reflexivity|]. split; [reflexivity|].
  apply (run_keeps_emails_unique Reference.env Reference.bcrypt_genSalt
           Reference.bcrypt_hash Reference.bcrypt_compare
           Reference.jwt_sign Reference.jwt_verify
           [Http PostRegister (post registration);
            Http PostRegister (post (registration_of "C" "carol@b.com"));
            Http PutUpdateDetails (with_token alice_token take_bobs_email);
            Http PutUpdateDetails (with_token alice_token details)]
           w2 0%N 2%N).
  - apply w2_unique_email.
  - done.
  - vm_compute. reflexivity.
  - vm_compute. reflexivity.
Defined.

Lemma accepted_email_shape_witness :
  RegexShape.every RegexShape.email_char "a.b-c@d.io" = true
  ∧ Js.contains "@" "a.b-c@d.io" = true ∧ Js.contains "." "a.b-c@d.io" = true.
Proof. apply (accepted_email_shape "a.b-c@d.io"). vm_compute. reflexivity. Defined.

Lemma register_invalid_input_witness :
  ∃ errors,
    errors ≠ []
    ∧ ref_router PostRegister (post bad_registration) w1
      = (NextError (ValidationError errors), w1, []).
Proof.
  apply (register_invalid_input Reference.env Reference.bcrypt_genSalt
           Reference.bcrypt_hash Reference.bcrypt_compare
           Reference.jwt_sign Reference.jwt_verify
           (post bad_registration) w1).
  do 4 right. left. exists "not-an-email". split; [reflexivity|].
  vm_compute. reflexivity.
Defined.

Lemma updateDetails_applies_witness :
  asyncHandler (updateDetails (as_alice details)) w1
  = (Sent {| res_status := 200; res_cookies := [];
             res_json :=
               JsonData (Some (Mongoose.hydrate false 0%N
                  (mkUser "B" "a@b.com" "student" alice_digest "S1" 1000))) |},
     {| users := <[0%N := mkUser "B" "a@b.com" "student" alice_digest "S1"
                            1000]> (users w1);
        now := 2000; entropy := 1 |},
     [EvFindOneAndUpdate 0%N])
  ∧ asyncHandler (updateDetails (as_alice no_body)) w1
    = (Sent {| res_status := 200; res_cookies := [];
               res_json := JsonData (Some (Mongoose.hydrate false 0%N alice)) |},
       {| users := <[0%N := alice]> (users w1); now := 2000; entropy := 1 |},
       [EvFindById 0%N]).
Proof.
  split.
  - apply (updateDetails_applies (as_alice details) w1 alice_doc alice
             eq_refl eq_refl).
    + done.
    + intros e [=].
  - apply (updateDetails_applies (as_alice no_body) w1 alice_doc alice
             eq_refl eq_refl).
    + done.
    + intros e [=].
Defined.



Lemma updatePassword_weak_password_witness :
  ∃ errors,
    errors ≠ []
    ∧ asyncHandler
        (ref_updatePassword (as_alice (change_password "secret1" "abc"))) w1
      = (NextError (ValidationError errors), w1,
         [EvFindById 0%N; EvBcryptCompare "secret1" alice_digest]).
Proof.
  apply (updatePassword_weak_password Reference.env Reference.bcrypt_genSalt
           Reference.bcrypt_hash Reference.bcrypt_compare
           Reference.jwt_sign
           (as_alice (change_password "secret1" "abc")) w1 alice_doc alice
           "secret1" eq_refl eq_refl eq_refl).
  - vm_compute. reflexivity.
  - intros p [= <-]. cbn. lia.
Defined.

End Witness.
